(** * xlsx_parser: the parse-or-forward pipeline of [gcf_xlsx_parser/main.py]

    A shallow embedding of [GCPXLSXParser] and of the two triggers, with the
    collaborators the module calls (Cloud Storage, [requests], pandas'
    [ExcelFile]) kept behind an interface, followed by the properties of the
    pipeline.

    Conventions.
    - A Python [str] is a [string]; a character is a code point below 256.
    - An exception is its class and [str(e)]; every exception modelled is a
      subclass of [Exception].
    - Calls to [logging] write to a local file only and are left out. *)

From Stdlib Require Import ZArith Lia Bool List String Ascii DecimalString.
From stdpp Require Import base strings list gmap.

Set Warnings "-register-all".
Local Open Scope string_scope.
Local Open Scope list_scope.

(* ===================================================================== *)
(** ** Python values and primitives *)
(* ===================================================================== *)

Module Py.

Inductive exn_class :=
| ValueError | TypeError | AttributeError | KeyError
| RequestException   (* requests.exceptions.RequestException and subclasses *)
| OtherException.    (* any other subclass of Exception raised by a library *)

Record exn := Exn { exn_cls : exn_class; exn_msg : string }.

Inductive result (A : Type) :=
| Ok (a : A)
| Raise (e : exn).
Arguments Ok {A} a.
Arguments Raise {A} e.

Definition is_request_exception (e : exn) : bool :=
  match exn_cls e with RequestException => true | _ => false end.

(** Values that travel as JSON: what [response.json()] and
    [request.get_json()] return.  A float is carried by the only thing the
    module can observe of it, whether it is zero, and by its text. *)
Inductive json :=
| JNull
| JBool (b : bool)
| JInt (z : Z)
| JFloat (is_zero : bool) (text : string)
| JStr (s : string)
| JArr (l : list json)
| JObj (kv : list (string * json)).

Definition type_name (j : json) : string :=
  match j with
  | JNull => "NoneType" | JBool _ => "bool" | JInt _ => "int"
  | JFloat _ _ => "float" | JStr _ => "str" | JArr _ => "list"
  | JObj _ => "dict"
  end.

(** [bool(x)] *)
Definition truthy (j : json) : bool :=
  match j with
  | JNull => false
  | JBool b => b
  | JInt z => negb (Z.eqb z 0)
  | JFloat is_zero _ => negb is_zero
  | JStr s => negb (String.eqb s "")
  | JArr l => match l with [] => false | _ => true end
  | JObj kv => match kv with [] => false | _ => true end
  end.

Fixpoint assoc {A : Type} (k : string) (kv : list (string * A)) : option A :=
  match kv with
  | [] => None
  | (k', v) :: rest => if String.eqb k k' then Some v else assoc k rest
  end.

Definition has_key {A : Type} (k : string) (kv : list (string * A)) : bool :=
  match assoc k kv with Some _ => true | None => false end.

Definition is_substring (needle s : string) : bool :=
  match String.index 0 needle s with Some _ => true | None => false end.

Definition is_str (s : string) (j : json) : bool :=
  match j with JStr s' => String.eqb s s' | _ => false end.

(** [needle in x] for a [str] needle: key membership on a dict, element
    membership on a list, substring on a str, [TypeError] otherwise. *)
Definition contains (needle : string) (j : json) : result bool :=
  match j with
  | JObj kv => Ok (has_key needle kv)
  | JArr l => Ok (existsb (is_str needle) l)
  | JStr s => Ok (is_substring needle s)
  | _ => Raise (Exn TypeError
           ("argument of type '" +:+ type_name j +:+ "' is not iterable"))
  end.

Definition no_attribute (j : json) (attr : string) : exn :=
  Exn AttributeError
    ("'" +:+ type_name j +:+ "' object has no attribute '" +:+ attr +:+ "'").

(** [x.get(k)]: [None] for an absent key, [AttributeError] off a dict. *)
Definition get (j : json) (k : string) : result json :=
  match j with
  | JObj kv => Ok (match assoc k kv with Some v => v | None => JNull end)
  | _ => Raise (no_attribute j "get")
  end.

(** [x.get(k, default)] *)
Definition get_or (j : json) (k : string) (default : json) : result json :=
  match j with
  | JObj kv => Ok (match assoc k kv with Some v => v | None => default end)
  | _ => Raise (no_attribute j "get")
  end.

(** [x[k]] for a [str] key on event data. *)
Definition getitem (j : json) (k : string) : result json :=
  match j with
  | JObj kv => match assoc k kv with
               | Some v => Ok v
               | None => Raise (Exn KeyError ("'" +:+ k +:+ "'"))
               end
  | JArr _ => Raise (Exn TypeError "list indices must be integers or slices, not str")
  | JStr _ => Raise (Exn TypeError "string indices must be integers, not 'str'")
  | _ => Raise (Exn TypeError
           ("'" +:+ type_name j +:+ "' object is not subscriptable"))
  end.

(** [s.endswith(suffix)] *)
Definition endswith (s suffix : string) : bool :=
  let n := String.length s in
  let k := String.length suffix in
  (k <=? n)%nat && String.eqb (String.substring (n - k) k s) suffix.

(** [s.replace(old, new)] for a non-empty [old]: occurrences are found from
    the left and do not overlap.  [skip] counts the characters of a match
    still to pass over. *)
Fixpoint replace_from (old new s : string) (skip : nat) : string :=
  match s with
  | EmptyString => EmptyString
  | String c rest =>
      match skip with
      | S k => replace_from old new rest k
      | O =>
          if String.prefix old s
          then new +:+ replace_from old new rest (String.length old - 1)
          else String c (replace_from old new rest 0)
      end
  end.

Definition replace (s old new : string) : string := replace_from old new s 0.

(** [c.lower()] on code points below 256: A-Z and the Latin-1 capitals. *)
Definition lower_char (c : ascii) : ascii :=
  let n := nat_of_ascii c in
  if ((65 <=? n) && (n <=? 90))%nat then ascii_of_nat (n + 32)
  else if ((192 <=? n) && (n <=? 222) && negb (n =? 215))%nat
       then ascii_of_nat (n + 32)
  else c.

Fixpoint lower (s : string) : string :=
  match s with
  | EmptyString => EmptyString
  | String c rest => String (lower_char c) (lower rest)
  end.

(** Attribute access on a value that must be a [str]. *)
Definition as_str (j : json) (attr : string) : result string :=
  match j with
  | JStr s => Ok s
  | _ => Raise (no_attribute j attr)
  end.

(** [str(n)] for an integer. *)
Definition str_of_Z (z : Z) : string := NilZero.string_of_int (Z.to_int z).

(** Objects that can sit in a record of [DataFrame.to_dict]. *)
Inductive scalar :=
| SStr (s : string)                        (* str *)
| SNaN                                     (* float('nan') *)
| SNone                                    (* None *)
| STimestamp (year month day : Z) (time : string)   (* pd.Timestamp *)
| SNaT                                     (* pd.NaT *)
| SObject (text : string).                 (* any other object, with its str() *)

(** [pd.isna(obj)] *)
Definition isna (obj : scalar) : bool :=
  match obj with SNaN | SNone | SNaT => true | _ => false end.

(** Decimal text of [z], left-padded with zeros to [width] digits. *)
Definition zero_pad (width : nat) (z : Z) : string :=
  let digits := str_of_Z z in
  String.concat "" (List.repeat "0" (width - String.length digits)) +:+ digits.

(** [obj.strftime("%Y-%m-%d")]: the month and the day on two digits; the
    year as the C library of the platform writes it, without padding (a year
    below 1000 comes out on fewer than four digits). *)
Definition strftime_Ymd (year month day : Z) : string :=
  str_of_Z year +:+ "-" +:+ zero_pad 2 month +:+ "-" +:+ zero_pad 2 day.

(** [str(obj)] *)
Definition str_ (obj : scalar) : string :=
  match obj with
  | SStr s => s
  | SNaN => "nan"
  | SNone => "None"
  | STimestamp y m d time => strftime_Ymd y m d +:+ " " +:+ time
  | SNaT => "NaT"
  | SObject text => text
  end.

(** [d[k] = v] on an insertion-ordered dict. *)
Fixpoint dict_set {V : Type} (k : string) (v : V) (d : list (string * V))
  : list (string * V) :=
  match d with
  | [] => [(k, v)]
  | (k', v') :: rest =>
      if String.eqb k k' then (k, v) :: rest else (k', v') :: dict_set k v rest
  end.

(** [dict(pairs)] *)
Definition dict_of {V : Type} (pairs : list (string * V)) : list (string * V) :=
  fold_left (fun d kv => dict_set (fst kv) (snd kv) d) pairs [].

Definition keys {V : Type} (d : list (string * V)) : list string := map fst d.

End Py.

(* ===================================================================== *)
(** ** pandas: the sheet tables the module works on *)
(* ===================================================================== *)

Module Pandas.
Import Py.

(** Every sheet is read with [dtype=str]: a cell is a [str] or missing. *)
Definition cell := option string.

(** A frame in row order.  Column labels are strings. *)
Record DataFrame := { columns : list string; rows : list (list cell) }.

Definition notna (c : cell) : bool :=
  match c with Some _ => true | None => false end.

Definition count_na_row (r : list cell) : nat :=
  List.length (List.filter (fun c => negb (notna c)) r).

(** [df.isna().sum().sum()] *)
Definition isna_sum_sum (df : DataFrame) : nat :=
  list_sum (map count_na_row (rows df)).

Definition column_values (df : DataFrame) (j : nat) : list cell :=
  map (fun r => nth j r None) (rows df).

(** The columns [dropna(axis=1, how="all")] keeps: those holding a value. *)
Definition column_mask (df : DataFrame) : list bool :=
  map (fun j => existsb notna (column_values df j))
      (seq 0 (List.length (columns df))).

Fixpoint select {A : Type} (mask : list bool) (l : list A) : list A :=
  match mask, l with
  | b :: mask', x :: l' => if b then x :: select mask' l' else select mask' l'
  | _, _ => []
  end.

(** [df.dropna(axis=1, how="all", inplace=True)] *)
Definition dropna_columns (df : DataFrame) : DataFrame :=
  let mask := column_mask df in
  {| columns := select mask (columns df);
     rows := map (select mask) (rows df) |}.

(** [df.dropna(axis=0, how="all", inplace=True)] *)
Definition dropna_rows (df : DataFrame) : DataFrame :=
  {| columns := columns df;
     rows := List.filter (existsb notna) (rows df) |}.

(** [df.empty]: some axis has length zero. *)
Definition empty (df : DataFrame) : bool :=
  match columns df, rows df with
  | _ :: _, _ :: _ => false
  | _, _ => true
  end.

(** What [to_dict] puts in a record for a cell. *)
Definition box (c : cell) : scalar :=
  match c with Some s => SStr s | None => SNaN end.

Definition record := list (string * scalar).

(** [df.to_dict(orient="records")] *)
Definition to_dict_records (df : DataFrame) : list record :=
  map (fun r => dict_of (combine (columns df) (map box r))) (rows df).

Inductive engine := Xlrd | Openpyxl.
Inductive header := HeaderNone | Header0.

(** [pd.ExcelFile]: the sheet names and [xls.parse(name, dtype=str,
    header=...)], which returns a frame or raises. *)
Record ExcelFile := {
  sheet_names : list string;
  parse_sheet : string -> header -> result DataFrame
}.

End Pandas.

(* ===================================================================== *)
(** ** json: [dumps] with [indent=4] and a [default] hook, and [loads] *)
(* ===================================================================== *)

Module Json.
Import Py Pandas.

Definition dquote : ascii := "034"%char.
Definition dq : string := String dquote "".
Definition nl : string := String "010"%char "".

Definition hex_digit (n : nat) : ascii :=
  nth n (list_ascii_of_string "0123456789abcdef") "0"%char.

(** One character of a string under [ensure_ascii=True]. *)
Definition escape_char (c : ascii) : string :=
  let n := nat_of_ascii c in
  if (n =? 34)%nat then "\" +:+ dq
  else if (n =? 92)%nat then "\\"
  else if (n =? 10)%nat then "\n"
  else if (n =? 13)%nat then "\r"
  else if (n =? 9)%nat then "\t"
  else if (n =? 8)%nat then "\b"
  else if (n =? 12)%nat then "\f"
  else if ((32 <=? n) && (n <=? 126))%nat then String c ""
  else "\u00" +:+ String (hex_digit (n / 16)) (String (hex_digit (n mod 16)) "").

Fixpoint escape (s : string) : string :=
  match s with
  | EmptyString => EmptyString
  | String c rest => escape_char c +:+ escape rest
  end.

Definition encode_str (s : string) : string := dq +:+ escape s +:+ dq.

(** The objects the encoder renders by itself; [default] is consulted for
    the others only. *)
Definition encode_native (v : scalar) : option string :=
  match v with
  | SStr s => Some (encode_str s)
  | SNaN => Some "NaN"                  (* allow_nan=True *)
  | SNone => Some "null"
  | _ => None
  end.

(** A scalar under [json.dumps(..., default=default)].  The hook of this
    module returns a [str] or [None], so one call of it is enough. *)
Definition dumps_scalar (default : scalar -> scalar) (v : scalar) : string :=
  match encode_native v with
  | Some text => text
  | None =>
      match encode_native (default v) with
      | Some text => text
      | None => ""
      end
  end.

Definition indent (level : nat) : string :=
  String.concat "" (List.repeat "    " level).

(** The items of a container at nesting depth [level], one per line. *)
Definition block (opening closing : string) (level : nat) (items : list string)
  : string :=
  match items with
  | [] => opening +:+ closing
  | _ => opening +:+ nl +:+ indent (S level)
         +:+ String.concat ("," +:+ nl +:+ indent (S level)) items
         +:+ nl +:+ indent level +:+ closing
  end.

Definition dumps_record (default : scalar -> scalar) (level : nat) (r : record)
  : string :=
  block "{" "}" level
    (map (fun kv => encode_str (fst kv) +:+ ": " +:+ dumps_scalar default (snd kv)) r).

Definition dumps_records (default : scalar -> scalar) (level : nat)
  (l : list record) : string :=
  block "[" "]" level (map (dumps_record default (S level)) l).

(** [data_dict]: sheet name to records, in insertion order. *)
Definition data_dict := list (string * list record).

(** [json.dumps(data_dict, indent=4, default=default)] *)
Definition dumps (default : scalar -> scalar) (d : data_dict) : string :=
  block "{" "}" 0
    (map (fun kv => encode_str (fst kv) +:+ ": " +:+ dumps_records default 1 (snd kv)) d).

(** *** [json.loads], for reading a payload back *)

Definition is_ws (c : ascii) : bool :=
  let n := nat_of_ascii c in
  ((n =? 32) || (n =? 10) || (n =? 13) || (n =? 9))%nat.

Fixpoint skip_ws (s : list ascii) : list ascii :=
  match s with
  | c :: rest => if is_ws c then skip_ws rest else s
  | [] => []
  end.

Definition hex_value (c : ascii) : option nat :=
  let n := nat_of_ascii c in
  if ((48 <=? n) && (n <=? 57))%nat then Some (n - 48)
  else if ((97 <=? n) && (n <=? 102))%nat then Some (n - 87)
  else if ((65 <=? n) && (n <=? 70))%nat then Some (n - 55)
  else None.

(** The characters of a string literal after its opening quote. *)
Fixpoint loads_chars (fuel : nat) (s : list ascii) : option (string * list ascii) :=
  match fuel with
  | O => None
  | S fuel' =>
      match s with
      | [] => None
      | c :: rest =>
          if Ascii.eqb c dquote then Some ("", rest)
          else if Ascii.eqb c "\"%char then
            match rest with
            | e :: rest' =>
                let simple (d : ascii) :=
                  match loads_chars fuel' rest' with
                  | Some (t, r) => Some (String d t, r)
                  | None => None
                  end in
                if Ascii.eqb e dquote then simple dquote
                else if Ascii.eqb e "\"%char then simple "\"%char
                else if Ascii.eqb e "/"%char then simple "/"%char
                else if Ascii.eqb e "n"%char then simple "010"%char
                else if Ascii.eqb e "r"%char then simple "013"%char
                else if Ascii.eqb e "t"%char then simple "009"%char
                else if Ascii.eqb e "b"%char then simple "008"%char
                else if Ascii.eqb e "f"%char then simple "012"%char
                else if Ascii.eqb e "u"%char then
                  match rest' with
                  | "0"%char :: "0"%char :: h :: l :: rest'' =>
                      match hex_value h, hex_value l, loads_chars fuel' rest'' with
                      | Some a, Some b, Some (t, r) =>
                          Some (String (ascii_of_nat (16 * a + b)) t, r)
                      | _, _, _ => None
                      end
                  | _ => None
                  end
                else None
            | [] => None
            end
          else
            match loads_chars fuel' rest with
            | Some (t, r) => Some (String c t, r)
            | None => None
            end
      end
  end.

Definition is_digit (c : ascii) : bool :=
  let n := nat_of_ascii c in ((48 <=? n) && (n <=? 57))%nat.

Fixpoint loads_digits (s : list ascii) (acc : Z) : Z * list ascii :=
  match s with
  | c :: rest =>
      if is_digit c
      then loads_digits rest (10 * acc + Z.of_nat (nat_of_ascii c - 48))
      else (acc, s)
  | [] => (acc, [])
  end.

Definition starts_with (p : string) (s : list ascii) : option (list ascii) :=
  let k := String.length p in
  if String.eqb (string_of_list_ascii (firstn k s)) p then Some (skipn k s) else None.

(** A value, then the members of an object or the elements of an array.
    Numbers with a fraction or an exponent are not read. *)
Fixpoint loads_value (fuel : nat) (s : list ascii) : option (json * list ascii) :=
  match fuel with
  | O => None
  | S fuel' =>
      match skip_ws s with
      | [] => None
      | c :: rest =>
          if Ascii.eqb c "{"%char then
            match skip_ws rest with
            | c' :: rest' =>
                if Ascii.eqb c' "}"%char then Some (JObj [], rest')
                else loads_members fuel' (c' :: rest') []
            | [] => None
            end
          else if Ascii.eqb c "["%char then
            match skip_ws rest with
            | c' :: rest' =>
                if Ascii.eqb c' "]"%char then Some (JArr [], rest')
                else loads_elements fuel' (c' :: rest') []
            | [] => None
            end
          else if Ascii.eqb c dquote then
            match loads_chars (List.length rest) rest with
            | Some (t, r) => Some (JStr t, r)
            | None => None
            end
          else if Ascii.eqb c "-"%char then
            match rest with
            | d :: _ =>
                if is_digit d
                then let '(n, r) := loads_digits rest 0 in Some (JInt (- n), r)
                else None
            | [] => None
            end
          else if is_digit c then
            let '(n, r) := loads_digits (c :: rest) 0 in Some (JInt n, r)
          else
            match starts_with "null" (c :: rest), starts_with "true" (c :: rest),
                  starts_with "false" (c :: rest), starts_with "NaN" (c :: rest) with
            | Some r, _, _, _ => Some (JNull, r)
            | _, Some r, _, _ => Some (JBool true, r)
            | _, _, Some r, _ => Some (JBool false, r)
            | _, _, _, Some r => Some (JFloat false "nan", r)
            | _, _, _, _ => None
            end
      end
  end
with loads_members (fuel : nat) (s : list ascii) (acc : list (string * json))
  : option (json * list ascii) :=
  match fuel with
  | O => None
  | S fuel' =>
      match skip_ws s with
      | c :: rest =>
          if Ascii.eqb c dquote then
            match loads_chars (List.length rest) rest with
            | Some (k, r) =>
                match skip_ws r with
                | colon :: r' =>
                    if Ascii.eqb colon ":"%char then
                      match loads_value fuel' r' with
                      | Some (v, r'') =>
                          let acc' := dict_set k v acc in
                          match skip_ws r'' with
                          | d :: r3 =>
                              if Ascii.eqb d ","%char then loads_members fuel' r3 acc'
                              else if Ascii.eqb d "}"%char then Some (JObj acc', r3)
                              else None
                          | [] => None
                          end
                      | None => None
                      end
                    else None
                | [] => None
                end
            | None => None
            end
          else None
      | [] => None
      end
  end
with loads_elements (fuel : nat) (s : list ascii) (acc : list json)
  : option (json * list ascii) :=
  match fuel with
  | O => None
  | S fuel' =>
      match loads_value fuel' s with
      | Some (v, r) =>
          match skip_ws r with
          | d :: r' =>
              if Ascii.eqb d ","%char then loads_elements fuel' r' (acc ++ [v])
              else if Ascii.eqb d "]"%char then Some (JArr (acc ++ [v]), r')
              else None
          | [] => None
          end
      | None => None
      end
  end.

(** [json.loads(text)]: one value and nothing after it but white space. *)
Definition loads (text : string) : option json :=
  let s := list_ascii_of_string text in
  match loads_value (S (List.length s)) s with
  | Some (v, r) => match skip_ws r with [] => Some v | _ => None end
  | None => None
  end.

End Json.

(* ===================================================================== *)
(** ** The module [main.py] *)
(* ===================================================================== *)

Module Main.
Import Py Pandas Json.

Definition CLOUD_RUN_URL : string :=
  "https://unstructured-parser-258481069493.us-central1.run.app/parse".

(** What [requests.post] returns: the status and [response.json()]. *)
Record Response := { status_code : Z; json_ : result json }.

(** The calls that change something outside the process, in the order they
    are made: uploads and POSTs.  The reads ([exists], the downloads) act on
    the world and are not recorded. *)
Inductive event :=
| EvUpload (bucket : json) (key content content_type : string)
| EvPost (url : string) (payload : json) (timeout : Z).

(** The collaborators, over a state [W] of the outside world.  Every call
    may raise.  [repr_container] is Python's text of a list or dict. *)
Class Services (W : Type) := {
  storage_bucket : json -> result unit;
  blob_exists : json -> string -> W -> result bool * W;
  download_as_bytes : json -> string -> W -> result string * W;
  download_as_text : json -> string -> W -> result string * W;
  upload_from_string : json -> string -> string -> string -> W -> result unit * W;
  requests_post : string -> json -> Z -> W -> result Response * W;
  pd_ExcelFile : string -> engine -> result ExcelFile;
  repr_container : json -> string
}.

Record GCPXLSXParser := {
  bucket : json;             (* the name [storage_client.bucket] was given *)
  source_blob : string;
  destination_blob : string;
  error_blob : string
}.

(** [GCPXLSXParser.json_serializer] *)
Definition json_serializer (obj : scalar) : scalar :=
  match obj with
  | STimestamp y m d _ => SStr (strftime_Ymd y m d)   (* isinstance(obj, pd.Timestamp) *)
  | _ => if isna obj then SNone else SStr (str_ obj)
  end.

Definition structured_names : list string :=
  ["overview"; "metadata schema"; "report"].

Definition str_in (s : string) (l : list string) : bool :=
  existsb (String.eqb s) l.

(** The loop of [detect_complexity] over the sheet names still to visit. *)
Fixpoint detect_complexity_from (xls : ExcelFile) (names : list string)
  : result bool :=
  match names with
  | [] => Ok false
  | sheet_name :: rest =>
      match parse_sheet xls sheet_name HeaderNone with
      | Raise e => Raise e
      | Ok df =>
          if (0 <? isna_sum_sum df)%nat then Ok true
          else if str_in (lower sheet_name) structured_names then Ok true
          else detect_complexity_from xls rest
      end
  end.

(** [GCPXLSXParser.detect_complexity] *)
Definition detect_complexity (xls : ExcelFile) : result bool :=
  detect_complexity_from xls (sheet_names xls).

(** The sheet loop of [parse]: the dict built, or the first sheet that
    raised. *)
Inductive sheets_outcome :=
| SheetsDone (d : data_dict)
| SheetFailed (sheet_name : string) (e : exn).

Fixpoint convert_sheets_from (xls : ExcelFile) (names : list string)
  (d : data_dict) : sheets_outcome :=
  match names with
  | [] => SheetsDone d
  | sheet_name :: rest =>
      match parse_sheet xls sheet_name Header0 with
      | Raise e => SheetFailed sheet_name e
      | Ok df =>
          let df := dropna_rows (dropna_columns df) in
          if empty df then convert_sheets_from xls rest d
          else convert_sheets_from xls rest
                 (dict_set sheet_name (to_dict_records df) d)
      end
  end.

Definition convert_sheets (xls : ExcelFile) : sheets_outcome :=
  convert_sheets_from xls (sheet_names xls) [].

Definition SUCCESS : string := "JSON file successfully created in GCS.".
Definition FAILED : string := "Failed to process XLSX file.".

(** [str(x)] inside an f-string. *)
Definition format_json {W : Type} {services : Services W} (j : json) : string :=
  match j with
  | JNull => "None"
  | JBool true => "True"
  | JBool false => "False"
  | JInt z => str_of_Z z
  | JFloat _ text => text
  | JStr s => s
  | _ => repr_container j
  end.

(** The key arguments the two triggers build from the source key. *)
Definition event_destination_key (source_blob : string) : string :=
  replace (replace source_blob ".xlsx" ".json") ".xls" ".json".
Definition event_error_key (source_blob : string) : string :=
  replace source_blob ".xlsx" "_error.log".
Definition http_destination_key (source_blob : string) : string :=
  replace (replace source_blob ".xlsx" ".json") ".xls" ".json".
Definition http_error_key (source_blob : string) : string :=
  replace (replace source_blob ".xlsx" "_error.log") ".xls" "_error.log".

Section Program.
Context {W : Type} {services : Services W}.

(** A computation: a result or an exception, the new world, the calls made. *)
Definition M (A : Type) : Type := W -> result A * W * list event.

Definition ret {A : Type} (a : A) : M A := fun w => (Ok a, w, []).
Definition raise {A : Type} (e : exn) : M A := fun w => (Raise e, w, []).
Definition lift {A : Type} (r : result A) : M A := fun w => (r, w, []).

Definition bind {A B : Type} (m : M A) (f : A -> M B) : M B :=
  fun w =>
    match m w with
    | (Ok a, w1, t1) => let '(r, w2, t2) := f a w1 in (r, w2, t1 ++ t2)
    | (Raise e, w1, t1) => (Raise e, w1, t1)
    end.

(** [try: m  except C as e: handler e], with [catches] telling the
    exceptions of class [C]. *)
Definition try_except_when {A : Type} (catches : exn -> bool) (m : M A)
  (handler : exn -> M A) : M A :=
  fun w =>
    match m w with
    | (Raise e, w1, t1) =>
        if catches e
        then let '(r, w2, t2) := handler e w1 in (r, w2, t1 ++ t2)
        else (Raise e, w1, t1)
    | done => done
    end.

(** [try: m  except Exception as e: handler e] *)
Definition try_except {A : Type} (m : M A) (handler : exn -> M A) : M A :=
  try_except_when (fun _ => true) m handler.

Definition call {A : Type} (op : W -> result A * W) (made : list event) : M A :=
  fun w => let '(r, w') := op w in (r, w', made).

Notation "'let*' x ':=' m 'in' k" := (bind m (fun x => k))
  (at level 10, x name, m at level 100, k at level 200).

(** [GCPXLSXParser.__init__] *)
Definition GCPXLSXParser_init (bucket_name : json)
  (source_blob destination_blob error_blob : string) : result GCPXLSXParser :=
  match storage_bucket bucket_name with
  | Raise e => Raise e
  | Ok _ => Ok {| bucket := bucket_name; source_blob := source_blob;
                  destination_blob := destination_blob;
                  error_blob := error_blob |}
  end.

(** [GCPXLSXParser.log_error] *)
Definition log_error (self : GCPXLSXParser) (message : string) : M unit :=
  let* found := call (blob_exists (bucket self) (error_blob self)) [] in
  let* existing_log :=
    (if found : bool
     then call (download_as_text (bucket self) (error_blob self)) []
     else ret "") in
  let content := existing_log +:+ message +:+ nl in
  call (upload_from_string (bucket self) (error_blob self) content "text/plain")
       [EvUpload (bucket self) (error_blob self) content "text/plain"].

Definition error_descriptor (error_msg : string) : json :=
  JObj [("error", JStr error_msg)].

(** [GCPXLSXParser.forward_to_cloud_run] *)
Definition forward_to_cloud_run (self : GCPXLSXParser) : M json :=
  let payload := JObj [("bucket_name", bucket self);
                       ("file_name", JStr (source_blob self))] in
  try_except_when is_request_exception
    (let* response := call (requests_post CLOUD_RUN_URL payload 300)
                           [EvPost CLOUD_RUN_URL payload 300] in
     let* response_data := lift (json_ response) in
     if (status_code response =? 200)%Z then ret response_data
     else
       let* reason := lift (get_or response_data "error" (JStr "Unknown error")) in
       ret (error_descriptor ("Cloud Run failed: " +:+ format_json reason)))
    (fun e =>
       ret (error_descriptor
              ("Failed to communicate with Cloud Run: " +:+ exn_msg e))).

(** [parse], lines 90-110: fetch the source blob and decode it. *)
Definition open_workbook (self : GCPXLSXParser) : M ExcelFile :=
  let* found := call (blob_exists (bucket self) (source_blob self)) [] in
  if negb found then
    raise (Exn ValueError
             ("File " +:+ source_blob self +:+ " does not exist in bucket."))
  else
    let* excel_data :=
      call (download_as_bytes (bucket self) (source_blob self)) [] in
    if String.eqb excel_data "" then
      raise (Exn ValueError "Downloaded file is empty.")
    else
      let file_format :=
        if endswith (source_blob self) ".xls" then "xls" else "xlsx" in
      if String.eqb file_format "xls" then
        match pd_ExcelFile excel_data Xlrd with
        | Ok xls => ret xls
        | Raise e =>
            raise (Exn ValueError
                     ("Failed to read .xls file. Ensure xlrd==1.2.0 is installed. Error: "
                      +:+ exn_msg e))
        end
      else
        match pd_ExcelFile excel_data Openpyxl with
        | Ok xls => ret xls
        | Raise e =>
            raise (Exn ValueError ("Invalid .xlsx file format: " +:+ exn_msg e))
        end.

(** [parse], lines 113-117: the payload of Cloud Run when the file is complex
    and the reply carries no "error", nothing otherwise. *)
Definition remote_stage (self : GCPXLSXParser) (xls : ExcelFile)
  : M (option json) :=
  let* complex := lift (detect_complexity xls) in
  if complex : bool then
    let* cloud_run_response := forward_to_cloud_run self in
    let* has_error := lift (contains "error" cloud_run_response) in
    if negb has_error then ret (Some cloud_run_response) else ret None
  else ret None.

Definition upload_json (self : GCPXLSXParser) (content : string) : M unit :=
  call (upload_from_string (bucket self) (destination_blob self) content
          "application/json")
       [EvUpload (bucket self) (destination_blob self) content "application/json"].

(** [parse], lines 120-147: the sheets, one by one, then the upload. *)
Definition local_stage (self : GCPXLSXParser) (xls : ExcelFile) : M json :=
  match convert_sheets xls with
  | SheetFailed sheet_name e =>
      let error_message :=
        "Error processing sheet '" +:+ sheet_name +:+ "': " +:+ exn_msg e in
      let* _ := log_error self error_message in
      ret (JStr FAILED)
  | SheetsDone data_dict =>
      match data_dict with
      | [] => raise (Exn ValueError "No valid data found in the Excel file.")
      | _ =>
          let* _ := upload_json self (dumps json_serializer data_dict) in
          ret (JStr SUCCESS)
      end
  end.

(** The [try] block of [parse]. *)
Definition parse_body (self : GCPXLSXParser) : M json :=
  let* xls := open_workbook self in
  let* remote := remote_stage self xls in
  match remote with
  | Some cloud_run_response => ret cloud_run_response
  | None => local_stage self xls
  end.

Definition file_error_message (self : GCPXLSXParser) (e : exn) : string :=
  "Error processing file " +:+ source_blob self +:+ ": " +:+ exn_msg e.

(** The [except] block of [parse]. *)
Definition parse_handler (self : GCPXLSXParser) (e : exn) : M json :=
  let* _ := log_error self (file_error_message self e) in
  ret (JStr FAILED).

(** [GCPXLSXParser.parse]: a [str], or the reply of Cloud Run. *)
Definition parse (self : GCPXLSXParser) : M json :=
  try_except (parse_body self) (parse_handler self).

(** [convert_xlsx_to_json], on [cloud_event.data] *)
Definition convert_xlsx_to_json (data : json) : M json :=
  try_except
    (let* bucket_name := lift (getitem data "bucket") in
     let* name := lift (getitem data "name") in
     let* source_blob := lift (as_str name "endswith") in
     if negb (endswith source_blob ".xlsx" || endswith source_blob ".xls") then
       ret (JStr "Ignoring non-Excel file.")
     else
       let* parser :=
         lift (GCPXLSXParser_init bucket_name source_blob
                 (event_destination_key source_blob)
                 (event_error_key source_blob)) in
       parse parser)
    (fun e => ret (JStr "Function execution failed.")).

(** The request as the handler sees it: [request.get_json(silent=True)],
    [None] when the body does not decode. *)
Record Request := { get_json_silent : option json }.

Definition jsonify (key : string) (value : json) : json := JObj [(key, value)].

(** The [try] block of [convert_xlsx_to_json_http]: the body of the reply
    and its status. *)
Definition http_body (request : Request) : M (json * Z) :=
  let request_json :=
    match get_json_silent request with Some j => j | None => JNull end in
  if negb (truthy request_json) then
    ret (jsonify "error" (JStr "Invalid JSON payload"), 400%Z)
  else
    let* bucket_name := lift (get request_json "bucket") in
    let* name := lift (get request_json "name") in
    if negb (truthy bucket_name) || negb (truthy name) then
      ret (jsonify "error" (JStr "Missing required parameters"), 400%Z)
    else
      let* source_blob := lift (as_str name "replace") in
      let* parser :=
        lift (GCPXLSXParser_init bucket_name source_blob
                (http_destination_key source_blob)
                (http_error_key source_blob)) in
      let* response := parse parser in
      ret (jsonify "message" response, 200%Z).

(** [convert_xlsx_to_json_http] *)
Definition convert_xlsx_to_json_http (request : Request) : M (json * Z) :=
  try_except (http_body request)
    (fun e => ret (jsonify "error" (JStr (exn_msg e)), 500%Z)).

End Program.

End Main.

(* ===================================================================== *)
(** ** An in-memory world: one bucket held as a finite map *)
(* ===================================================================== *)

Module Mem.
Import Py Pandas Json Main.

(** What the surroundings do: how bytes decode, what Cloud Run replies,
    which bucket names the client refuses, whether blobs can be written. *)
Record config := {
  decode : string -> engine -> result ExcelFile;
  remote : result Response;
  bucket_check : json -> result unit;
  writable : bool
}.

Definition not_found (key : string) : exn :=
  Exn OtherException ("404 No such object: " +:+ key).
Definition forbidden : exn :=
  Exn OtherException "403 Forbidden".

Definition download (key : string) (w : gmap string string)
  : result string * gmap string string :=
  match w !! key with
  | Some content => (Ok content, w)
  | None => (Raise (not_found key), w)
  end.

(** [repr(s)] of a [str]: in single quotes, or in double quotes when the
    text holds a single quote and no double one. *)
Definition repr_char (quote c : ascii) : string :=
  let n := nat_of_ascii c in
  if Ascii.eqb c "\"%char then "\\"
  else if Ascii.eqb c quote then String "\"%char (String quote "")
  else if (n =? 10)%nat then "\n"
  else if (n =? 13)%nat then "\r"
  else if (n =? 9)%nat then "\t"
  else if ((n <? 32) || ((127 <=? n) && (n <=? 160)) || (n =? 173))%nat
       then "\x" +:+ String (hex_digit (n / 16)) (String (hex_digit (n mod 16)) "")
  else String c "".

Definition repr_str (s : string) : string :=
  let single := "'"%char in
  let quote :=
    if is_substring (String single "") s && negb (is_substring dq s)
    then dquote else single in
  String quote ""
  +:+ String.concat "" (map (repr_char quote) (list_ascii_of_string s))
  +:+ String quote "".

(** [repr(x)] of a value of JSON type. *)
Fixpoint repr_json (j : json) : string :=
  match j with
  | JNull => "None"
  | JBool true => "True"
  | JBool false => "False"
  | JInt z => str_of_Z z
  | JFloat _ text => text
  | JStr s => repr_str s
  | JArr l => "[" +:+ String.concat ", " (map repr_json l) +:+ "]"
  | JObj kv =>
      "{" +:+ String.concat ", "
        ((fix items (kv : list (string * json)) : list string :=
            match kv with
            | [] => []
            | (k, v) :: rest => (repr_str k +:+ ": " +:+ repr_json v) :: items rest
            end) kv)
      +:+ "}"
  end.

Definition services (c : config) : Services (gmap string string) := {|
  storage_bucket := bucket_check c;
  blob_exists := fun _ key w => (Ok (bool_decide (is_Some (w !! key))), w);
  download_as_bytes := fun _ key w => download key w;
  download_as_text := fun _ key w => download key w;
  upload_from_string := fun _ key content _ w =>
    if writable c then (Ok tt, <[key := content]> w) else (Raise forbidden, w);
  requests_post := fun _ _ _ w => (remote c, w);
  pd_ExcelFile := decode c;
  repr_container := repr_json
|}.

(** The texts pandas reads as a missing value. *)
Definition default_na : list string :=
  [""; "#N/A"; "#N/A N/A"; "#NA"; "-1.#IND"; "-1.#QNAN"; "-NaN"; "-nan";
   "1.#IND"; "1.#QNAN"; "<NA>"; "N/A"; "NA"; "NULL"; "NaN"; "None"; "n/a";
   "nan"; "null"].

Definition read_cell (c : cell) : cell :=
  match c with
  | Some s => if str_in s default_na then None else Some s
  | None => None
  end.

(** A row without its trailing empty cells. *)
Fixpoint trim_end (r : list cell) : list cell :=
  match r with
  | [] => []
  | c :: rest =>
      match trim_end rest, c with
      | [], None => []
      | rest', _ => c :: rest'
      end
  end.

(** A grid of trimmed rows without its trailing empty rows. *)
Fixpoint trim_rows (g : list (list cell)) : list (list cell) :=
  match g with
  | [] => []
  | r :: rest =>
      match trim_rows rest, r with
      | [], [] => []
      | rest', _ => r :: rest'
      end
  end.

Definition pad (width : nat) (r : list cell) : list cell :=
  r ++ List.repeat None (width - List.length r).

(** The grid as the reader hands it over: trailing empty cells and rows
    trimmed, the rows filled up to the widest one. *)
Definition read_grid (grid : list (list cell)) : list (list cell) :=
  let g := trim_rows (map trim_end grid) in
  map (pad (list_max (map (@List.length cell) g))) g.

Fixpoint labels_from (j : nat) (labels : list cell) : list string :=
  match labels with
  | [] => []
  | c :: rest =>
      match c with
      | Some s => s
      | None => "Unnamed: " +:+ str_of_Z (Z.of_nat j)
      end :: labels_from (S j) rest
  end.

(** A sheet given as the grid of its cells, an empty cell as [None], read
    with [header=0] (the first row holds the column labels) or with
    [header=None] (the columns are numbered).  Labels are taken to be
    distinct. *)
Definition frame_of (h : header) (grid : list (list cell)) : DataFrame :=
  match h, read_grid grid with
  | Header0, labels :: body =>
      {| columns := labels_from 0 labels; rows := map (map read_cell) body |}
  | Header0, [] => {| columns := []; rows := [] |}
  | HeaderNone, g =>
      {| columns := map (fun j => str_of_Z (Z.of_nat j))
                      (seq 0 (match g with r :: _ => List.length r | [] => 0%nat end));
         rows := map (map read_cell) g |}
  end.

Definition workbook (sheets : list (string * list (list cell))) : ExcelFile := {|
  sheet_names := map fst sheets;
  parse_sheet := fun name h =>
    match assoc name sheets with
    | Some grid => Ok (frame_of h grid)
    | None => Raise (Exn ValueError ("Worksheet named '" +:+ name +:+ "' not found"))
    end
|}.

Definition unreachable : result Response :=
  Raise (Exn RequestException "Connection refused").

End Mem.

(* ===================================================================== *)
(** ** Sample workbooks, worlds and requests *)
(* ===================================================================== *)

Module Samples.
Import Py Pandas Json Main Mem.

(** The table of [test_xlsx_correct_headers], on the default sheet. *)
Definition titles : ExcelFile :=
  workbook [("Sheet1", [[Some "Title"; Some "Date"];
                        [Some "Doc1"; Some "2025-02-10"]])].

(** A full sheet called "REPORT" after a plain one. *)
Definition with_report : ExcelFile :=
  workbook [("Data", [[Some "Id"]; [Some "1"]]);
            ("REPORT", [[Some "Total"]; [Some "7"]])].

(** Two rows that each miss one cell. *)
Definition sparse : ExcelFile :=
  workbook [("Sheet1", [[Some "A"; Some "B"];
                        [Some "x"; None];
                        [None; Some "y"]])].

(** One sheet of two all-null rows under its header. *)
Definition blank_rows : ExcelFile :=
  workbook [("Sheet1", [[Some "Title"; Some "Date"];
                        [None; None];
                        [None; None]])].

(** A sheet with an all-null column and an all-null row, then a sheet with
    a header only. *)
Definition mixed : ExcelFile :=
  workbook [("People", [[Some "Name"; Some "Unused"; Some "Age"];
                        [Some "Ann"; None; Some "41"];
                        [None; None; None];
                        [Some "Bob"; None; None]]);
            ("Empty", [[Some "Name"]])].

Definition local_only (xls : ExcelFile) : config := {|
  decode := fun _ _ => Ok xls;
  remote := unreachable;
  bucket_check := fun _ => Ok tt;
  writable := true
|}.

(** Cloud Run answers 200 with [payload]. *)
Definition with_cloud_run (xls : ExcelFile) (payload : json) : config := {|
  decode := fun _ _ => Ok xls;
  remote := Ok {| status_code := 200; json_ := Ok payload |};
  bucket_check := fun _ => Ok tt;
  writable := true
|}.

(** A sheet that reads as a raw grid and raises when read as a table. *)
Definition broken_sheet : ExcelFile := {|
  sheet_names := ["Sheet1"];
  parse_sheet := fun _ h =>
    match h with
    | HeaderNone => Ok {| columns := [""]; rows := [[Some "Title"]] |}
    | Header0 => Raise (Exn ValueError "Passed header=[0], len of 1, but only 0 lines in file")
    end
|}.

(** A bucket that refuses writes. *)
Definition read_only (xls : ExcelFile) : config := {|
  decode := fun _ _ => Ok xls;
  remote := unreachable;
  bucket_check := fun _ => Ok tt;
  writable := false
|}.


Definition test_parser : GCPXLSXParser := {|
  bucket := JStr "xlsx-test-bucket";
  source_blob := "test.xlsx";
  destination_blob := "test.json";
  error_blob := "test_error.log"
|}.

(** The bucket with the source blob in it, and the empty bucket. *)
Definition uploaded : gmap string string := {[ "test.xlsx" := "PK" ]}.
Definition nothing : gmap string string := ∅.

(** Nothing uploaded under the key decodes as a workbook. *)
Definition corrupt : config := {|
  decode := fun _ _ => Raise (Exn OtherException "File is not a zip file");
  remote := unreachable;
  bucket_check := fun _ => Ok tt;
  writable := true
|}.

(** The event for an upload of [report.xls], and the bucket after it. *)
Definition report_xls_event : json :=
  JObj [("bucket", JStr "xlsx-test-bucket"); ("name", JStr "report.xls")].
Definition report_xls_uploaded : gmap string string :=
  {[ "report.xls" := "junk" ]}.

Definition cloud_run_call (self : GCPXLSXParser) : event :=
  EvPost CLOUD_RUN_URL
    (JObj [("bucket_name", bucket self); ("file_name", JStr (source_blob self))])
    300.

Definition empty_object_request : Request :=
  {| get_json_silent := Some (JObj []) |}.

Definition good_request : Request :=
  {| get_json_silent :=
       Some (JObj [("bucket", JStr "xlsx-test-bucket");
                   ("name", JStr "test.xlsx")]) |}.

End Samples.

(* ===================================================================== *)
(** ** Vocabulary of the properties *)
(* ===================================================================== *)

Module Spec.
Import Py Pandas Json Main.

(** *** Complexity *)

(** One sheet triggers: its raw grid misses a cell, or its name is one of
    the structured-report names whatever the case. *)
Definition sheet_triggers (xls : ExcelFile) (sheet_name : string) : bool :=
  match parse_sheet xls sheet_name HeaderNone with
  | Ok df => (1 <=? isna_sum_sum df)%nat
             || str_in (lower sheet_name) structured_names
  | Raise _ => false
  end.

(** The policy in the words of the specification: every sheet is checked
    and any match suffices. *)
Definition any_sheet_triggers (xls : ExcelFile) : bool :=
  existsb (sheet_triggers xls) (sheet_names xls).

Definition raw_grids_parse (xls : ExcelFile) : Prop :=
  forall n, In n (sheet_names xls) ->
    exists df, parse_sheet xls n HeaderNone = Ok df.

(** *** Tables *)

Definition well_formed (df : DataFrame) : Prop :=
  Forall (fun r => List.length r = List.length (columns df)) (rows df).

Definition clean (df : DataFrame) : DataFrame :=
  dropna_rows (dropna_columns df).

Definition row_has_value (r : list cell) : bool := existsb notna r.

Definition sheet_non_empty (xls : ExcelFile) (sheet_name : string) : bool :=
  match parse_sheet xls sheet_name Header0 with
  | Ok df => negb (empty (clean df))
  | Raise _ => false
  end.

Definition tables_parse (xls : ExcelFile) : Prop :=
  forall n, In n (sheet_names xls) ->
    exists df, parse_sheet xls n Header0 = Ok df /\ well_formed df.

(** Every column labelled [c] holds no value in any row. *)
Definition column_all_null (df : DataFrame) (c : string) : Prop :=
  forall j r, nth_error (columns df) j = Some c -> In r (rows df) ->
    nth j r None = None.

(** The record of a row once the all-null columns are gone. *)
Definition record_of (df : DataFrame) (r : list cell) : record :=
  dict_of (combine (select (column_mask df) (columns df))
                   (map box (select (column_mask df) r))).

(** *** Keys *)

Fixpoint dot_free (s : string) : bool :=
  match s with
  | EmptyString => true
  | String c rest => negb (Ascii.eqb c "."%char) && dot_free rest
  end.

(** *** Runs of [parse] *)

Definition is_upload (ev : event) : bool :=
  match ev with EvUpload _ _ _ _ => true | _ => false end.

Definition is_json_upload (ev : event) : bool :=
  match ev with
  | EvUpload _ _ _ content_type => String.eqb content_type "application/json"
  | _ => false
  end.

Definition uploads_to (key : string) (ev : event) : bool :=
  match ev with
  | EvUpload _ k _ _ => String.eqb k key
  | _ => false
  end.

Definition sheet_error_message (sheet_name : string) (e : exn) : string :=
  "Error processing sheet '" +:+ sheet_name +:+ "': " +:+ exn_msg e.

Definition no_data : exn :=
  Exn ValueError "No valid data found in the Excel file.".

Definition engine_of (self : GCPXLSXParser) : engine :=
  if endswith (source_blob self) ".xls" then Xlrd else Openpyxl.

Inductive failure :=
| MissingBlob | EmptyDownload | DecodeFailure | SheetFailure | NoData
| UploadFailure.

Section Runs.
Context {W : Type} {services : Services W}.

Definition log_event (self : GCPXLSXParser) (existing message : string) : event :=
  EvUpload (bucket self) (error_blob self) (existing +:+ message +:+ nl)
           "text/plain".

Definition json_event (self : GCPXLSXParser) (d : data_dict) : event :=
  EvUpload (bucket self) (destination_blob self) (dumps json_serializer d)
           "application/json".

(** The run came to the sheet loop: the workbook was opened, and it is
    not complex or Cloud Run replied with an "error". *)
Definition processed_locally (self : GCPXLSXParser) (w : W) (xls : ExcelFile)
  (w2 : W) (t : list event) : Prop :=
  exists w1 t1 t2,
    open_workbook self w = (Ok xls, w1, t1) /\
    remote_stage self xls w1 = (Ok None, w2, t2) /\
    t = t1 ++ t2.

(** The last call of the run wrote the JSON of some dict to the
    destination, and returned. *)
Definition json_written (self : GCPXLSXParser) (w' : W) (t : list event) : Prop :=
  exists d w0 t0,
    t = t0 ++ [json_event self d] /\
    upload_from_string (bucket self) (destination_blob self)
      (dumps json_serializer d) "application/json" w0 = (Ok tt, w').

(** The last call of the run appended a message to the error log, and
    returned. *)
Definition error_logged (self : GCPXLSXParser) (w' : W) (t : list event) : Prop :=
  exists message existing w0 t0,
    t = t0 ++ [log_event self existing message] /\
    log_error self message w0 = (Ok tt, w', [log_event self existing message]).

(** The reply of Cloud Run came back as the result, with nothing uploaded. *)
Definition remote_payload_returned (r : result json) (t : list event) : Prop :=
  exists payload,
    r = Ok payload /\ contains "error" payload = Ok false /\
    existsb is_upload t = false.

(** Writing the error log raised, and that exception left [parse]. *)
Definition error_log_raised (self : GCPXLSXParser) (r : result json) (w' : W)
  : Prop :=
  exists e message w0 t1,
    r = Raise e /\ log_error self message w0 = (Raise e, w', t1).


(** A failed sheet, in the words of the specification: the run ends with
    the failure string, the error logged and no JSON uploaded. *)
Definition failed_sheet_aborts (self : GCPXLSXParser) (w : W) : Prop :=
  forall xls w2 t12 n e,
    processed_locally self w xls w2 t12 ->
    convert_sheets xls = SheetFailed n e ->
    exists w' t,
      parse self w = (Ok (JStr FAILED), w', t) /\
      error_logged self w' t /\
      existsb is_json_upload t = false.

(** The error-log write of the [except] block of [parse] succeeds. *)
Definition handler_logs (self : GCPXLSXParser) (w : W) : Prop :=
  forall e w1 t1, parse_body self w = (Raise e, w1, t1) ->
    exists w2 t2, log_error self (file_error_message self e) w1 = (Ok tt, w2, t2).

Definition occurs (f : failure) (self : GCPXLSXParser) (w : W) : Prop :=
  match f with
  | MissingBlob =>
      exists w1, blob_exists (bucket self) (source_blob self) w = (Ok false, w1)
  | EmptyDownload =>
      exists w1 w2,
        blob_exists (bucket self) (source_blob self) w = (Ok true, w1) /\
        download_as_bytes (bucket self) (source_blob self) w1 = (Ok "", w2)
  | DecodeFailure =>
      exists w1 w2 excel_data e,
        blob_exists (bucket self) (source_blob self) w = (Ok true, w1) /\
        download_as_bytes (bucket self) (source_blob self) w1
          = (Ok excel_data, w2) /\
        excel_data <> "" /\
        pd_ExcelFile excel_data (engine_of self) = Raise e
  | SheetFailure =>
      exists xls w2 t n e,
        processed_locally self w xls w2 t /\
        convert_sheets xls = SheetFailed n e
  | NoData =>
      exists xls w2 t,
        processed_locally self w xls w2 t /\ convert_sheets xls = SheetsDone []
  | UploadFailure =>
      exists xls w2 t d e w3,
        processed_locally self w xls w2 t /\
        convert_sheets xls = SheetsDone d /\ d <> [] /\
        upload_from_string (bucket self) (destination_blob self)
          (dumps json_serializer d) "application/json" w2 = (Raise e, w3)
  end.

(** The HTTP trigger builds the parser [self] from the request: a JSON
    object with a truthy "bucket" and a non-empty [str] "name", and a bucket
    name the storage client accepts. *)
Definition http_reaches_parse (request : Request) (self : GCPXLSXParser) : Prop :=
  exists kv bucket_name source,
    get_json_silent request = Some (JObj kv) /\
    assoc "bucket" kv = Some bucket_name /\
    assoc "name" kv = Some (JStr source) /\
    truthy bucket_name = true /\ source <> "" /\
    GCPXLSXParser_init bucket_name source (http_destination_key source)
      (http_error_key source) = Ok self.

(** [request_json.get(k)] on the members of an object. *)
Definition field (kv : list (string * json)) (k : string) : json :=
  match assoc k kv with Some v => v | None => JNull end.

Definition invalid_json_reply : json * Z :=
  (jsonify "error" (JStr "Invalid JSON payload"), 400%Z).
Definition missing_parameters_reply : json * Z :=
  (jsonify "error" (JStr "Missing required parameters"), 400%Z).

(** A JSON object without "bucket" or without "name" is answered with
    "Missing required parameters". *)
Definition missing_fields_rejected (request : Request) (w : W) : Prop :=
  forall kv, get_json_silent request = Some (JObj kv) ->
    assoc "bucket" kv = None \/ assoc "name" kv = None ->
    exists w' t,
      convert_xlsx_to_json_http request w = (Ok missing_parameters_reply, w', t).

End Runs.

End Spec.

(* ===================================================================== *)
(** ** Further vocabulary: events, occurrences, dates *)
(* ===================================================================== *)

Module Shapes.
Import Py Pandas Json Main Mem Spec Samples.

Definition is_post (ev : event) : bool :=
  match ev with EvPost _ _ _ => true | _ => false end.

(** The three calls [parse] can make on behalf of a parser. *)
Definition parse_event (self : GCPXLSXParser) (ev : event) : Prop :=
  ev = cloud_run_call self \/
  (exists d, ev = json_event self d) \/
  (exists existing message, ev = log_event self existing message).

(** The calls of the sheet stage, of one [log_error], of the remote stage. *)
Definition local_calls (self : GCPXLSXParser) (t : list event) : Prop :=
  t = [] \/ (exists d, t = [json_event self d]) \/
  (exists existing message, t = [log_event self existing message]).

Definition log_calls (self : GCPXLSXParser) (t : list event) : Prop :=
  t = [] \/ exists existing message, t = [log_event self existing message].

Definition remote_calls (self : GCPXLSXParser) (t : list event) : Prop :=
  t = [] \/ t = [cloud_run_call self].

(** Some suffix of [s] starts with [old]. *)
Fixpoint occurs (old s : string) : bool :=
  match s with
  | EmptyString => String.prefix old EmptyString
  | String _ rest => String.prefix old s || occurs old rest
  end.

(** The values [in] accepts on its right. *)
Definition iterable (j : json) : bool :=
  match j with JObj _ | JArr _ | JStr _ => true | _ => false end.

(** *** Cells, prefixes of sheets *)

(** Some row of the frame has a missing cell. *)
Definition has_missing_cell (df : DataFrame) : Prop :=
  exists r, In r (rows df) /\ In None r.

(** The sheets of [pre] read as raw grids and none of them triggers. *)
Definition quiet_prefix (xls : ExcelFile) (pre : list string) : Prop :=
  forall m, In m pre ->
    sheet_triggers xls m = false /\
    exists df, parse_sheet xls m HeaderNone = Ok df.

(** A sheet named "Report", in any case, makes the detector return true. *)
Definition report_forces_true (xls : ExcelFile) : Prop :=
  forall n, In n (sheet_names xls) -> lower n = "report" ->
    detect_complexity xls = Ok true.

(** A chart sheet that cannot be read, before a sheet called "Report". *)
Definition unreadable_then_report : ExcelFile := {|
  sheet_names := ["Chart"; "Report"];
  parse_sheet := fun name h =>
    if String.eqb name "Report"
    then Ok (frame_of h [[Some "Total"]; [Some "7"]])
    else Raise (Exn ValueError "Worksheet cannot be read")
|}.

(** Cloud Run answers 500 with a JSON list. *)
Definition list_error_cloud_run (xls : ExcelFile) : config := {|
  decode := fun _ _ => Ok xls;
  remote := Ok {| status_code := 500;
                  json_ := Ok (JArr [JStr "Internal Server Error"]) |};
  bucket_check := fun _ => Ok tt;
  writable := true
|}.

(** *** Dates read back *)

Fixpoint dash_free (s : string) : bool :=
  match s with
  | EmptyString => true
  | String c rest => negb (Ascii.eqb c "-"%char) && dash_free rest
  end.

(** The number a text of decimal digits writes, after [acc]. *)
Fixpoint digits_value (s : string) (acc : Z) : option Z :=
  match s with
  | EmptyString => Some acc
  | String c rest =>
      if is_digit c
      then digits_value rest (10 * acc + Z.of_nat (nat_of_ascii c - 48))
      else None
  end.

(** The text before the first dash, and the text after it if there is one. *)
Fixpoint split_dash (s : string) : string * option string :=
  match s with
  | EmptyString => (EmptyString, None)
  | String c rest =>
      if Ascii.eqb c "-"%char then (EmptyString, Some rest)
      else let '(before, after) := split_dash rest in (String c before, after)
  end.

(** The year, month and day of a text [Y-MM-DD]: digits only, two of them
    for the month and for the day. *)
Definition read_date (s : string) : option (Z * Z * Z) :=
  match split_dash s with
  | (yyyy, Some rest) =>
      match split_dash rest with
      | (mm, Some dd) =>
          if (String.length mm =? 2)%nat && (String.length dd =? 2)%nat
             && negb (String.eqb yyyy "")
          then match digits_value yyyy 0, digits_value mm 0, digits_value dd 0 with
               | Some y, Some m, Some d => Some (y, m, d)
               | _, _, _ => None
               end
          else None
      | _ => None
      end
  | _ => None
  end.

Definition calendar_date (year month day : Z) : Prop :=
  (1 <= year <= 9999)%Z /\ (1 <= month <= 12)%Z /\ (1 <= day <= 31)%Z.

(** *** The four ways a run of [parse] ends *)

Section Outcomes.
Context {W : Type} {services : Services W}.





End Outcomes.

(** A sheet of the workbook [mixed] as the table it reads as. *)
Definition people : DataFrame :=
  frame_of Header0 [[Some "Name"; Some "Unused"; Some "Age"];
                    [Some "Ann"; None; Some "41"];
                    [None; None; None];
                    [Some "Bob"; None; None]].

(** A workbook whose second sheet cannot be read at all. *)
Definition report_then_unreadable : ExcelFile := {|
  sheet_names := ["REPORT"; "Chart"];
  parse_sheet := fun name h =>
    if String.eqb name "REPORT"
    then Ok (frame_of h [[Some "Total"]; [Some "7"]])
    else Raise (Exn ValueError "Worksheet cannot be read")
|}.

(** A first sheet that reads, then one that raises as a table. *)
Definition good_then_broken : ExcelFile := {|
  sheet_names := ["Data"; "Broken"; "Later"];
  parse_sheet := fun name h =>
    if String.eqb name "Broken"
    then match h with
         | HeaderNone => Ok (frame_of h [[Some "Id"]; [Some "1"]])
         | Header0 => Raise (Exn ValueError "bad header")
         end
    else Ok (frame_of h [[Some "Id"]; [Some "1"]])
|}.

(** Sheets that hold a header only, or null rows only. *)
Definition headers_only : ExcelFile :=
  workbook [("First", [[Some "Title"; Some "Date"]]);
            ("Second", [[Some "Title"]; [None]; [None]])].

Definition numeric_name_request : Request :=
  {| get_json_silent :=
       Some (JObj [("bucket", JStr "xlsx-test-bucket");
                   ("name", JInt 7)]) |}.

(** Cloud Run answers 500 with a JSON object. *)
Definition failing_cloud_run (xls : ExcelFile) : config := {|
  decode := fun _ _ => Ok xls;
  remote := Ok {| status_code := 500;
                  json_ := Ok (JObj [("error", JStr "out of memory")]) |};
  bucket_check := fun _ => Ok tt;
  writable := true
|}.

Definition notes_event : json :=
  JObj [("bucket", JStr "xlsx-test-bucket"); ("name", JStr "notes.txt")].

Definition test_event : json :=
  JObj [("bucket", JStr "xlsx-test-bucket"); ("name", JStr "test.xlsx")].

Definition list_request : Request :=
  {| get_json_silent := Some (JArr [JStr "test.xlsx"]) |}.

End Shapes.

(* ===================================================================== *)
(** ** Dicts, masks and frames *)
(* ===================================================================== *)

Module Facts.
Import Py Pandas Json Main Spec.

Lemma has_key_In {V : Type} (k : string) (d : list (string * V)) :
  has_key k d = true <-> In k (keys d).
Proof.
  unfold has_key, keys. induction d as [|[k' v] d IH]; simpl.
  - split; [discriminate | tauto].
  - destruct (String.eqb k k') eqn:E.
    + apply String.eqb_eq in E. subst. split; auto.
    + apply String.eqb_neq in E. rewrite IH. split; [auto | intros [?|?]; congruence].
Qed.

Lemma keys_dict_set {V : Type} (k : string) (v : V) (d : list (string * V)) :
  keys (dict_set k v d) = if has_key k d then keys d else keys d ++ [k].
Proof.
  unfold has_key, keys. induction d as [|[k' v'] d IH]; simpl; [reflexivity|].
  destruct (String.eqb k k') eqn:E; simpl.
  - apply String.eqb_eq in E. now subst.
  - rewrite IH. now destruct (assoc k d).
Qed.

Lemma assoc_dict_set_eq {V : Type} (k : string) (v : V) (d : list (string * V)) :
  assoc k (dict_set k v d) = Some v.
Proof.
  induction d as [|[k' v'] d IH]; simpl.
  - now rewrite String.eqb_refl.
  - destruct (String.eqb k k') eqn:E; simpl.
    + now rewrite String.eqb_refl.
    + now rewrite E.
Qed.

Lemma assoc_dict_set_ne {V : Type} (k k' : string) (v : V) (d : list (string * V)) :
  k <> k' -> assoc k' (dict_set k v d) = assoc k' d.
Proof.
  intros Hne. induction d as [|[k0 v0] d IH]; simpl.
  - apply not_eq_sym, String.eqb_neq in Hne. now rewrite Hne.
  - destruct (String.eqb k k0) eqn:E; simpl.
    + apply String.eqb_eq in E. subst k0.
      apply not_eq_sym, String.eqb_neq in Hne. now rewrite Hne.
    + now rewrite IH.
Qed.

Lemma dict_set_not_nil {V : Type} (k : string) (v : V) (d : list (string * V)) :
  dict_set k v d <> [].
Proof. destruct d as [|[k' v'] d]; simpl; [|destruct (String.eqb k k')]; discriminate. Qed.

Lemma keys_fold_dict_set {V : Type} (pairs d : list (string * V)) (c : string) :
  In c (keys (fold_left (fun d kv => dict_set (fst kv) (snd kv) d) pairs d)) ->
  In c (keys d) \/ In c (map fst pairs).
Proof.
  revert d. induction pairs as [|[k v] pairs IH]; simpl; intros d Hin; [now left|].
  apply IH in Hin. destruct Hin as [Hin|Hin]; [|now right; right].
  rewrite keys_dict_set in Hin. destruct (has_key k d); [now left|].
  apply in_app_or in Hin. destruct Hin as [?|[?|[]]]; [now left | now right; left].
Qed.

Lemma keys_dict_of {V : Type} (pairs : list (string * V)) (c : string) :
  In c (keys (dict_of pairs)) -> In c (map fst pairs).
Proof.
  intros Hin. apply keys_fold_dict_set in Hin. now destruct Hin as [[]|?].
Qed.

Lemma select_In {A : Type} (mask : list bool) (l : list A) (x : A) :
  In x (select mask l) ->
  exists j, nth_error l j = Some x /\ nth j mask false = true.
Proof.
  revert l. induction mask as [|b mask IH]; intros [|y l]; simpl; try tauto.
  destruct b; simpl.
  - intros [->|Hin]; [now exists 0%nat|].
    destruct (IH _ Hin) as (j & ? & ?). now exists (S j).
  - intros Hin. destruct (IH _ Hin) as (j & ? & ?). now exists (S j).
Qed.

Lemma existsb_select (mask : list bool) (r : list cell) :
  List.length mask = List.length r ->
  (forall j, notna (nth j r None) = true -> nth j mask false = true) ->
  existsb notna (select mask r) = existsb notna r.
Proof.
  revert r. induction mask as [|b mask IH]; intros [|c r]; simpl; try discriminate; auto.
  intros Hlen Hcov. injection Hlen as Hlen.
  assert (IH' : existsb notna (select mask r) = existsb notna r).
  { apply IH; [assumption|]. intros j Hj. exact (Hcov (S j) Hj). }
  destruct b; simpl; rewrite IH'; [reflexivity|].
  destruct (notna c) eqn:Ec; [|reflexivity].
  specialize (Hcov 0%nat Ec). discriminate.
Qed.

Lemma length_column_mask (df : DataFrame) :
  List.length (column_mask df) = List.length (columns df).
Proof. unfold column_mask. now rewrite length_map, length_seq. Qed.

Lemma column_mask_nth (df : DataFrame) (j : nat) :
  nth j (column_mask df) false = true ->
  exists r, In r (rows df) /\ notna (nth j r None) = true.
Proof.
  unfold column_mask. intros Hj.
  destruct (Nat.lt_ge_cases j (List.length (columns df))) as [Hlt|Hge].
  - rewrite (nth_indep _ false (existsb notna (column_values df 0))) in Hj
      by now rewrite length_map, length_seq.
    rewrite (map_nth (fun j => existsb notna (column_values df j))) in Hj.
    rewrite seq_nth in Hj by assumption. simpl in Hj.
    apply existsb_exists in Hj. destruct Hj as (c & Hin & Hc).
    unfold column_values in Hin. apply in_map_iff in Hin.
    destruct Hin as (r & <- & Hr). now exists r.
  - rewrite nth_overflow in Hj by now rewrite length_map, length_seq.
    discriminate.
Qed.

Lemma column_mask_covers (df : DataFrame) (r : list cell) (j : nat) :
  well_formed df -> In r (rows df) -> notna (nth j r None) = true ->
  nth j (column_mask df) false = true.
Proof.
  intros Hwf Hr Hj. unfold well_formed in Hwf. rewrite List.Forall_forall in Hwf.
  specialize (Hwf r Hr).
  destruct (Nat.lt_ge_cases j (List.length (columns df))) as [Hlt|Hge].
  - unfold column_mask.
    rewrite (nth_indep _ false (existsb notna (column_values df 0)))
      by now rewrite length_map, length_seq.
    rewrite (map_nth (fun j => existsb notna (column_values df j))).
    rewrite seq_nth by assumption. simpl.
    apply existsb_exists. exists (nth j r None). split; [|assumption].
    unfold column_values. apply in_map_iff. now exists r.
  - rewrite nth_overflow in Hj by lia. discriminate.
Qed.

(** Dropping the all-null rows after the all-null columns keeps the rows
    that hold a value, in their order. *)
Lemma rows_clean (df : DataFrame) :
  well_formed df ->
  rows (clean df)
  = map (select (column_mask df)) (List.filter row_has_value (rows df)).
Proof.
  intros Hwf. unfold clean, dropna_rows, dropna_columns; simpl.
  rewrite filter_map_swap. f_equal.
  apply filter_ext_in. intros r Hr. unfold row_has_value.
  apply existsb_select.
  - rewrite length_column_mask. unfold well_formed in Hwf.
    rewrite List.Forall_forall in Hwf. symmetry. now apply Hwf.
  - intros j Hj. now apply (column_mask_covers df r j).
Qed.

Lemma to_dict_records_clean (df : DataFrame) :
  well_formed df ->
  to_dict_records (clean df)
  = map (record_of df) (List.filter row_has_value (rows df)).
Proof.
  intros Hwf. unfold to_dict_records. rewrite (rows_clean df Hwf).
  rewrite map_map. reflexivity.
Qed.

Lemma record_of_drops_null_columns (df : DataFrame) (r : list cell) (c : string) :
  column_all_null df c -> ~ In c (keys (record_of df r)).
Proof.
  intros Hnull Hin. unfold record_of in Hin.
  apply keys_dict_of in Hin. apply in_map_iff in Hin.
  destruct Hin as ([c' v] & Hc & Hin). simpl in Hc. subst c'.
  apply in_combine_l in Hin. apply select_In in Hin.
  destruct Hin as (j & Hj & Hmask).
  apply column_mask_nth in Hmask. destruct Hmask as (r0 & Hr0 & Hv).
  rewrite (Hnull j r0 Hj Hr0) in Hv. discriminate.
Qed.

Lemma select_not_nil {A : Type} (mask : list bool) (l : list A) (j : nat) :
  List.length mask = List.length l -> (j < List.length l)%nat ->
  nth j mask false = true -> select mask l <> [].
Proof.
  revert l j. induction mask as [|b mask IH]; intros [|x l] j; simpl;
    try discriminate; try lia.
  intros [= Hlen] Hj Hnth. destruct b; [discriminate|].
  destruct j as [|j]; [discriminate|]. apply (IH l j); [assumption|lia|assumption].
Qed.

(** A frame is left non-empty exactly when some row holds a value. *)
Lemma non_empty_iff_value (df : DataFrame) :
  well_formed df ->
  (empty (clean df) = false <->
   exists r, In r (rows df) /\ row_has_value r = true).
Proof.
  intros Hwf. unfold empty. rewrite (rows_clean df Hwf).
  change (columns (clean df)) with (select (column_mask df) (columns df)).
  split.
  - intros Hne.
    destruct (List.filter row_has_value (rows df)) as [|r rs] eqn:Ef.
    + simpl in Hne. now destruct (select (column_mask df) (columns df)).
    + exists r. apply filter_In. rewrite Ef. now left.
  - intros (r & Hr & Hv).
    assert (Hin : In r (List.filter row_has_value (rows df))).
    { apply filter_In. now split. }
    unfold row_has_value in Hv. apply existsb_exists in Hv.
    destruct Hv as (c & Hc & Hcv). apply In_nth with (d := None) in Hc.
    destruct Hc as (j & Hj & <-).
    pose proof Hwf as Hwf'. unfold well_formed in Hwf'.
    rewrite List.Forall_forall in Hwf'. specialize (Hwf' r Hr).
    assert (Hcols : select (column_mask df) (columns df) <> []).
    { apply (select_not_nil _ _ j).
      - apply length_column_mask.
      - lia.
      - now apply (column_mask_covers df r j). }
    destruct (select (column_mask df) (columns df)); [contradiction|].
    destruct (List.filter row_has_value (rows df)); [contradiction|].
    reflexivity.
Qed.

End Facts.

(* ===================================================================== *)
(** ** The keys built by the triggers *)
(* ===================================================================== *)

Module Keys.
Import Py Main Spec.

(** No occurrence of a pattern that starts with a dot begins inside a stem
    without dots. *)
Lemma replace_from_dot_free (old' new stem tail : string) :
  dot_free stem = true ->
  replace_from (String "."%char old') new (stem +:+ tail) 0
  = stem +:+ replace_from (String "."%char old') new tail 0.
Proof.
  induction stem as [|c rest IH]; intros Hfree; [reflexivity|].
  cbn [dot_free] in Hfree. apply andb_true_iff in Hfree.
  destruct Hfree as (Hc & Hrest). apply negb_true_iff in Hc.
  change (String c rest +:+ tail) with (String c (rest +:+ tail)).
  cbn [replace_from String.prefix].
  destruct (ascii_dec "."%char c) as [<-|_]; [discriminate|].
  change (String c rest +:+ replace_from (String "."%char old') new tail 0)
    with (String c (rest +:+ replace_from (String "."%char old') new tail 0)).
  f_equal. now apply IH.
Qed.

(** X2. On a key with a single dot, that of its suffix, the HTTP trigger builds
    both keys as specified, and so does the event trigger but for the error
    log of an [.xls] key, which it leaves as the source key. *)
Lemma keys_of_dot_free_stem (stem : string) :
  dot_free stem = true ->
  http_destination_key (stem +:+ ".xlsx") = stem +:+ ".json" /\
  http_destination_key (stem +:+ ".xls") = stem +:+ ".json" /\
  http_error_key (stem +:+ ".xlsx") = stem +:+ "_error.log" /\
  http_error_key (stem +:+ ".xls") = stem +:+ "_error.log" /\
  event_destination_key (stem +:+ ".xlsx") = stem +:+ ".json" /\
  event_destination_key (stem +:+ ".xls") = stem +:+ ".json" /\
  event_error_key (stem +:+ ".xlsx") = stem +:+ "_error.log" /\
  event_error_key (stem +:+ ".xls") = stem +:+ ".xls".
Proof.
  intros Hfree.
  unfold http_destination_key, http_error_key, event_destination_key,
    event_error_key, replace.
  repeat split;
    repeat (rewrite (replace_from_dot_free _ _ stem _ Hfree); cbn [replace_from]);
    rewrite ?(replace_from_dot_free _ _ stem _ Hfree); reflexivity.
Qed.

End Keys.

(* ===================================================================== *)
(** ** The complexity detector *)
(* ===================================================================== *)

Module Complexity.
Import Py Pandas Json Main Spec Samples Shapes Facts.

Lemma detect_complexity_from_any (xls : ExcelFile) (names : list string) :
  (forall n, In n names -> exists df, parse_sheet xls n HeaderNone = Ok df) ->
  detect_complexity_from xls names = Ok (existsb (sheet_triggers xls) names).
Proof.
  induction names as [|n names IH]; intros Hparse; [reflexivity|].
  cbn [detect_complexity_from existsb].
  destruct (Hparse n (or_introl eq_refl)) as (df & Hdf).
  unfold sheet_triggers at 1. rewrite Hdf.
  change (0 <? isna_sum_sum df)%nat with (1 <=? isna_sum_sum df)%nat.
  destruct (1 <=? isna_sum_sum df)%nat; [reflexivity|].
  destruct (str_in (lower n) structured_names); [reflexivity|].
  cbn [orb]. apply IH. intros m Hm. apply Hparse. now right.
Qed.

Lemma str_in_In (s : string) (l : list string) : str_in s l = true <-> In s l.
Proof.
  unfold str_in. rewrite existsb_exists. split.
  - intros (x & Hx & E). apply String.eqb_eq in E. now subst.
  - intros Hin. exists s. split; [assumption | apply String.eqb_refl].
Qed.

Lemma sheet_triggers_iff (xls : ExcelFile) (n : string) :
  sheet_triggers xls n = true <->
  exists df, parse_sheet xls n HeaderNone = Ok df /\
             (1 <= isna_sum_sum df \/ In (lower n) structured_names).
Proof.
  unfold sheet_triggers. destruct (parse_sheet xls n HeaderNone) as [df|e].
  - rewrite orb_true_iff, Nat.leb_le, str_in_In. split.
    + intros Hc. now exists df.
    + intros (df' & E & Hc). now injection E as <-.
  - split; [discriminate | intros (df' & E & _); discriminate].
Qed.

Lemma detect_complexity_from_skip (xls : ExcelFile) (pre rest : list string) :
  (forall m, In m pre ->
     sheet_triggers xls m = false /\
     exists df, parse_sheet xls m HeaderNone = Ok df) ->
  detect_complexity_from xls (pre ++ rest) = detect_complexity_from xls rest.
Proof.
  induction pre as [|m pre IH]; intros Hpre; [reflexivity|].
  destruct (Hpre m (or_introl eq_refl)) as (Hquiet & df & Hdf).
  cbn [app detect_complexity_from]. rewrite Hdf.
  unfold sheet_triggers in Hquiet. rewrite Hdf in Hquiet.
  apply orb_false_iff in Hquiet. destruct Hquiet as (Hna & Hname).
  change (0 <? isna_sum_sum df)%nat with (1 <=? isna_sum_sum df)%nat.
  rewrite Hna, Hname. apply IH. intros k Hk. apply Hpre. now right.
Qed.

Lemma count_na_row_pos (r : list cell) :
  1 <= count_na_row r <-> In None r.
Proof.
  unfold count_na_row. induction r as [|c r IH]; simpl.
  - split; [lia | tauto].
  - destruct c as [s|]; simpl.
    + rewrite IH. split; [auto | intros [?|?]; [discriminate | assumption]].
    + split; [auto | lia].
Qed.

(** The count of [df.isna().sum().sum()] is positive exactly when a cell
    of some row is missing. *)
Lemma isna_sum_sum_pos (df : DataFrame) :
  1 <= isna_sum_sum df <-> has_missing_cell df.
Proof.
  unfold isna_sum_sum, has_missing_cell.
  induction (rows df) as [|r rs IH]; simpl.
  - split; [lia | intros (r & [] & _)].
  - split.
    + intros Hsum.
      destruct (Nat.eq_dec (count_na_row r) 0) as [Hz|Hnz].
      * destruct IH as (IH & _). destruct IH as (r' & Hr' & Hn); [lia|].
        exists r'. split; [now right | assumption].
      * exists r. split; [now left|]. apply count_na_row_pos. lia.
    + intros (r' & [<-|Hr'] & Hn).
      * apply count_na_row_pos in Hn. lia.
      * destruct IH as (_ & IH). assert (1 <= list_sum (map count_na_row rs)).
        { apply IH. now exists r'. }
        lia.
Qed.

Lemma sheet_triggers_cells (xls : ExcelFile) (n : string) (df : DataFrame) :
  parse_sheet xls n HeaderNone = Ok df ->
  (sheet_triggers xls n = true <->
   has_missing_cell df \/ In (lower n) structured_names).
Proof.
  intros Hdf. unfold sheet_triggers. rewrite Hdf.
  rewrite orb_true_iff, Nat.leb_le, str_in_In, isna_sum_sum_pos. reflexivity.
Qed.

(** Where the loop of the detector ends. *)
Lemma detect_complexity_from_ends (xls : ExcelFile) (names : list string) :
  match detect_complexity_from xls names with
  | Ok true =>
      exists pre n post df,
        names = pre ++ n :: post /\ quiet_prefix xls pre /\
        parse_sheet xls n HeaderNone = Ok df /\ sheet_triggers xls n = true
  | Ok false => quiet_prefix xls names
  | Raise e =>
      exists pre n post,
        names = pre ++ n :: post /\ quiet_prefix xls pre /\
        parse_sheet xls n HeaderNone = Raise e
  end.
Proof.
  induction names as [|m names IH]; cbn [detect_complexity_from].
  - intros k [].
  - destruct (parse_sheet xls m HeaderNone) as [df|e] eqn:Hdf.
    + assert (Ht : sheet_triggers xls m
                   = (1 <=? isna_sum_sum df)%nat
                     || str_in (lower m) structured_names).
      { unfold sheet_triggers. now rewrite Hdf. }
      change (0 <? isna_sum_sum df)%nat with (1 <=? isna_sum_sum df)%nat.
      assert (Hstep : sheet_triggers xls m = false ->
                forall pre, quiet_prefix xls pre -> quiet_prefix xls (m :: pre)).
      { intros Hq pre Hpre k [<-|Hk]; [|now apply Hpre].
        split; [exact Hq | now exists df]. }
      assert (Hnil : quiet_prefix xls []) by (intros k []).
      destruct (1 <=? isna_sum_sum df)%nat eqn:Hna.
      * exists [], m, names, df.
        split; [reflexivity|]. split; [exact Hnil|]. split; [exact Hdf|exact Ht].
      * destruct (str_in (lower m) structured_names) eqn:Hname.
        -- exists [], m, names, df.
           split; [reflexivity|]. split; [exact Hnil|]. split; [exact Hdf|exact Ht].
        -- cbn [orb] in Ht.
           destruct (detect_complexity_from xls names) as [[|]|e].
           ++ destruct IH as (pre & n & post & df' & -> & Hpre & Hn & Htn).
              exists (m :: pre), n, post, df'.
              split; [reflexivity|]. split; [now apply Hstep|]. now split.
           ++ now apply Hstep.
           ++ destruct IH as (pre & n & post & -> & Hpre & Hn).
              exists (m :: pre), n, post.
              split; [reflexivity|]. split; [now apply Hstep | exact Hn].
    + exists [], m, names.
      split; [reflexivity|]. split; [intros k [] | exact Hdf].
Qed.

(** C3, amended.  On a workbook whose sheets all read as raw grids,
    [detect_complexity] returns a flag; the flag is the one obtained by
    checking every sheet without stopping early; it is true exactly when
    some sheet has a missing cell in a row of its raw grid or has a name
    that, lower-cased, is "overview", "metadata schema" or "report"; and a
    sheet whose lower-cased name is "report" makes it true whatever its
    cells.  On any workbook, the detector returns true exactly when the first
    sheet that triggers or cannot be read is one that triggers, and raises
    exactly when it is one that cannot be read, with the exception of that
    sheet. *)
Theorem detect_complexity_flags_any_trigger (xls : ExcelFile) :
  (raw_grids_parse xls ->
   exists flag,
     detect_complexity xls = Ok flag /\
     flag = any_sheet_triggers xls /\
     (flag = true <->
      exists n df, In n (sheet_names xls) /\
                   parse_sheet xls n HeaderNone = Ok df /\
                   (has_missing_cell df \/
                    In (lower n) ["overview"; "metadata schema"; "report"])) /\
     (forall n, In n (sheet_names xls) -> lower n = "report" -> flag = true)) /\
  (detect_complexity xls = Ok true <->
   exists pre n post df,
     sheet_names xls = pre ++ n :: post /\ quiet_prefix xls pre /\
     parse_sheet xls n HeaderNone = Ok df /\
     (has_missing_cell df \/
      In (lower n) ["overview"; "metadata schema"; "report"])) /\
  (forall e,
     detect_complexity xls = Raise e <->
     exists pre n post,
       sheet_names xls = pre ++ n :: post /\ quiet_prefix xls pre /\
       parse_sheet xls n HeaderNone = Raise e).
Proof.
  split; [|split].
  - intros Hparse. exists (any_sheet_triggers xls).
    assert (Hiff : any_sheet_triggers xls = true <->
       exists n df, In n (sheet_names xls) /\
                    parse_sheet xls n HeaderNone = Ok df /\
                    (has_missing_cell df \/ In (lower n) structured_names)).
    { unfold any_sheet_triggers. rewrite existsb_exists. split.
      - intros (n & Hn & Ht). destruct (Hparse n Hn) as (df & Hdf).
        apply (sheet_triggers_cells xls n df Hdf) in Ht. now exists n, df.
      - intros (n & df & Hn & Hdf & Hc). exists n. split; [assumption|].
        now apply (sheet_triggers_cells xls n df Hdf). }
    split; [|split; [reflexivity|split; [exact Hiff|]]].
    + unfold detect_complexity. now apply detect_complexity_from_any.
    + intros n Hn Hlow. apply Hiff.
      destruct (Hparse n Hn) as (df & Hdf). exists n, df.
      split; [assumption|split; [assumption|]].
      right. rewrite Hlow. unfold structured_names. simpl. tauto.
  - unfold detect_complexity. split.
    + intros E. pose proof (detect_complexity_from_ends xls (sheet_names xls)) as H.
      rewrite E in H. destruct H as (pre & n & post & df & Hs & Hq & Hdf & Ht).
      exists pre, n, post, df.
      split; [exact Hs|]. split; [exact Hq|]. split; [exact Hdf|].
      now apply (sheet_triggers_cells xls n df Hdf).
    + intros (pre & n & post & df & -> & Hq & Hdf & Hc).
      rewrite (detect_complexity_from_skip xls pre (n :: post) Hq).
      apply (sheet_triggers_cells xls n df Hdf) in Hc.
      cbn [detect_complexity_from]. rewrite Hdf.
      unfold sheet_triggers in Hc. rewrite Hdf in Hc.
      change (0 <? isna_sum_sum df)%nat with (1 <=? isna_sum_sum df)%nat.
      destruct (1 <=? isna_sum_sum df)%nat; [reflexivity|].
      cbn [orb] in Hc. now rewrite Hc.
  - intros e. unfold detect_complexity. split.
    + intros E. pose proof (detect_complexity_from_ends xls (sheet_names xls)) as H.
      now rewrite E in H.
    + intros (pre & n & post & -> & Hq & Hn).
      rewrite (detect_complexity_from_skip xls pre (n :: post) Hq).
      cbn [detect_complexity_from]. now rewrite Hn.
Qed.

End Complexity.

(* ===================================================================== *)
(** ** The sheet loop of the local converter *)
(* ===================================================================== *)

Module Converter.
Import Py Pandas Json Main Spec Facts.

Lemma sheet_non_empty_parsed (xls : ExcelFile) (n : string) (df : DataFrame) :
  parse_sheet xls n Header0 = Ok df ->
  sheet_non_empty xls n = negb (empty (clean df)).
Proof. intros E. unfold sheet_non_empty. now rewrite E. Qed.

(** The loop over sheets that all parse: it ends with a dict that holds the
    records of the non-empty sheets met, and leaves the other keys alone. *)
Lemma convert_sheets_from_done (xls : ExcelFile) (names : list string) :
  (forall n, In n names -> exists df, parse_sheet xls n Header0 = Ok df) ->
  forall d, exists d',
    convert_sheets_from xls names d = SheetsDone d' /\
    (forall n df, In n names -> parse_sheet xls n Header0 = Ok df ->
                  empty (clean df) = false ->
                  assoc n d' = Some (to_dict_records (clean df))) /\
    (forall n, ~ (In n names /\ sheet_non_empty xls n = true) ->
               assoc n d' = assoc n d) /\
    (List.NoDup names -> (forall n, In n names -> ~ In n (keys d)) ->
     keys d' = keys d ++ List.filter (sheet_non_empty xls) names).
Proof.
  induction names as [|n names IH]; intros Hparse d.
  - exists d. simpl. repeat split; try tauto. intros _ _. now rewrite app_nil_r.
  - destruct (Hparse n (or_introl eq_refl)) as (df & Hdf).
    assert (Hrest : forall m, In m names ->
                      exists df, parse_sheet xls m Header0 = Ok df).
    { intros m Hm. apply Hparse. now right. }
    pose proof (sheet_non_empty_parsed xls n df Hdf) as Hne.
    cbn [convert_sheets_from]. rewrite Hdf.
    change (dropna_rows (dropna_columns df)) with (clean df).
    destruct (empty (clean df)) eqn:Eempty.
    + destruct (IH Hrest d) as (d' & Hrun & Hin & Hout & Hkeys).
      exists d'. split; [exact Hrun|]. split; [|split].
      * intros m dfm [<-|Hm] Hdfm Hfull.
        -- rewrite Hdf in Hdfm. injection Hdfm as <-. congruence.
        -- now apply Hin.
      * intros m Hm. apply Hout. intros [Hm1 Hm2]. apply Hm. split; [now right|assumption].
      * intros Hnd Hfresh. cbn [List.filter]. rewrite Hne. cbn [negb].
        apply Hkeys; [now inversion Hnd|]. intros m Hm. apply Hfresh. now right.
    + destruct (IH Hrest (dict_set n (to_dict_records (clean df)) d))
        as (d' & Hrun & Hin & Hout & Hkeys).
      exists d'. split; [exact Hrun|]. split; [|split].
      * intros m dfm Hm Hdfm Hfull.
        destruct (List.in_dec String.string_dec m names) as [Hmn|Hmn].
        -- now apply Hin.
        -- destruct Hm as [<-|Hm]; [|contradiction].
           rewrite Hdf in Hdfm. injection Hdfm as <-.
           rewrite Hout by tauto. apply assoc_dict_set_eq.
      * intros m Hm. rewrite Hout.
        -- apply assoc_dict_set_ne. intros <-. apply Hm.
           split; [now left|]. rewrite Hne. reflexivity.
        -- intros [Hm1 Hm2]. apply Hm. split; [now right|assumption].
      * intros Hnd Hfresh. cbn [List.filter]. rewrite Hne. cbn [negb].
        inversion Hnd as [|? ? Hnotin Hnd']; subst.
        rewrite Hkeys; [|assumption|].
        -- rewrite keys_dict_set.
           destruct (has_key n d) eqn:Ek.
           ++ apply has_key_In in Ek. exfalso. apply (Hfresh n); [now left|assumption].
           ++ now rewrite <- app_assoc.
        -- intros m Hm Hk. rewrite keys_dict_set in Hk.
           destruct (has_key n d).
           ++ apply (Hfresh m); [now right|assumption].
           ++ apply in_app_or in Hk. destruct Hk as [Hk|[<-|[]]].
              ** apply (Hfresh m); [now right|assumption].
              ** contradiction.
Qed.

End Converter.

(* ===================================================================== *)
(** ** Runs of the orchestrator *)
(* ===================================================================== *)

Module Orchestrator.
Import Py Pandas Json Main Spec Facts.

Section Steps.
Context {W : Type} {services : Services W}.

Lemma bind_ok {A B : Type} (m : M A) (f : A -> M B) (w w1 : W) (a : A)
  (t1 : list event) :
  m w = (Ok a, w1, t1) ->
  bind m f w = (let '(r, w2, t2) := f a w1 in (r, w2, t1 ++ t2)).
Proof. intros E. unfold bind. now rewrite E. Qed.

Lemma bind_raise {A B : Type} (m : M A) (f : A -> M B) (w w1 : W) (e : exn)
  (t1 : list event) :
  m w = (Raise e, w1, t1) -> bind m f w = (Raise e, w1, t1).
Proof. intros E. unfold bind. now rewrite E. Qed.

Lemma try_except_ok {A : Type} (m : M A) (h : exn -> M A) (w w1 : W) (a : A)
  (t1 : list event) :
  m w = (Ok a, w1, t1) -> try_except m h w = (Ok a, w1, t1).
Proof. intros E. unfold try_except, try_except_when. now rewrite E. Qed.

Lemma try_except_raise {A : Type} (m : M A) (h : exn -> M A) (w w1 : W)
  (e : exn) (t1 : list event) :
  m w = (Raise e, w1, t1) ->
  try_except m h w = (let '(r, w2, t2) := h e w1 in (r, w2, t1 ++ t2)).
Proof. intros E. unfold try_except, try_except_when. now rewrite E. Qed.

(** What [log_error] leaves in the trace: nothing when looking up or
    reading the log raised, the append otherwise. *)
Lemma log_error_run (self : GCPXLSXParser) (message : string) (w : W) :
  (exists e w', log_error self message w = (Raise e, w', [])) \/
  (exists existing w1,
     log_error self message w
     = (let '(r, w') := upload_from_string (bucket self) (error_blob self)
                          (existing +:+ message +:+ nl) "text/plain" w1 in
        (r, w', [log_event self existing message]))).
Proof.
  unfold log_error, bind, call, ret, log_event.
  destruct (blob_exists (bucket self) (error_blob self) w) as [[found|e] w1].
  - destruct found.
    + destruct (download_as_text (bucket self) (error_blob self) w1)
        as [[existing|e] w2].
      * right. exists existing, w2.
        destruct (upload_from_string _ _ _ _ w2) as [r w3]. reflexivity.
      * left. now exists e, w2.
    + right. exists "", w1.
      destruct (upload_from_string _ _ _ _ w1) as [r w3]. reflexivity.
  - left. now exists e, w1.
Qed.

Lemma log_error_ok (self : GCPXLSXParser) (message : string) (w w' : W)
  (t : list event) :
  log_error self message w = (Ok tt, w', t) ->
  exists existing, t = [log_event self existing message].
Proof.
  intros E. destruct (log_error_run self message w) as [(e & w1 & E1)|(existing & w1 & E1)].
  - rewrite E1 in E. discriminate.
  - rewrite E1 in E. destruct (upload_from_string _ _ _ _ w1) as [r w3].
    injection E as _ _ <-. now exists existing.
Qed.

Lemma log_error_no_json (self : GCPXLSXParser) (message : string) (w w' : W)
  (r : result unit) (t : list event) :
  log_error self message w = (r, w', t) -> existsb is_json_upload t = false.
Proof.
  intros E. destruct (log_error_run self message w) as [(e & w1 & E1)|(existing & w1 & E1)].
  - rewrite E1 in E. now injection E as _ _ <-.
  - rewrite E1 in E. destruct (upload_from_string _ _ _ _ w1) as [r1 w3].
    now injection E as _ _ <-.
Qed.

Lemma log_error_keys (self : GCPXLSXParser) (message key : string) (w w' : W)
  (r : result unit) (t : list event) :
  key <> error_blob self ->
  log_error self message w = (r, w', t) -> existsb (uploads_to key) t = false.
Proof.
  intros Hne E.
  destruct (log_error_run self message w) as [(e & w1 & E1)|(existing & w1 & E1)].
  - rewrite E1 in E. now injection E as _ _ <-.
  - rewrite E1 in E. destruct (upload_from_string _ _ _ _ w1) as [r1 w3].
    injection E as _ _ <-. simpl.
    apply not_eq_sym, String.eqb_neq in Hne. now rewrite Hne.
Qed.

Lemma open_workbook_trace (self : GCPXLSXParser) (w w1 : W)
  (r : result ExcelFile) (t : list event) :
  open_workbook self w = (r, w1, t) -> t = [].
Proof.
  unfold open_workbook, bind, call, raise, ret.
  destruct (blob_exists (bucket self) (source_blob self) w) as [[found|e] wa];
    [|now intros [= _ _ <-]].
  destruct found; simpl; [|now intros [= _ _ <-]].
  destruct (download_as_bytes (bucket self) (source_blob self) wa)
    as [[excel_data|e] wb]; [|now intros [= _ _ <-]].
  destruct (String.eqb excel_data ""); [now intros [= _ _ <-]|].
  destruct (String.eqb _ "xls");
    destruct (pd_ExcelFile excel_data _); now intros [= _ _ <-].
Qed.

(** The Cloud Run client makes one call and never uploads. *)
Lemma forward_to_cloud_run_trace (self : GCPXLSXParser) (w w1 : W)
  (r : result json) (t : list event) :
  forward_to_cloud_run self w = (r, w1, t) -> existsb is_upload t = false.
Proof.
  unfold forward_to_cloud_run, try_except_when, bind, call, lift, ret.
  destruct (requests_post _ _ _ w) as [[response|e] wa].
  - destruct (json_ response) as [response_data|e]; simpl.
    + destruct (status_code response =? 200)%Z.
      * now intros [= _ _ <-].
      * destruct (get_or response_data "error" (JStr "Unknown error")) as [reason|e]; simpl.
        -- now intros [= _ _ <-].
        -- destruct (is_request_exception e); now intros [= _ _ <-].
    + destruct (is_request_exception e); now intros [= _ _ <-].
  - destruct (is_request_exception e); now intros [= _ _ <-].
Qed.

Lemma remote_stage_trace (self : GCPXLSXParser) (xls : ExcelFile) (w w1 : W)
  (r : result (option json)) (t : list event) :
  remote_stage self xls w = (r, w1, t) -> existsb is_upload t = false.
Proof.
  unfold remote_stage, bind, lift, ret.
  destruct (detect_complexity xls) as [complex|e]; [|now intros [= _ _ <-]].
  destruct complex; [|now intros [= _ _ <-]].
  destruct (forward_to_cloud_run self w) as [[[resp|e] wa] ta] eqn:Efwd;
    [|intros [= _ _ <-]; exact (forward_to_cloud_run_trace _ _ _ _ _ Efwd)].
  pose proof (forward_to_cloud_run_trace _ _ _ _ _ Efwd) as Hta.
  destruct (contains "error" resp) as [has_error|e];
    [destruct has_error|]; simpl; intros [= _ _ <-];
    rewrite ?app_nil_r; exact Hta.
Qed.

Lemma remote_stage_payload (self : GCPXLSXParser) (xls : ExcelFile) (w w1 : W)
  (payload : json) (t : list event) :
  remote_stage self xls w = (Ok (Some payload), w1, t) ->
  detect_complexity xls = Ok true /\
  forward_to_cloud_run self w = (Ok payload, w1, t) /\
  contains "error" payload = Ok false.
Proof.
  unfold remote_stage, bind, lift, ret.
  destruct (detect_complexity xls) as [complex|e]; [|discriminate].
  destruct complex; [|discriminate].
  destruct (forward_to_cloud_run self w) as [[[resp|e] wa] ta]; [|discriminate].
  destruct (contains "error" resp) as [has_error|e] eqn:Ec;
    [destruct has_error|]; simpl; try discriminate.
  intros [= <- <- <-]. rewrite !app_nil_r. auto.
Qed.

Lemma is_upload_json (t : list event) :
  existsb is_upload t = false -> existsb is_json_upload t = false.
Proof.
  induction t as [|ev t IH]; simpl; [reflexivity|].
  destruct ev; simpl; [discriminate|]. exact IH.
Qed.

Lemma is_upload_key (key : string) (t : list event) :
  existsb is_upload t = false -> existsb (uploads_to key) t = false.
Proof.
  induction t as [|ev t IH]; simpl; [reflexivity|].
  destruct ev; simpl; [discriminate|]. exact IH.
Qed.

Lemma parse_body_local (self : GCPXLSXParser) (w w2 : W) (xls : ExcelFile)
  (t12 : list event) :
  processed_locally self w xls w2 t12 ->
  parse_body self w
  = (let '(r, w3, t3) := local_stage self xls w2 in (r, w3, t12 ++ t3)).
Proof.
  intros (w1 & t1 & t2 & Hopen & Hremote & ->).
  unfold parse_body. rewrite (bind_ok _ _ _ _ _ _ Hopen).
  rewrite (bind_ok _ _ _ _ _ _ Hremote).
  destruct (local_stage self xls w2) as [[r w3] t3].
  now rewrite app_assoc.
Qed.

Lemma processed_locally_trace (self : GCPXLSXParser) (w w2 : W)
  (xls : ExcelFile) (t12 : list event) :
  processed_locally self w xls w2 t12 -> existsb is_upload t12 = false.
Proof.
  intros (w1 & t1 & t2 & Hopen & Hremote & ->).
  rewrite (open_workbook_trace _ _ _ _ _ Hopen). simpl.
  exact (remote_stage_trace _ _ _ _ _ _ Hremote).
Qed.

Lemma parse_handler_run (self : GCPXLSXParser) (e : exn) (w : W) :
  parse_handler self e w
  = match log_error self (file_error_message self e) w with
    | (Ok _, w', t) => (Ok (JStr FAILED), w', t)
    | (Raise e', w', t) => (Raise e', w', t)
    end.
Proof.
  unfold parse_handler, bind, ret.
  destruct (log_error self (file_error_message self e) w) as [[[u|e'] w'] t];
    [now rewrite app_nil_r | reflexivity].
Qed.

Lemma parse_of_body_ok (self : GCPXLSXParser) (w w1 : W) (v : json)
  (t : list event) :
  parse_body self w = (Ok v, w1, t) -> parse self w = (Ok v, w1, t).
Proof. intros E. unfold parse. now apply try_except_ok. Qed.

Lemma parse_of_body_raise (self : GCPXLSXParser) (w w1 : W) (e : exn)
  (t1 : list event) :
  parse_body self w = (Raise e, w1, t1) ->
  parse self w
  = match log_error self (file_error_message self e) w1 with
    | (Ok _, w', t) => (Ok (JStr FAILED), w', t1 ++ t)
    | (Raise e', w', t) => (Raise e', w', t1 ++ t)
    end.
Proof.
  intros E. unfold parse. rewrite (try_except_raise _ _ _ _ _ _ E).
  rewrite parse_handler_run.
  now destruct (log_error self (file_error_message self e) w1) as [[[u|e'] w'] t].
Qed.

End Steps.

End Orchestrator.

(* ===================================================================== *)
(** ** Properties of [parse] *)
(* ===================================================================== *)

Module Properties.
Import Py Pandas Json Main Samples Shapes Spec Facts Orchestrator.

Section Parse.
Context {W : Type} {services : Services W}.

Lemma local_stage_run (self : GCPXLSXParser) (xls : ExcelFile) (w : W) :
  local_stage self xls w
  = match convert_sheets xls with
    | SheetFailed n e =>
        match log_error self (sheet_error_message n e) w with
        | (Ok _, w', t) => (Ok (JStr FAILED), w', t)
        | (Raise e', w', t) => (Raise e', w', t)
        end
    | SheetsDone [] => (Raise no_data, w, [])
    | SheetsDone d =>
        let '(r, w') := upload_from_string (bucket self) (destination_blob self)
                          (dumps json_serializer d) "application/json" w in
        (match r with Ok _ => Ok (JStr SUCCESS) | Raise e => Raise e end,
         w', [json_event self d])
    end.
Proof.
  unfold local_stage. destruct (convert_sheets xls) as [d|n e].
  - destruct d as [|kv d]; [reflexivity|].
    unfold bind, upload_json, call, ret, json_event.
    destruct (upload_from_string _ _ _ _ w) as [[u|e] w']; reflexivity.
  - unfold bind, ret, sheet_error_message.
    destruct (log_error self _ w) as [[[u|e'] w'] t];
      [now rewrite app_nil_r | reflexivity].
Qed.

Lemma parse_body_returns (self : GCPXLSXParser) (w w' : W) (v : json)
  (t : list event) :
  parse_body self w = (Ok v, w', t) ->
  (v = JStr SUCCESS /\ json_written self w' t) \/
  (v = JStr FAILED /\ error_logged self w' t) \/
  remote_payload_returned (Ok v) t.
Proof.
  intros Ebody. unfold parse_body in Ebody.
  destruct (open_workbook self w) as [[[xls|e] wa] ta] eqn:Eopen;
    [|rewrite (bind_raise _ _ _ _ _ _ Eopen) in Ebody; discriminate].
  rewrite (bind_ok _ _ _ _ _ _ Eopen) in Ebody.
  pose proof (open_workbook_trace _ _ _ _ _ Eopen) as ->.
  destruct (remote_stage self xls wa) as [[[remote|e] wb] tb] eqn:Eremote;
    [|rewrite (bind_raise _ _ _ _ _ _ Eremote) in Ebody; discriminate].
  rewrite (bind_ok _ _ _ _ _ _ Eremote) in Ebody.
  pose proof (remote_stage_trace _ _ _ _ _ _ Eremote) as Htb.
  destruct remote as [payload|].
  - unfold ret in Ebody. simpl in Ebody. injection Ebody as <- <- <-.
    right; right. exists payload. split; [reflexivity|]. split.
    + now destruct (remote_stage_payload _ _ _ _ _ _ Eremote) as (_ & _ & ?).
    + now rewrite app_nil_r.
  - rewrite local_stage_run in Ebody.
    destruct (convert_sheets xls) as [d|n e].
    + destruct d as [|kv d]; [discriminate|].
      destruct (upload_from_string _ _ _ _ wb) as [[u|e] wc] eqn:Eup;
        [|discriminate].
      simpl in Ebody. injection Ebody as <- <- <-.
      left. split; [reflexivity|].
      exists (kv :: d), wb, tb. split; [reflexivity|]. now destruct u.
    + destruct (log_error self (sheet_error_message n e) wb)
        as [[[u|e'] wc] tc] eqn:Elog; [|discriminate].
      simpl in Ebody. injection Ebody as <- <- <-.
      right; left. split; [reflexivity|]. destruct u.
      destruct (log_error_ok _ _ _ _ _ Elog) as (existing & ->).
      now exists (sheet_error_message n e), existing, wb, tb.
Qed.



(** *** The fallback after Cloud Run *)

Lemma contains_error_descriptor (error_msg : string) :
  contains "error" (error_descriptor error_msg) = Ok true.
Proof. reflexivity. Qed.

(** A transport failure is returned as an error descriptor. *)
Lemma forward_transport_failure (self : GCPXLSXParser) (w w1 : W) (e : exn)
  (payload : json) :
  payload = JObj [("bucket_name", bucket self);
                  ("file_name", JStr (source_blob self))] ->
  requests_post CLOUD_RUN_URL payload 300 w = (Raise e, w1) ->
  is_request_exception e = true ->
  forward_to_cloud_run self w
  = (Ok (error_descriptor
           ("Failed to communicate with Cloud Run: " +:+ exn_msg e)),
     w1, [EvPost CLOUD_RUN_URL payload 300]).
Proof.
  intros -> Epost He.
  unfold forward_to_cloud_run, try_except_when, bind, call, ret.
  rewrite Epost, He. simpl. reflexivity.
Qed.

(** A status other than 200 with a JSON object as body is returned as an
    error descriptor. *)
Lemma forward_bad_status (self : GCPXLSXParser) (w w1 : W)
  (response : Response) (kv : list (string * json)) (payload : json) :
  payload = JObj [("bucket_name", bucket self);
                  ("file_name", JStr (source_blob self))] ->
  requests_post CLOUD_RUN_URL payload 300 w = (Ok response, w1) ->
  status_code response <> 200%Z ->
  json_ response = Ok (JObj kv) ->
  exists reason,
    forward_to_cloud_run self w
    = (Ok (error_descriptor ("Cloud Run failed: " +:+ reason)),
       w1, [EvPost CLOUD_RUN_URL payload 300]).
Proof.
  intros -> Epost Hstatus Hjson.
  unfold forward_to_cloud_run, try_except_when, bind, call, lift, ret.
  rewrite Epost, Hjson. apply Z.eqb_neq in Hstatus. rewrite Hstatus. simpl.
  eexists. reflexivity.
Qed.

Lemma remote_stage_reply (self : GCPXLSXParser) (xls : ExcelFile) (w w1 : W)
  (reply : json) (t : list event) (has_error : bool) :
  detect_complexity xls = Ok true ->
  forward_to_cloud_run self w = (Ok reply, w1, t) ->
  contains "error" reply = Ok has_error ->
  remote_stage self xls w
  = (Ok (if has_error then None else Some reply), w1, t).
Proof.
  intros Hc Hf He. unfold remote_stage, bind, lift, ret.
  rewrite Hc, Hf, He. destruct has_error; simpl; now rewrite !app_nil_r.
Qed.

(** Once the Cloud Run client has returned: on a workbook flagged complex,
    when the client returns a
    reply with "error" in it, as its error descriptors have, [parse] goes on
    to the sheet loop and returns the success string exactly when that loop
    and its upload succeed; when the reply has no "error" in it, [parse]
    returns that reply. *)
Theorem remote_reply_fallback_or_result (self : GCPXLSXParser) (w w1 w2 : W)
  (xls : ExcelFile) (t1 t2 : list event) (reply : json) (has_error : bool) :
  open_workbook self w = (Ok xls, w1, t1) ->
  detect_complexity xls = Ok true ->
  forward_to_cloud_run self w1 = (Ok reply, w2, t2) ->
  contains "error" reply = Ok has_error ->
  (forall error_msg, reply = error_descriptor error_msg -> has_error = true) /\
  if has_error
  then
    processed_locally self w xls w2 (t1 ++ t2) /\
    parse_body self w
    = (let '(r, w3, t3) := local_stage self xls w2 in (r, w3, (t1 ++ t2) ++ t3)) /\
    (forall w3 t,
       parse self w = (Ok (JStr SUCCESS), w3, t) <->
       exists t3, local_stage self xls w2 = (Ok (JStr SUCCESS), w3, t3) /\
                  t = (t1 ++ t2) ++ t3)
  else parse self w = (Ok reply, w2, t1 ++ t2).
Proof.
  intros Hopen Hcomplex Hforward Hcontains.
  pose proof (remote_stage_reply _ _ _ _ _ _ _ Hcomplex Hforward Hcontains)
    as Hremote.
  split.
  { intros error_msg ->. rewrite contains_error_descriptor in Hcontains.
    now injection Hcontains as <-. }
  destruct has_error.
  - assert (Hlocal : processed_locally self w xls w2 (t1 ++ t2)).
    { now exists w1, t1, t2. }
    pose proof (parse_body_local _ _ _ _ _ Hlocal) as Hbody.
    split; [exact Hlocal|]. split; [exact Hbody|].
    intros w3 t.
    destruct (local_stage self xls w2) as [[[v|e] wl] tl] eqn:Estage.
    + rewrite (parse_of_body_ok _ _ _ _ _ Hbody). split.
      * intros [= -> <- <-]. now exists tl.
      * intros (t3 & [= -> <- <-] & ->). reflexivity.
    + rewrite (parse_of_body_raise _ _ _ _ _ Hbody). split.
      * destruct (log_error self _ wl) as [[[u|e'] wh] th]; discriminate.
      * intros (t3 & Hd & _). discriminate.
  - apply parse_of_body_ok. unfold parse_body.
    rewrite (bind_ok _ _ _ _ _ _ Hopen), (bind_ok _ _ _ _ _ _ Hremote).
    unfold ret. simpl. now rewrite app_nil_r.
Qed.

(** *** Failures of the sheet loop *)

(** C6, amended.  On a workbook that reaches the sheet loop, when a sheet
    fails to convert, or when no sheet is left in the dict: in every case,
    whether the log can be written or not, [parse] uploads no JSON, and does
    not write the destination key when it differs from the error-log key;
    and when the append to the error log succeeds, [parse] returns the
    failure string and the one upload of the run is that append, of the
    sheet's error or of the message "No valid data found in the Excel
    file.". *)
Theorem failed_sheet_or_no_data_writes_nothing (self : GCPXLSXParser)
  (w w2 : W) (xls : ExcelFile) (t12 : list event) (message : string) :
  processed_locally self w xls w2 t12 ->
  ((exists n e, convert_sheets xls = SheetFailed n e /\
                message = sheet_error_message n e) \/
   (convert_sheets xls = SheetsDone [] /\
    message = file_error_message self no_data)) ->
  (let '(_, _, t) := parse self w in
   existsb is_json_upload t = false /\
   (destination_blob self <> error_blob self ->
    existsb (uploads_to (destination_blob self)) t = false)) /\
  (forall w3 t3, log_error self message w2 = (Ok tt, w3, t3) ->
     parse self w = (Ok (JStr FAILED), w3, t12 ++ t3) /\
     (exists existing, t3 = [log_event self existing message]) /\
     List.filter is_upload (t12 ++ t3) = t3).
Proof.
  intros Hlocal Hcase.
  pose proof (parse_body_local _ _ _ _ _ Hlocal) as Hbody.
  pose proof (processed_locally_trace _ _ _ _ _ Hlocal) as Ht12.
  rewrite local_stage_run in Hbody.
  assert (Hquiet : forall (ta : list event) (r : result unit) (wa wb : W) m,
            log_error self m wa = (r, wb, ta) ->
            existsb is_json_upload ta = false /\
            (destination_blob self <> error_blob self ->
             existsb (uploads_to (destination_blob self)) ta = false)).
  { intros ta r wa wb m E. split.
    - exact (log_error_no_json _ _ _ _ _ _ E).
    - intros Hne. exact (log_error_keys _ _ _ _ _ _ _ Hne E). }
  assert (Hjoin : forall ta tb,
            (existsb is_json_upload ta = false /\
             (destination_blob self <> error_blob self ->
              existsb (uploads_to (destination_blob self)) ta = false)) ->
            (existsb is_json_upload tb = false /\
             (destination_blob self <> error_blob self ->
              existsb (uploads_to (destination_blob self)) tb = false)) ->
            existsb is_json_upload (ta ++ tb) = false /\
            (destination_blob self <> error_blob self ->
             existsb (uploads_to (destination_blob self)) (ta ++ tb) = false)).
  { intros ta tb (Ha1 & Ha2) (Hb1 & Hb2). split.
    - now rewrite existsb_app, Ha1, Hb1.
    - intros Hne. now rewrite existsb_app, (Ha2 Hne), (Hb2 Hne). }
  assert (H12 : existsb is_json_upload t12 = false /\
                (destination_blob self <> error_blob self ->
                 existsb (uploads_to (destination_blob self)) t12 = false)).
  { split; [exact (is_upload_json _ Ht12)|]. intros _. exact (is_upload_key _ _ Ht12). }
  split.
  - destruct Hcase as [(n & e & Hc & ->)|(Hc & ->)]; rewrite Hc in Hbody.
    + destruct (log_error self (sheet_error_message n e) w2)
        as [[[u|e'] wa] ta] eqn:El.
      * rewrite (parse_of_body_ok _ _ _ _ _ Hbody).
        apply Hjoin; [exact H12 | exact (Hquiet _ _ _ _ _ El)].
      * rewrite (parse_of_body_raise _ _ _ _ _ Hbody).
        destruct (log_error self (file_error_message self e') wa)
          as [[rh wh] th] eqn:Eh.
        assert (Hall : existsb is_json_upload ((t12 ++ ta) ++ th) = false /\
                  (destination_blob self <> error_blob self ->
                   existsb (uploads_to (destination_blob self))
                     ((t12 ++ ta) ++ th) = false)).
        { apply Hjoin; [apply Hjoin; [exact H12 | exact (Hquiet _ _ _ _ _ El)]
                       | exact (Hquiet _ _ _ _ _ Eh)]. }
        destruct rh; exact Hall.
    + rewrite (parse_of_body_raise _ _ _ _ _ Hbody).
      destruct (log_error self (file_error_message self no_data) w2)
        as [[rh wh] th] eqn:Eh.
      assert (Hall : existsb is_json_upload ((t12 ++ []) ++ th) = false /\
                (destination_blob self <> error_blob self ->
                 existsb (uploads_to (destination_blob self))
                   ((t12 ++ []) ++ th) = false)).
      { rewrite app_nil_r. apply Hjoin; [exact H12 | exact (Hquiet _ _ _ _ _ Eh)]. }
      destruct rh; exact Hall.
  - intros w3 t3 Hlog.
    destruct (log_error_ok _ _ _ _ _ Hlog) as (existing & Ht3).
    split; [|split].
    + destruct Hcase as [(n & e & Hc & ->)|(Hc & ->)]; rewrite Hc in Hbody.
      * rewrite Hlog in Hbody. now apply parse_of_body_ok.
      * rewrite (parse_of_body_raise _ _ _ _ _ Hbody), Hlog.
        now rewrite app_nil_r.
    + now exists existing.
    + rewrite List.filter_app.
      assert (Hnone : List.filter is_upload t12 = []).
      { clear -Ht12. induction t12 as [|ev t IH]; [reflexivity|].
        simpl in *. destruct (is_upload ev); [discriminate|]. now apply IH. }
      rewrite Hnone, Ht3. reflexivity.
Qed.

(** A sheet whose rows hold no value is skipped. *)
Lemma all_null_rows_empty (df : DataFrame) :
  Forall (fun r => existsb notna r = false) (rows df) ->
  empty (clean df) = true.
Proof.
  intros Hnull. unfold empty, clean, dropna_rows, dropna_columns; simpl.
  assert (Hmask : forall j, existsb notna (column_values df j) = false).
  { intros j. unfold column_values. rewrite List.Forall_forall in Hnull.
    destruct (existsb notna (map (fun r => nth j r None) (rows df))) eqn:E;
      [|reflexivity].
    apply existsb_exists in E. destruct E as (c & Hin & Hc).
    apply in_map_iff in Hin. destruct Hin as (r & <- & Hr).
    specialize (Hnull r Hr). exfalso.
    destruct (Nat.lt_ge_cases j (List.length r)) as [Hlt|Hge].
    - assert (Hex : existsb notna r = true).
      { apply existsb_exists. exists (nth j r None). split; [|assumption].
        now apply nth_In. }
      congruence.
    - rewrite nth_overflow in Hc by assumption. discriminate. }
  assert (Hcols : select (column_mask df) (columns df) = []).
  { unfold column_mask. generalize 0%nat.
    induction (columns df) as [|c cs IH]; intros k; simpl; [reflexivity|].
    rewrite Hmask. apply IH. }
  now rewrite Hcols.
Qed.

(** *** Failures and the [except] block *)

Lemma open_workbook_missing (self : GCPXLSXParser) (w w1 : W) :
  blob_exists (bucket self) (source_blob self) w = (Ok false, w1) ->
  open_workbook self w
  = (Raise (Exn ValueError
              ("File " +:+ source_blob self +:+ " does not exist in bucket.")),
     w1, []).
Proof.
  intros E. unfold open_workbook, bind, call, raise. now rewrite E.
Qed.

Lemma open_workbook_empty (self : GCPXLSXParser) (w w1 w2 : W) :
  blob_exists (bucket self) (source_blob self) w = (Ok true, w1) ->
  download_as_bytes (bucket self) (source_blob self) w1 = (Ok "", w2) ->
  open_workbook self w
  = (Raise (Exn ValueError "Downloaded file is empty."), w2, []).
Proof.
  intros E1 E2. unfold open_workbook, bind, call, raise.
  rewrite E1. simpl. now rewrite E2.
Qed.

Lemma open_workbook_undecodable (self : GCPXLSXParser) (w w1 w2 : W)
  (excel_data : string) (e : exn) :
  blob_exists (bucket self) (source_blob self) w = (Ok true, w1) ->
  download_as_bytes (bucket self) (source_blob self) w1 = (Ok excel_data, w2) ->
  excel_data <> "" ->
  pd_ExcelFile excel_data (engine_of self) = Raise e ->
  exists text,
    open_workbook self w = (Raise (Exn ValueError (text +:+ exn_msg e)), w2, []).
Proof.
  intros E1 E2 Hne Hdec. unfold open_workbook, bind, call, raise.
  rewrite E1. simpl. rewrite E2. apply String.eqb_neq in Hne. rewrite Hne.
  unfold engine_of in Hdec.
  destruct (endswith (source_blob self) ".xls"); simpl; rewrite Hdec; simpl;
    eexists; reflexivity.
Qed.

(** Each failure ends the [try] block with an exception, or with the
    failure string. *)
Lemma failure_ends_body (f : failure) (self : GCPXLSXParser) (w : W) :
  occurs f self w ->
  (exists e w1 t1, parse_body self w = (Raise e, w1, t1)) \/
  (exists w1 t1, parse_body self w = (Ok (JStr FAILED), w1, t1)).
Proof.
  destruct f; simpl.
  - intros (w1 & E). left. do 3 eexists. unfold parse_body.
    apply bind_raise. eapply open_workbook_missing; eassumption.
  - intros (w1 & w2 & E1 & E2). left. do 3 eexists. unfold parse_body.
    apply bind_raise. eapply open_workbook_empty; eassumption.
  - intros (w1 & w2 & excel_data & e & E1 & E2 & Hne & Hdec).
    destruct (open_workbook_undecodable _ _ _ _ _ _ E1 E2 Hne Hdec) as (text & E).
    left. do 3 eexists. unfold parse_body. apply bind_raise. exact E.
  - intros (xls & w2 & t & n & e & Hlocal & Hc).
    rewrite (parse_body_local _ _ _ _ _ Hlocal), local_stage_run, Hc.
    destruct (log_error self (sheet_error_message n e) w2) as [[[u|e'] w3] t3].
    + right. now do 2 eexists.
    + left. now do 3 eexists.
  - intros (xls & w2 & t & Hlocal & Hc).
    rewrite (parse_body_local _ _ _ _ _ Hlocal), local_stage_run, Hc.
    left. now do 3 eexists.
  - intros (xls & w2 & t & d & e & w3 & Hlocal & Hc & Hd & Hup).
    rewrite (parse_body_local _ _ _ _ _ Hlocal), local_stage_run, Hc.
    destruct d as [|kv d]; [contradiction|]. rewrite Hup.
    left. now do 3 eexists.
Qed.

Lemma http_body_reaches (request : Request) (self : GCPXLSXParser) (w : W) :
  http_reaches_parse request self ->
  http_body request w
  = (let '(r, w', t) := parse self w in
     (match r with
      | Ok v => Ok (jsonify "message" v, 200%Z)
      | Raise e => Raise e
      end, w', t)).
Proof.
  intros (kv & bucket_name & source & Hjson & Hb & Hn & Htb & Hs & Hinit).
  unfold http_body. rewrite Hjson.
  assert (Htruthy : truthy (JObj kv) = true).
  { destruct kv; [discriminate | reflexivity]. }
  rewrite Htruthy. cbn [negb].
  unfold bind at 1. unfold lift at 1. cbn [get]. rewrite Hb.
  unfold bind at 1. unfold lift at 1. rewrite Hn.
  rewrite Htb. apply String.eqb_neq in Hs. cbn [truthy]. rewrite Hs.
  cbn [negb orb].
  unfold bind at 1. unfold lift at 1. cbn [as_str].
  unfold bind at 1. unfold lift at 1. rewrite Hinit.
  unfold bind, ret.
  destruct (parse self w) as [[[v|e] w'] t]; [|reflexivity].
  now rewrite !app_nil_r.
Qed.

(** C10. When the append to the error log made by the [except] block of
    [parse] succeeds, [parse] returns a value; a missing blob, an empty
    download, a decode failure, a sheet failure, a dict left empty and a
    failed upload all end in the string "Failed to process XLSX file."; and
    the HTTP trigger that built the parser replies with status 200, not
    500. *)
Theorem parse_returns_when_log_succeeds (self : GCPXLSXParser) (w : W) :
  handler_logs self w ->
  (exists v w' t, parse self w = (Ok v, w', t)) /\
  (forall f, occurs f self w ->
     exists w' t, parse self w = (Ok (JStr FAILED), w', t)) /\
  (forall request, http_reaches_parse request self ->
     exists v w' t,
       parse self w = (Ok v, w', t) /\
       convert_xlsx_to_json_http request w
       = (Ok (jsonify "message" v, 200%Z), w', t)).
Proof.
  intros Hlogs.
  assert (Hraise : forall e w1 t1, parse_body self w = (Raise e, w1, t1) ->
            exists w' t, parse self w = (Ok (JStr FAILED), w', t)).
  { intros e w1 t1 Ebody. destruct (Hlogs e w1 t1 Ebody) as (w2 & t2 & Elog).
    rewrite (parse_of_body_raise _ _ _ _ _ Ebody), Elog. now do 2 eexists. }
  assert (Hret : exists v w' t, parse self w = (Ok v, w', t)).
  { destruct (parse_body self w) as [[[v|e] w1] t1] eqn:Ebody.
    - exists v, w1, t1. now apply parse_of_body_ok.
    - destruct (Hraise e w1 t1 eq_refl) as (w' & t & E). now exists (JStr FAILED), w', t. }
  split; [exact Hret|]. split.
  - intros f Hf.
    destruct (failure_ends_body f self w Hf) as [(e & w1 & t1 & E)|(w1 & t1 & E)].
    + now apply (Hraise e w1 t1).
    + exists w1, t1. now apply parse_of_body_ok.
  - intros request Hreach. destruct Hret as (v & w' & t & Eparse).
    exists v, w', t. split; [exact Eparse|].
    unfold convert_xlsx_to_json_http. apply try_except_ok.
    rewrite (http_body_reaches _ _ _ Hreach), Eparse. reflexivity.
Qed.

(** *** The dict of the sheet loop *)

(** C7. On a workbook whose sheets all read as tables, with distinct sheet
    names and one non-empty sheet or more, the sheet loop ends with a dict
    whose keys are the names of the sheets left non-empty by dropping the
    all-null columns and rows (those with a row that holds a value), without
    repetition and in workbook order; a sheet's records are those of its rows
    that hold a value, in their order; a column that is null in every row is
    a key of none of them; and this dict is what [parse] uploads. *)
Theorem conversion_result_shape (xls : ExcelFile) :
  tables_parse xls ->
  List.NoDup (sheet_names xls) ->
  (exists n, In n (sheet_names xls) /\ sheet_non_empty xls n = true) ->
  exists d,
    convert_sheets xls = SheetsDone d /\ d <> [] /\
    keys d = List.filter (sheet_non_empty xls) (sheet_names xls) /\
    List.NoDup (keys d) /\
    (forall n df, In n (sheet_names xls) -> parse_sheet xls n Header0 = Ok df ->
       (sheet_non_empty xls n = true <->
        exists r, In r (rows df) /\ row_has_value r = true)) /\
    (forall n df, In n (keys d) -> parse_sheet xls n Header0 = Ok df ->
       let records := map (record_of df) (List.filter row_has_value (rows df)) in
       assoc n d = Some records /\
       forall c r, column_all_null df c -> In r records -> ~ In c (keys r)) /\
    (forall self w,
       local_stage self xls w
       = (let '(r, w') := upload_from_string (bucket self) (destination_blob self)
                            (dumps json_serializer d) "application/json" w in
          (match r with Ok _ => Ok (JStr SUCCESS) | Raise e => Raise e end,
           w', [json_event self d]))).
Proof.
  intros Hparse Hnodup (n0 & Hn0 & Hne0).
  assert (Hparse' : forall n, In n (sheet_names xls) ->
                      exists df, parse_sheet xls n Header0 = Ok df).
  { intros n Hn. destruct (Hparse n Hn) as (df & Hdf & _). now exists df. }
  destruct (Converter.convert_sheets_from_done xls (sheet_names xls) Hparse' [])
    as (d & Hrun & Hin & _ & Hkeys).
  specialize (Hkeys Hnodup (fun n _ Hk => Hk)). simpl in Hkeys.
  assert (Hd : d <> []).
  { intros ->. simpl in Hkeys.
    assert (Hm : In n0 (List.filter (sheet_non_empty xls) (sheet_names xls))).
    { apply filter_In. now split. }
    rewrite <- Hkeys in Hm. exact Hm. }
  exists d. split; [exact Hrun|]. split; [exact Hd|]. split; [exact Hkeys|].
  split; [rewrite Hkeys; now apply List.NoDup_filter|]. split; [|split].
  - intros n df Hn Hdf. destruct (Hparse n Hn) as (df' & Hdf' & Hwf).
    rewrite Hdf in Hdf'. injection Hdf' as <-.
    rewrite (Converter.sheet_non_empty_parsed xls n df Hdf).
    rewrite negb_true_iff. now apply non_empty_iff_value.
  - intros n df Hn Hdf records. rewrite Hkeys in Hn. apply filter_In in Hn.
    destruct Hn as (Hn & Hne). destruct (Hparse n Hn) as (df' & Hdf' & Hwf).
    rewrite Hdf in Hdf'. injection Hdf' as <-.
    rewrite (Converter.sheet_non_empty_parsed xls n df Hdf) in Hne.
    apply negb_true_iff in Hne. split.
    + rewrite (Hin n df Hn Hdf Hne). f_equal. now apply to_dict_records_clean.
    + intros c r Hnull Hr. unfold records in Hr. apply in_map_iff in Hr.
      destruct Hr as (row & <- & _). now apply record_of_drops_null_columns.
  - intros self w. rewrite local_stage_run. unfold convert_sheets in Hrun.
    unfold convert_sheets. rewrite Hrun. destruct d; [contradiction|reflexivity].
Qed.

(** *** The HTTP trigger *)

(** C8, amended.  The HTTP trigger replies 400 with "Invalid JSON payload" to
    a body that is not valid JSON and to one that decodes to a falsy value,
    the empty object included; 400 with "Missing required parameters" to a
    non-empty object whose "bucket" or "name" is absent or falsy; 200 with
    the result of [parse] under "message" when both are there, the name a
    non-empty string, and the parser is built and returns; and 500 with the
    message of the exception under "error" when its [try] block raises. *)
Theorem http_trigger_replies (request : Request) (w : W) :
  (get_json_silent request = None ->
   convert_xlsx_to_json_http request w = (Ok invalid_json_reply, w, [])) /\
  (forall body, get_json_silent request = Some body -> truthy body = false ->
   convert_xlsx_to_json_http request w = (Ok invalid_json_reply, w, [])) /\
  (forall kv, get_json_silent request = Some (JObj kv) -> kv <> [] ->
   truthy (field kv "bucket") = false \/ truthy (field kv "name") = false ->
   convert_xlsx_to_json_http request w = (Ok missing_parameters_reply, w, [])) /\
  (forall self v w' t, http_reaches_parse request self ->
   parse self w = (Ok v, w', t) ->
   convert_xlsx_to_json_http request w
   = (Ok (jsonify "message" v, 200%Z), w', t)) /\
  (forall e w' t, http_body request w = (Raise e, w', t) ->
   convert_xlsx_to_json_http request w
   = (Ok (jsonify "error" (JStr (exn_msg e)), 500%Z), w', t)).
Proof.
  split; [|split; [|split; [|split]]].
  - intros Hnone. unfold convert_xlsx_to_json_http. apply try_except_ok.
    unfold http_body. now rewrite Hnone.
  - intros body Hbody Hfalsy. unfold convert_xlsx_to_json_http.
    apply try_except_ok. unfold http_body. now rewrite Hbody, Hfalsy.
  - intros kv Hbody Hkv Hmissing. unfold convert_xlsx_to_json_http.
    apply try_except_ok. unfold http_body. rewrite Hbody.
    assert (Htruthy : truthy (JObj kv) = true) by now destruct kv.
    rewrite Htruthy. cbn [negb get]. unfold bind, lift, ret.
    fold (field kv "bucket"). fold (field kv "name").
    destruct Hmissing as [-> | ->]; simpl; [reflexivity|].
    now rewrite orb_true_r.
  - intros self v w' t Hreach Eparse. unfold convert_xlsx_to_json_http.
    apply try_except_ok. now rewrite (http_body_reaches _ _ _ Hreach), Eparse.
  - intros e w' t Ebody. unfold convert_xlsx_to_json_http.
    rewrite (try_except_raise _ _ _ _ _ _ Ebody). unfold ret.
    now rewrite app_nil_r.
Qed.

End Parse.

End Properties.

(* ===================================================================== *)
(** ** The in-memory world at work *)
(* ===================================================================== *)

Module Checks.
Import Py Pandas Json Main Mem Samples Shapes Spec Facts Orchestrator Properties.

(** In a writable in-memory bucket, appending to the error log succeeds. *)
Lemma mem_log_error_succeeds (c : config) (self : GCPXLSXParser)
  (message : string) (w : gmap string string) :
  writable c = true ->
  exists w' t, log_error (services := services c) self message w = (Ok tt, w', t).
Proof.
  intros Hw. unfold log_error, bind, call, ret. simpl. unfold download.
  destruct (w !! error_blob self) as [existing|] eqn:E.
  - rewrite bool_decide_true by (now exists existing). rewrite E. simpl.
    rewrite Hw. now do 2 eexists.
  - rewrite bool_decide_false by (intros [x Hx]; discriminate). simpl.
    rewrite Hw. now do 2 eexists.
Qed.

Lemma mem_handler_logs (c : config) (self : GCPXLSXParser)
  (w : gmap string string) :
  writable c = true -> handler_logs (services := services c) self w.
Proof.
  intros Hw e w1 t1 _. now apply mem_log_error_succeeds.
Qed.


(** C2: the event trigger leaves the key of an [.xls] source unchanged where
    the HTTP trigger turns it into the key of the log; on a source that does
    not decode, the event trigger then appends the error to the source blob
    itself and creates no [report_error.log]. *)
Theorem event_trigger_logs_xls_errors_to_source :
  endswith "report.xls" ".xls" = true /\
  event_error_key "report.xls" = "report.xls" /\
  http_error_key "report.xls" = "report_error.log" /\
  event_destination_key "report.xls" = "report.json" /\
  let '(r, w', _) :=
    convert_xlsx_to_json (services := services corrupt) report_xls_event
      report_xls_uploaded in
  r = Ok (JStr FAILED) /\
  w' !! "report_error.log" = None /\
  w' !! "report.xls"
  = Some ("junk" +:+
          "Error processing file report.xls: Failed to read .xls file. Ensure xlrd==1.2.0 is installed. Error: File is not a zip file"
          +:+ nl).
Proof. vm_compute. repeat split. Qed.

(** C4: when Cloud Run answers a complex workbook with a status other than
    200 and a body that is a JSON list, the client raises the
    [AttributeError] of [get] where it returns an error descriptor for an
    object; [parse] then logs that error and returns the failure string
    without converting the sheets, which the sheet stage converts and uploads
    with success from the same bucket. *)
Theorem list_error_body_stops_the_fallback :
  let S := services (list_error_cloud_run with_report) in
  detect_complexity with_report = Ok true /\
  forward_to_cloud_run (services := S) test_parser uploaded
  = (Raise (Exn AttributeError "'list' object has no attribute 'get'"),
     uploaded, [cloud_run_call test_parser]) /\
  (exists w' t,
     local_stage (services := S) test_parser with_report uploaded
     = (Ok (JStr SUCCESS), w', t)) /\
  let '(r, w', _) := parse (services := S) test_parser uploaded in
  r = Ok (JStr FAILED) /\
  w' !! "test.json" = None /\
  w' !! "test_error.log"
  = Some ("Error processing file test.xlsx: 'list' object has no attribute 'get'"
          +:+ nl).
Proof.
  intros S. split; [reflexivity|]. split; [reflexivity|]. split.
  - do 2 eexists. vm_compute. reflexivity.
  - vm_compute. repeat split.
Qed.

(** C5: a missing cell kept in a record is the float [nan]; the encoder
    writes it as [NaN] without consulting [json_serializer], which would have
    turned it into [None], so the payload uploaded holds [NaN] and no
    [null]. *)
Theorem missing_cell_is_written_as_NaN :
  box None = SNaN /\
  json_serializer SNaN = SNone /\
  dumps_scalar json_serializer (box None) = "NaN" /\
  dumps_scalar json_serializer SNone = "null" /\
  let '(r, w', _) :=
    parse (services := services (local_only sparse)) test_parser uploaded in
  r = Ok (JStr SUCCESS) /\
  w' !! "test.json"
  = Some (dumps json_serializer
            [("Sheet1", [[("A", SStr "x"); ("B", SNaN)];
                         [("A", SNaN); ("B", SStr "y")]])]) /\
  exists payload,
    w' !! "test.json" = Some payload /\
    is_substring (dq +:+ "B" +:+ dq +:+ ": NaN") payload = true /\
    is_substring "null" payload = false.
Proof.
  vm_compute. repeat split. eexists. repeat split.
Qed.

(** C9: the table Title/Date of one row, converted by [parse] and read back
    from the destination blob with [loads], gives under its sheet the one
    record with "Doc1" and "2025-02-10". *)
Theorem titles_round_trip :
  let '(r, w', _) :=
    parse (services := services (local_only titles)) test_parser uploaded in
  r = Ok (JStr SUCCESS) /\
  exists payload sheets,
    w' !! destination_blob test_parser = Some payload /\
    loads payload = Some (JObj sheets) /\
    assoc "Sheet1" sheets
    = Some (JArr [JObj [("Title", JStr "Doc1"); ("Date", JStr "2025-02-10")]]).
Proof.
  vm_compute. split; [reflexivity|]. do 2 eexists. repeat split.
Qed.

(** The claim C8 as it stands fails on the empty object: it has neither
    field, and the answer is "Invalid JSON payload". *)
Lemma empty_object_is_called_invalid :
  ~ missing_fields_rejected (services := services (local_only titles))
      empty_object_request nothing.
Proof.
  intros H. destruct (H [] eq_refl (or_introl eq_refl)) as (w' & t & E).
  vm_compute in E. discriminate.
Qed.

(** The claim C6 as it stands fails in a bucket that refuses writes: the
    append to the error log raises, in the sheet's handler and again in the
    [except] block of [parse], and the exception leaves [parse]. *)
Lemma failed_sheet_raises_when_log_is_read_only :
  ~ failed_sheet_aborts (services := services (read_only broken_sheet))
      test_parser uploaded.
Proof.
  intros H.
  destruct (H broken_sheet uploaded [] "Sheet1"
              (Exn ValueError "Passed header=[0], len of 1, but only 0 lines in file"))
    as (w' & t & E & _).
  - exists uploaded, [], []. repeat split.
  - reflexivity.
  - vm_compute in E. discriminate.
Qed.

(** *** The theorems at work on the samples *)

(** The claim C3 as it stands fails where a sheet that cannot be read
    comes before the sheet called "Report": the detector raises. *)
Lemma unreadable_sheet_before_report_raises :
  ~ report_forces_true unreadable_then_report.
Proof.
  intros H. specialize (H "Report" (or_intror (or_introl eq_refl)) eq_refl).
  vm_compute in H. discriminate.
Qed.

Lemma sparse_grids_parse : raw_grids_parse sparse.
Proof.
  intros n Hn. simpl in Hn.
  destruct Hn as [<-|[]]; eexists; reflexivity.
Qed.

Lemma detect_complexity_on_sparse :
  raw_grids_parse sparse /\
  (exists n df, In n (sheet_names sparse) /\
                parse_sheet sparse n HeaderNone = Ok df /\
                has_missing_cell df) /\
  detect_complexity sparse = Ok true.
Proof.
  split; [exact sparse_grids_parse|].
  assert (Hcell : exists n df, In n (sheet_names sparse) /\
                    parse_sheet sparse n HeaderNone = Ok df /\
                    has_missing_cell df).
  { exists "Sheet1". eexists. split; [now left|]. split; [reflexivity|].
    exists [Some "x"; None]. simpl. tauto. }
  split; [exact Hcell|].
  destruct (proj1 (Complexity.detect_complexity_flags_any_trigger sparse)
              sparse_grids_parse) as (flag & E & _ & Hiff & _).
  rewrite E. f_equal. apply Hiff.
  destruct Hcell as (n & df & Hn & Hdf & Hc). exists n, df. auto.
Defined.

Lemma fallback_on_unreachable_cloud_run :
  let S := services (local_only with_report) in
  let reply := error_descriptor
                 "Failed to communicate with Cloud Run: Connection refused" in
  open_workbook (services := S) test_parser uploaded = (Ok with_report, uploaded, []) /\
  detect_complexity with_report = Ok true /\
  forward_to_cloud_run (services := S) test_parser uploaded
  = (Ok reply, uploaded, [cloud_run_call test_parser]) /\
  contains "error" reply = Ok true /\
  forall w3 t,
    parse (services := S) test_parser uploaded = (Ok (JStr SUCCESS), w3, t) <->
    exists t3,
      local_stage (services := S) test_parser with_report uploaded
      = (Ok (JStr SUCCESS), w3, t3) /\
      t = ([] ++ [cloud_run_call test_parser]) ++ t3.
Proof.
  intros S reply.
  assert (H1 : open_workbook (services := S) test_parser uploaded
               = (Ok with_report, uploaded, [])) by reflexivity.
  assert (H2 : detect_complexity with_report = Ok true) by reflexivity.
  assert (H3 : forward_to_cloud_run (services := S) test_parser uploaded
               = (Ok reply, uploaded, [cloud_run_call test_parser]))
    by reflexivity.
  assert (H4 : contains "error" reply = Ok true) by reflexivity.
  repeat (split; [assumption|]).
  exact (proj2 (proj2 (proj2
    (remote_reply_fallback_or_result (services := S) test_parser uploaded
       uploaded uploaded with_report [] [cloud_run_call test_parser] reply true
       H1 H2 H3 H4)))).
Defined.

Lemma no_data_on_blank_rows :
  let S := services (local_only blank_rows) in
  let message := file_error_message test_parser no_data in
  let w3 := <[ "test_error.log" := message +:+ nl ]> uploaded in
  let t3 := [log_event test_parser "" message] in
  processed_locally (services := S) test_parser uploaded blank_rows uploaded [] /\
  convert_sheets blank_rows = SheetsDone [] /\
  log_error (services := S) test_parser message uploaded = (Ok tt, w3, t3) /\
  parse (services := S) test_parser uploaded
  = (Ok (JStr FAILED), w3, [] ++ t3) /\
  w3 !! destination_blob test_parser = None.
Proof.
  intros S message w3 t3.
  assert (H1 : processed_locally (services := S) test_parser uploaded
                 blank_rows uploaded []).
  { exists uploaded, [], []. repeat split. }
  assert (H2 : convert_sheets blank_rows = SheetsDone []) by reflexivity.
  assert (H3 : log_error (services := S) test_parser message uploaded
               = (Ok tt, w3, t3)) by (vm_compute; reflexivity).
  repeat (split; [assumption|]).
  split; [|vm_compute; reflexivity].
  exact (proj1 (proj2
    (failed_sheet_or_no_data_writes_nothing (services := S) test_parser
       uploaded uploaded blank_rows [] message
       H1 (or_intror (conj H2 eq_refl))) w3 t3 H3)).
Defined.

Lemma missing_blob_returns_failure :
  let S := services (local_only titles) in
  handler_logs (services := S) test_parser nothing /\
  occurs (services := S) MissingBlob test_parser nothing /\
  exists w' t,
    parse (services := S) test_parser nothing = (Ok (JStr FAILED), w', t).
Proof.
  intros S.
  assert (H1 : handler_logs (services := S) test_parser nothing)
    by (apply mem_handler_logs; reflexivity).
  assert (H2 : occurs (services := S) MissingBlob test_parser nothing)
    by (exists nothing; reflexivity).
  repeat (split; [assumption|]).
  exact (proj1 (proj2
    (parse_returns_when_log_succeeds (services := S) test_parser nothing H1))
    MissingBlob H2).
Defined.

Lemma mixed_tables_parse : tables_parse mixed.
Proof.
  intros n Hn. simpl in Hn.
  destruct Hn as [<-|[<-|[]]]; eexists; (split; [reflexivity|]);
    unfold well_formed; simpl; repeat constructor.
Qed.

Lemma mixed_names_distinct : List.NoDup (sheet_names mixed).
Proof.
  simpl. repeat constructor; simpl; intuition discriminate.
Qed.

Lemma mixed_keeps_people :
  tables_parse mixed /\
  List.NoDup (sheet_names mixed) /\
  (exists n, In n (sheet_names mixed) /\ sheet_non_empty mixed n = true) /\
  exists d, convert_sheets mixed = SheetsDone d /\ keys d = ["People"].
Proof.
  assert (H3 : exists n, In n (sheet_names mixed) /\ sheet_non_empty mixed n = true).
  { exists "People". split; [simpl; tauto | reflexivity]. }
  split; [exact mixed_tables_parse|]. split; [exact mixed_names_distinct|].
  split; [exact H3|].
  destruct (conversion_result_shape (services := services (local_only mixed))
              mixed mixed_tables_parse mixed_names_distinct H3)
    as (d & Hrun & _ & Hkeys & _).
  exists d. split; [exact Hrun|]. rewrite Hkeys. reflexivity.
Defined.

Lemma good_request_reaches_parse :
  http_reaches_parse (services := services (local_only titles)) good_request
    test_parser.
Proof.
  exists [("bucket", JStr "xlsx-test-bucket"); ("name", JStr "test.xlsx")],
    (JStr "xlsx-test-bucket"), "test.xlsx".
  repeat split. discriminate.
Qed.

Lemma good_request_is_answered_200 :
  let S := services (local_only titles) in
  http_reaches_parse (services := S) good_request test_parser /\
  exists w' t,
    parse (services := S) test_parser uploaded = (Ok (JStr SUCCESS), w', t) /\
    convert_xlsx_to_json_http (services := S) good_request uploaded
    = (Ok (jsonify "message" (JStr SUCCESS), 200%Z), w', t).
Proof.
  intros S. split; [exact good_request_reaches_parse|].
  destruct (parse (services := S) test_parser uploaded) as [[r w'] t] eqn:E.
  assert (Hr : r = Ok (JStr SUCCESS)).
  { apply (f_equal (fun x => fst (fst x))) in E. vm_compute in E. now symmetry. }
  subst r. exists w', t. split; [reflexivity|].
  exact (proj1 (proj2 (proj2 (proj2
    (http_trigger_replies (services := S) good_request uploaded))))
    test_parser (JStr SUCCESS) w' t good_request_reaches_parse E).
Defined.

End Checks.

(* ===================================================================== *)
(** ** Further properties: the serializer, the keys, the log, the client *)
(* ===================================================================== *)

Module Pieces.
Import Py Pandas Json Main Mem Spec Facts Orchestrator Samples Shapes.

Lemma two_digit_facts (z : Z) :
  (0 <= z <= 99)%Z ->
  dash_free (zero_pad 2 z) = true /\
  String.length (zero_pad 2 z) = 2%nat /\
  digits_value (zero_pad 2 z) 0 = Some z.
Proof.
  intros Hz.
  assert (Hall : forallb
            (fun n => let text := zero_pad 2 (Z.of_nat n) in
               dash_free text && (String.length text =? 2)%nat
               && match digits_value text 0 with
                  | Some v => (v =? Z.of_nat n)%Z
                  | None => false
                  end)
            (seq 0 (Z.to_nat 100)) = true) by (vm_compute; reflexivity).
  rewrite forallb_forall in Hall.
  assert (Hin : In (Z.to_nat z) (seq 0 (Z.to_nat 100))) by (apply in_seq; lia).
  specialize (Hall (Z.to_nat z) Hin). cbv zeta in Hall.
  rewrite Z2Nat.id in Hall by lia.
  apply andb_true_iff in Hall. destruct Hall as (Hall & Hv).
  apply andb_true_iff in Hall. destruct Hall as (Hfree & Hlen).
  apply Nat.eqb_eq in Hlen.
  destruct (digits_value (zero_pad 2 z) 0) as [v|]; [|discriminate].
  apply Z.eqb_eq in Hv. subst v. auto.
Qed.

Lemma year_facts (z : Z) :
  (1 <= z <= 9999)%Z ->
  dash_free (str_of_Z z) = true /\
  str_of_Z z <> "" /\
  digits_value (str_of_Z z) 0 = Some z /\
  ((1000 <= z)%Z -> String.length (str_of_Z z) = 4%nat).
Proof.
  intros Hz.
  assert (Hall : forallb
            (fun n => let text := str_of_Z (Z.of_nat n) in
               dash_free text && negb (String.eqb text "")
               && match digits_value text 0 with
                  | Some v => (v =? Z.of_nat n)%Z
                  | None => false
                  end
               && ((Z.of_nat n <? 1000)%Z || (String.length text =? 4)%nat))
            (seq 1 (Z.to_nat 9999)) = true) by (vm_compute; reflexivity).
  rewrite forallb_forall in Hall.
  assert (Hin : In (Z.to_nat z) (seq 1 (Z.to_nat 9999))) by (apply in_seq; lia).
  specialize (Hall (Z.to_nat z) Hin). cbv zeta in Hall.
  rewrite Z2Nat.id in Hall by lia.
  apply andb_true_iff in Hall. destruct Hall as (Hall & Hlen).
  apply andb_true_iff in Hall. destruct Hall as (Hall & Hv).
  apply andb_true_iff in Hall. destruct Hall as (Hfree & Hne).
  apply negb_true_iff, String.eqb_neq in Hne.
  destruct (digits_value (str_of_Z z) 0) as [v|]; [|discriminate].
  apply Z.eqb_eq in Hv. subst v.
  repeat split; try assumption.
  intros Hbig. apply orb_true_iff in Hlen. destruct Hlen as [Hlt|Hlen].
  - apply Z.ltb_lt in Hlt. lia.
  - now apply Nat.eqb_eq.
Qed.

Lemma split_dash_before (before rest : string) :
  dash_free before = true ->
  split_dash (before +:+ String "-"%char rest) = (before, Some rest).
Proof.
  induction before as [|c before IH]; intros Hfree; [reflexivity|].
  cbn [dash_free] in Hfree. apply andb_true_iff in Hfree.
  destruct Hfree as (Hc & Hfree). apply negb_true_iff in Hc.
  change (String c before +:+ String "-"%char rest)
    with (String c (before +:+ String "-"%char rest)).
  cbn [split_dash]. rewrite Hc, (IH Hfree). reflexivity.
Qed.

Lemma split_dash_whole (text : string) :
  dash_free text = true -> split_dash text = (text, None).
Proof.
  induction text as [|c text IH]; intros Hfree; [reflexivity|].
  cbn [dash_free] in Hfree. apply andb_true_iff in Hfree.
  destruct Hfree as (Hc & Hfree). apply negb_true_iff in Hc.
  cbn [split_dash]. rewrite Hc, (IH Hfree). reflexivity.
Qed.

Lemma length_append (a b : string) :
  String.length (a +:+ b) = (String.length a + String.length b)%nat.
Proof.
  induction a as [|c a IH]; [reflexivity|].
  change (String c a +:+ b) with (String c (a +:+ b)). simpl. now rewrite IH.
Qed.

Lemma dash_free_append (a b : string) :
  dash_free a = true -> dash_free b = true -> dash_free (a +:+ b) = true.
Proof.
  induction a as [|c a IH]; intros Ha Hb; [exact Hb|].
  cbn [dash_free] in Ha. apply andb_true_iff in Ha. destruct Ha as (Hc & Ha).
  change (String c a +:+ b) with (String c (a +:+ b)).
  cbn [dash_free]. now rewrite Hc, IH.
Qed.

(** X1. For a Timestamp on a date of the years 1 to 9999, what
    [json_serializer] returns reads back as that date: the digits before
    the first dash write the year, the two between the dashes the month and
    the two after the second dash the day, whatever the time of day; from
    the year 1000 on it has ten characters. *)
Theorem json_serializer_date_reads_back (year month day : Z) (time : string) :
  calendar_date year month day ->
  exists text,
    json_serializer (STimestamp year month day time) = SStr text /\
    read_date text = Some (year, month, day) /\
    ((1000 <= year)%Z -> String.length text = 10%nat).
Proof.
  intros (Hy & Hm & Hd).
  destruct (year_facts year Hy) as (Hyf & Hyn & Hyv & Hyl).
  destruct (two_digit_facts month) as (Hmf & Hml & Hmv); [lia|].
  destruct (two_digit_facts day) as (Hdf & Hdl & Hdv); [lia|].
  exists (strftime_Ymd year month day). split; [reflexivity|].
  unfold strftime_Ymd.
  change ("-" +:+ zero_pad 2 month +:+ "-" +:+ zero_pad 2 day)
    with (String "-"%char (zero_pad 2 month +:+ String "-"%char (zero_pad 2 day))).
  split.
  - unfold read_date. rewrite (split_dash_before _ _ Hyf).
    rewrite (split_dash_before _ _ Hmf).
    rewrite Hml, Hdl, Hyv, Hmv, Hdv.
    apply String.eqb_neq in Hyn. rewrite Hyn. reflexivity.
  - intros Hbig. rewrite length_append. cbn [String.length].
    rewrite length_append. cbn [String.length].
    rewrite (Hyl Hbig), Hml, Hdl. reflexivity.
Qed.

(** What [json_serializer] returns is a [str] or [None], which the
    encoder writes by itself: a string in quotes, or [null]. *)
Lemma json_serializer_is_encodable (obj : scalar) :
  (exists s, json_serializer obj = SStr s /\
             encode_native (json_serializer obj) = Some (encode_str s)) \/
  (json_serializer obj = SNone /\ isna obj = true /\
   encode_native (json_serializer obj) = Some "null").
Proof.
  destruct obj; simpl; eauto.
Qed.

Lemma replace_from_absent (old new s : string) :
  occurs old s = false -> replace_from old new s 0 = s.
Proof.
  induction s as [|c rest IH]; intros Hocc; [reflexivity|].
  cbn [occurs] in Hocc. apply orb_false_iff in Hocc.
  destruct Hocc as (Hhere & Hrest).
  cbn [replace_from]. rewrite Hhere. f_equal. now apply IH.
Qed.

Lemma prefix_longer (old extra s : string) :
  String.prefix old s = false -> String.prefix (old +:+ extra) s = false.
Proof.
  revert s. induction old as [|a old IH]; intros s;
    [destruct s; discriminate|].
  destruct s as [|b s]; [reflexivity|].
  change (String a old +:+ extra) with (String a (old +:+ extra)).
  cbn [String.prefix]. destruct (ascii_dec a b); [apply IH | reflexivity].
Qed.

Lemma occurs_longer (old extra s : string) :
  old <> EmptyString -> occurs old s = false -> occurs (old +:+ extra) s = false.
Proof.
  intros Hne. induction s as [|c rest IH]; cbn [occurs].
  - intros _. destruct old; [contradiction | reflexivity].
  - intros Hocc. apply orb_false_iff in Hocc. destruct Hocc as (Hhere & Hrest).
    rewrite (prefix_longer _ _ _ Hhere). now apply IH.
Qed.

(** X3. A key in which ".xls" occurs nowhere is left as it is by the four
    key computations: the destination and the error log are then the source
    blob itself. *)
Theorem keys_without_suffix_are_the_source (source_blob : string) :
  occurs ".xls" source_blob = false ->
  http_destination_key source_blob = source_blob /\
  http_error_key source_blob = source_blob /\
  event_destination_key source_blob = source_blob /\
  event_error_key source_blob = source_blob.
Proof.
  intros Hocc.
  assert (Hx : occurs ".xlsx" source_blob = false).
  { change ".xlsx" with (".xls" +:+ "x"). now apply occurs_longer. }
  unfold http_destination_key, http_error_key, event_destination_key,
    event_error_key, replace.
  now rewrite !(replace_from_absent ".xlsx" _ _ Hx),
              !(replace_from_absent ".xls" _ _ Hocc).
Qed.

Section Calls.
Context {W : Type} {services : Services W}.

(** X5. A run of [log_error] goes one of three ways: [exists] raised, and
    that exception is raised with nothing uploaded; the log exists and
    reading it raised, and that exception is raised with nothing uploaded;
    or one upload is made, to the error-log key, of what was read from the
    log (nothing when the blob is absent) followed by the message and a
    newline, and the result is that of the upload. *)
Theorem log_error_uploads_an_append (self : GCPXLSXParser) (message : string)
  (w : W) :
  let '(r, w', t) := log_error self message w in
  (exists e,
     blob_exists (bucket self) (error_blob self) w = (Raise e, w') /\
     r = Raise e /\ t = []) \/
  (exists e w1,
     blob_exists (bucket self) (error_blob self) w = (Ok true, w1) /\
     download_as_text (bucket self) (error_blob self) w1 = (Raise e, w') /\
     r = Raise e /\ t = []) \/
  (exists found existing w1 w2,
     blob_exists (bucket self) (error_blob self) w = (Ok found, w1) /\
     (if found : bool
      then download_as_text (bucket self) (error_blob self) w1
           = (Ok existing, w2)
      else existing = "" /\ w2 = w1) /\
     upload_from_string (bucket self) (error_blob self)
       (existing +:+ message +:+ nl) "text/plain" w2 = (r, w') /\
     t = [EvUpload (bucket self) (error_blob self)
            (existing +:+ message +:+ nl) "text/plain"]).
Proof.
  unfold log_error, bind, call, ret.
  destruct (blob_exists (bucket self) (error_blob self) w) as [[found|e] w1] eqn:E1.
  - destruct found.
    + destruct (download_as_text (bucket self) (error_blob self) w1)
        as [[existing|e] w2] eqn:E2.
      * destruct (upload_from_string _ _ _ _ w2) as [r w3] eqn:E3.
        right; right. exists true, existing, w1, w2. simpl. auto.
      * right; left. exists e, w1. auto.
    + destruct (upload_from_string _ _ _ _ w1) as [r w3] eqn:E3.
      right; right. exists false, "", w1, w1. simpl. auto.
  - left. exists e. auto.
Qed.

Lemma forward_to_cloud_run_calls (self : GCPXLSXParser) (w w1 : W)
  (r : result json) (t : list event) :
  forward_to_cloud_run self w = (r, w1, t) -> t = [cloud_run_call self].
Proof.
  unfold forward_to_cloud_run, try_except_when, bind, call, lift, ret,
    cloud_run_call.
  destruct (requests_post _ _ _ w) as [[response|e] wa].
  - destruct (json_ response) as [response_data|e]; simpl.
    + destruct (status_code response =? 200)%Z.
      * now intros [= _ _ <-].
      * destruct (get_or response_data "error" (JStr "Unknown error")) as [reason|e]; simpl.
        -- now intros [= _ _ <-].
        -- destruct (is_request_exception e); now intros [= _ _ <-].
    + destruct (is_request_exception e); now intros [= _ _ <-].
  - destruct (is_request_exception e); now intros [= _ _ <-].
Qed.

(** X6. Whatever the service does, [forward_to_cloud_run] makes one call,
    the POST of the bucket name and the source key to [CLOUD_RUN_URL] with a
    timeout of 300, and it never lets a [RequestException] out. *)
Theorem forward_to_cloud_run_posts_once (self : GCPXLSXParser) (w : W) :
  let '(r, _, t) := forward_to_cloud_run self w in
  t = [EvPost CLOUD_RUN_URL
         (JObj [("bucket_name", bucket self);
                ("file_name", JStr (source_blob self))]) 300] /\
  forall e, r = Raise e -> is_request_exception e = false.
Proof.
  destruct (forward_to_cloud_run self w) as [[r w1] t] eqn:E.
  split; [exact (forward_to_cloud_run_calls _ _ _ _ _ E)|].
  revert E.
  unfold forward_to_cloud_run, try_except_when, bind, call, lift, ret.
  destruct (requests_post _ _ _ w) as [[response|e0] wa].
  - destruct (json_ response) as [response_data|e0]; simpl.
    + destruct (status_code response =? 200)%Z.
      * intros [= <- _ _] e; discriminate.
      * destruct (get_or response_data "error" (JStr "Unknown error"))
          as [reason|e0] eqn:Eg; simpl.
        -- intros [= <- _ _] e; discriminate.
        -- destruct (is_request_exception e0) eqn:Ee.
           ++ intros [= <- _ _] e; discriminate.
           ++ intros [= <- _ _] e [= <-]. exact Ee.
    + destruct (is_request_exception e0) eqn:Ee.
      * intros [= <- _ _] e; discriminate.
      * intros [= <- _ _] e [= <-]. exact Ee.
  - destruct (is_request_exception e0) eqn:Ee.
    + intros [= <- _ _] e; discriminate.
    + intros [= <- _ _] e [= <-]. exact Ee.
Qed.

(** X7. When the service answers with a status other than 200, what
    [forward_to_cloud_run] returns is an error descriptor, a dict with the
    one key "error"; it raises only when the body is not a JSON object
    ([AttributeError] on [get]) or when decoding the body raised an exception
    that is no [RequestException]. *)
Theorem forward_to_cloud_run_on_bad_status (self : GCPXLSXParser) (w w1 : W)
  (response : Response) :
  requests_post CLOUD_RUN_URL
    (JObj [("bucket_name", bucket self); ("file_name", JStr (source_blob self))])
    300 w = (Ok response, w1) ->
  status_code response <> 200%Z ->
  match forward_to_cloud_run self w with
  | (Ok reply, w', _) =>
      w' = w1 /\ exists error_msg, reply = error_descriptor error_msg
  | (Raise e, w', _) =>
      w' = w1 /\
      ((exists body, json_ response = Ok body /\
                     (forall kv, body <> JObj kv) /\ e = no_attribute body "get") \/
       (json_ response = Raise e /\ is_request_exception e = false))
  end.
Proof.
  intros Epost Hstatus. apply Z.eqb_neq in Hstatus.
  unfold forward_to_cloud_run, try_except_when, bind, call, lift, ret.
  rewrite Epost.
  destruct (json_ response) as [body|e]; simpl.
  - rewrite Hstatus. destruct body; simpl; try (split; [reflexivity|]; eauto);
      left; eexists; repeat split; discriminate.
  - destruct (is_request_exception e) eqn:Ee.
    + split; [reflexivity|]. eauto.
    + split; [reflexivity|]. right. auto.
Qed.

End Calls.

End Pieces.

(* ===================================================================== *)
(** ** Further properties: the calls of [parse] and the triggers *)
(* ===================================================================== *)

Module Calls.
Import Py Pandas Json Main Mem Spec Facts Orchestrator Samples Shapes Pieces.

Section Traces.
Context {W : Type} {services : Services W}.

Lemma log_error_calls (self : GCPXLSXParser) (message : string) (w w' : W)
  (r : result unit) (t : list event) :
  log_error self message w = (r, w', t) -> log_calls self t.
Proof.
  intros E.
  destruct (log_error_run self message w) as [(e & w1 & E1)|(existing & w1 & E1)];
    rewrite E1 in E.
  - injection E as _ _ <-. now left.
  - destruct (upload_from_string _ _ _ _ w1) as [r1 w3].
    injection E as _ _ <-. right. now exists existing, message.
Qed.

Lemma remote_stage_calls (self : GCPXLSXParser) (xls : ExcelFile) (w w1 : W)
  (r : result (option json)) (t : list event) :
  remote_stage self xls w = (r, w1, t) -> remote_calls self t.
Proof.
  unfold remote_stage, bind, lift, ret.
  destruct (detect_complexity xls) as [complex|e];
    [|intros [= _ _ <-]; now left].
  destruct complex; [|intros [= _ _ <-]; now left].
  destruct (forward_to_cloud_run self w) as [[[resp|e] wa] ta] eqn:Efwd;
    pose proof (forward_to_cloud_run_calls _ _ _ _ _ Efwd) as ->.
  - destruct (contains "error" resp) as [has_error|e];
      [destruct has_error|]; simpl; intros [= _ _ <-]; now right.
  - intros [= _ _ <-]. now right.
Qed.

Lemma remote_stage_plain (self : GCPXLSXParser) (xls : ExcelFile) (w : W) :
  detect_complexity xls = Ok false ->
  remote_stage self xls w = (Ok None, w, []).
Proof.
  intros Hd. unfold remote_stage, bind, lift, ret. now rewrite Hd.
Qed.

Lemma local_stage_calls (self : GCPXLSXParser) (xls : ExcelFile) (w w' : W)
  (r : result json) (t : list event) :
  local_stage self xls w = (r, w', t) -> local_calls self t.
Proof.
  rewrite Properties.local_stage_run. destruct (convert_sheets xls) as [d|n e].
  - destruct d as [|kv d]; [intros [= _ _ <-]; now left|].
    destruct (upload_from_string _ _ _ _ w) as [r1 w1].
    intros [= _ _ <-]. right; left. now exists (kv :: d).
  - destruct (log_error self (sheet_error_message n e) w) as [[r1 w1] t1] eqn:El.
    destruct (log_error_calls _ _ _ _ _ _ El) as [->|(existing & message & ->)].
    + destruct r1; intros [= _ _ <-]; now left.
    + destruct r1; intros [= _ _ <-]; right; right; now exists existing, message.
Qed.

Lemma parse_body_calls (self : GCPXLSXParser) (w w' : W) (r : result json)
  (t : list event) :
  parse_body self w = (r, w', t) ->
  exists tr tl, t = tr ++ tl /\ remote_calls self tr /\ local_calls self tl.
Proof.
  unfold parse_body. intros E.
  destruct (open_workbook self w) as [[[xls|e] wa] ta] eqn:Eopen.
  - pose proof (open_workbook_trace _ _ _ _ _ Eopen) as ->.
    rewrite (bind_ok _ _ _ _ _ _ Eopen) in E.
    destruct (remote_stage self xls wa) as [[[remote|e] wb] tb] eqn:Er.
    + pose proof (remote_stage_calls _ _ _ _ _ _ Er) as Htb.
      rewrite (bind_ok _ _ _ _ _ _ Er) in E.
      destruct remote as [payload|].
      * unfold ret in E. injection E as _ _ <-. exists tb, [].
        split; [reflexivity|]. split; [assumption | now left].
      * destruct (local_stage self xls wb) as [[rl wl] tl] eqn:El.
        injection E as _ _ <-. exists tb, tl.
        split; [reflexivity|]. split; [assumption|].
        exact (local_stage_calls _ _ _ _ _ _ El).
    + pose proof (remote_stage_calls _ _ _ _ _ _ Er) as Htb.
      rewrite (bind_raise _ _ _ _ _ _ Er) in E. injection E as _ _ <-.
      exists tb, []. split; [now rewrite app_nil_r|]. split; [assumption | now left].
  - pose proof (open_workbook_trace _ _ _ _ _ Eopen) as ->.
    rewrite (bind_raise _ _ _ _ _ _ Eopen) in E. injection E as _ _ <-.
    exists [], []. split; [reflexivity|]. split; now left.
Qed.

(** X8. The POSTs and uploads of a run of [parse], in order: at most one
    POST, to Cloud Run; then at most one upload by the sheet stage, the JSON
    to the destination key or a sheet's error to the log; then at most one
    append to the error log by the [except] block.  [parse] posts nowhere
    else and uploads to no other key. *)
Theorem parse_calls (self : GCPXLSXParser) (w : W) :
  let '(_, _, t) := parse self w in
  exists tr tl th,
    t = tr ++ tl ++ th /\
    (tr = [] \/ tr = [cloud_run_call self]) /\
    (tl = [] \/ (exists d, tl = [json_event self d]) \/
     (exists existing message, tl = [log_event self existing message])) /\
    (th = [] \/ exists existing message, th = [log_event self existing message]) /\
    Forall (parse_event self) t.
Proof.
  destruct (parse_body self w) as [[rb wb] tb] eqn:Ebody.
  destruct (parse_body_calls _ _ _ _ _ Ebody) as (tr & tl & -> & Hr & Hl).
  assert (Hall : forall th, log_calls self th ->
            Forall (parse_event self) ((tr ++ tl) ++ th)).
  { intros th Hh. apply Forall_app. split; [apply Forall_app; split|].
    - destruct Hr as [->| ->]; [apply List.Forall_nil|].
      apply List.Forall_cons; [now left | apply List.Forall_nil].
    - destruct Hl as [->|[(d & ->)|(x & m & ->)]]; [apply List.Forall_nil| |];
        (apply List.Forall_cons; [|apply List.Forall_nil]).
      + right; left. now exists d.
      + right; right. now exists x, m.
    - destruct Hh as [->|(x & m & ->)]; [apply List.Forall_nil|].
      apply List.Forall_cons; [|apply List.Forall_nil].
      right; right. now exists x, m. }
  destruct rb as [v|e].
  - rewrite (parse_of_body_ok _ _ _ _ _ Ebody).
    exists tr, tl, []. rewrite app_nil_r.
    split; [reflexivity|]. split; [exact Hr|]. split; [exact Hl|].
    split; [now left|]. specialize (Hall [] (or_introl eq_refl)).
    now rewrite app_nil_r in Hall.
  - rewrite (parse_of_body_raise _ _ _ _ _ Ebody).
    destruct (log_error self (file_error_message self e) wb)
      as [[rl wl] th] eqn:El.
    pose proof (log_error_calls _ _ _ _ _ _ El) as Hh.
    assert (Hgoal : exists tr0 tl0 th0,
              (tr ++ tl) ++ th = tr0 ++ tl0 ++ th0 /\
              (tr0 = [] \/ tr0 = [cloud_run_call self]) /\
              (tl0 = [] \/ (exists d, tl0 = [json_event self d]) \/
               (exists existing message, tl0 = [log_event self existing message])) /\
              (th0 = [] \/ exists existing message,
                             th0 = [log_event self existing message]) /\
              Forall (parse_event self) ((tr ++ tl) ++ th)).
    { exists tr, tl, th. split; [now rewrite app_assoc|].
      split; [exact Hr|]. split; [exact Hl|]. split; [exact Hh|]. now apply Hall. }
    destruct rl; exact Hgoal.
Qed.

(** X9. On a workbook that is not complex, [parse] does not call Cloud
    Run. *)
Theorem plain_workbook_is_not_forwarded (self : GCPXLSXParser) (w w1 : W)
  (xls : ExcelFile) (t1 : list event) :
  open_workbook self w = (Ok xls, w1, t1) ->
  detect_complexity xls = Ok false ->
  let '(_, _, t) := parse self w in existsb is_post t = false.
Proof.
  intros Hopen Hplain.
  pose proof (open_workbook_trace _ _ _ _ _ Hopen) as ->.
  assert (Hlocal : processed_locally self w xls w1 []).
  { exists w1, [], []. split; [exact Hopen|]. split; [|reflexivity].
    now apply remote_stage_plain. }
  pose proof (parse_body_local _ _ _ _ _ Hlocal) as Hbody.
  destruct (local_stage self xls w1) as [[rl wl] tl] eqn:El.
  pose proof (local_stage_calls _ _ _ _ _ _ El) as Hl. simpl in Hbody.
  assert (Htl : existsb is_post tl = false).
  { destruct Hl as [->|[(d & ->)|(x & m & ->)]]; reflexivity. }
  destruct rl as [v|e].
  - now rewrite (parse_of_body_ok _ _ _ _ _ Hbody).
  - rewrite (parse_of_body_raise _ _ _ _ _ Hbody).
    destruct (log_error self (file_error_message self e) wl)
      as [[rh wh] th] eqn:Eh.
    assert (Hth : existsb is_post th = false).
    { destruct (log_error_calls _ _ _ _ _ _ Eh) as [->|(x & m & ->)]; reflexivity. }
    destruct rh; now rewrite existsb_app, Htl, Hth.
Qed.

(** X10. When Cloud Run answers a complex workbook with 200 and a body
    that is a number, a boolean or null, the test for "error" raises a
    [TypeError]; with the log append succeeding, [parse] returns the failure
    string and the sheets are not converted. *)
Theorem scalar_reply_fails_the_run (self : GCPXLSXParser) (w w1 w2 w3 : W)
  (xls : ExcelFile) (t1 t2 t3 : list event) (reply : json) :
  open_workbook self w = (Ok xls, w1, t1) ->
  detect_complexity xls = Ok true ->
  forward_to_cloud_run self w1 = (Ok reply, w2, t2) ->
  iterable reply = false ->
  log_error self
    (file_error_message self
       (Exn TypeError
          ("argument of type '" +:+ type_name reply +:+ "' is not iterable")))
    w2 = (Ok tt, w3, t3) ->
  parse self w = (Ok (JStr FAILED), w3, t1 ++ t2 ++ t3) /\
  existsb is_json_upload (t1 ++ t2 ++ t3) = false.
Proof.
  intros Hopen Hcomplex Hforward Hscalar Hlog.
  assert (Hcontains : contains "error" reply
            = Raise (Exn TypeError
                ("argument of type '" +:+ type_name reply +:+ "' is not iterable"))).
  { destruct reply; try discriminate; reflexivity. }
  assert (Hremote : remote_stage self xls w1
            = (Raise (Exn TypeError
                 ("argument of type '" +:+ type_name reply +:+ "' is not iterable")),
               w2, t2)).
  { unfold remote_stage, bind, lift, ret.
    rewrite Hcomplex, Hforward, Hcontains. now rewrite app_nil_r. }
  assert (Hbody : parse_body self w
            = (Raise (Exn TypeError
                 ("argument of type '" +:+ type_name reply +:+ "' is not iterable")),
               w2, t1 ++ t2)).
  { unfold parse_body. rewrite (bind_ok _ _ _ _ _ _ Hopen).
    now rewrite (bind_raise _ _ _ _ _ _ Hremote). }
  split.
  - rewrite (parse_of_body_raise _ _ _ _ _ Hbody), Hlog. now rewrite app_assoc.
  - rewrite (open_workbook_trace _ _ _ _ _ Hopen). simpl.
    rewrite existsb_app.
    rewrite (is_upload_json _ (forward_to_cloud_run_trace _ _ _ _ _ Hforward)).
    exact (log_error_no_json _ _ _ _ _ _ Hlog).
Qed.

(** X11. When the source blob is absent, or is there with no bytes, and the
    log append succeeds, [parse] returns the failure string after one call
    that writes, the append of "Error processing file <key>: " and the reason
    to the error log; nothing is posted and no JSON is uploaded. *)
Theorem unreadable_source_is_logged (self : GCPXLSXParser) (w w1 w2 : W)
  (reason : string) (t2 : list event) :
  (blob_exists (bucket self) (source_blob self) w = (Ok false, w1) /\
   reason = "File " +:+ source_blob self +:+ " does not exist in bucket.") \/
  (exists wa,
     blob_exists (bucket self) (source_blob self) w = (Ok true, wa) /\
     download_as_bytes (bucket self) (source_blob self) wa = (Ok "", w1) /\
     reason = "Downloaded file is empty.") ->
  log_error self ("Error processing file " +:+ source_blob self +:+ ": " +:+ reason)
    w1 = (Ok tt, w2, t2) ->
  parse self w = (Ok (JStr FAILED), w2, t2) /\
  exists existing,
    t2 = [EvUpload (bucket self) (error_blob self)
            (existing +:+ ("Error processing file " +:+ source_blob self +:+ ": "
                           +:+ reason) +:+ nl)
            "text/plain"].
Proof.
  intros Hcase Hlog.
  assert (Hopen : open_workbook self w = (Raise (Exn ValueError reason), w1, [])).
  { destruct Hcase as [(E & ->)|(wa & E1 & E2 & ->)];
      unfold open_workbook, bind, call, raise.
    - now rewrite E.
    - rewrite E1. simpl. now rewrite E2. }
  assert (Hbody : parse_body self w = (Raise (Exn ValueError reason), w1, [])).
  { unfold parse_body. now apply bind_raise. }
  split.
  - rewrite (parse_of_body_raise _ _ _ _ _ Hbody).
    unfold file_error_message. simpl. now rewrite Hlog.
  - destruct (log_error_ok _ _ _ _ _ Hlog) as (existing & ->). now exists existing.
Qed.

(** X12. A workbook that [parse] got open is what the engine chosen by the
    key's suffix, [xlrd] for ".xls" and [openpyxl] for any other key, decoded
    from the bytes of a source blob that exists and is not empty; opening
    makes no call that writes. *)
Theorem open_workbook_decodes_the_source (self : GCPXLSXParser) (w w1 : W)
  (xls : ExcelFile) (t : list event) :
  open_workbook self w = (Ok xls, w1, t) ->
  exists wa excel_data,
    blob_exists (bucket self) (source_blob self) w = (Ok true, wa) /\
    download_as_bytes (bucket self) (source_blob self) wa = (Ok excel_data, w1) /\
    excel_data <> "" /\
    pd_ExcelFile excel_data
      (if endswith (source_blob self) ".xls" then Xlrd else Openpyxl) = Ok xls /\
    t = [].
Proof.
  unfold open_workbook, bind, call, raise, ret.
  destruct (blob_exists (bucket self) (source_blob self) w) as [[found|e] wa];
    [|discriminate].
  destruct found; simpl; [|discriminate].
  destruct (download_as_bytes (bucket self) (source_blob self) wa)
    as [[excel_data|e] wb] eqn:Edown; [|discriminate].
  destruct (String.eqb excel_data "") eqn:Ee; [discriminate|].
  apply String.eqb_neq in Ee.
  destruct (endswith (source_blob self) ".xls"); simpl;
    destruct (pd_ExcelFile excel_data _) as [x|e] eqn:Ed; try discriminate;
    intros [= <- <- <-]; exists wa, excel_data; rewrite ?app_nil_r;
    repeat split; assumption.
Qed.

End Traces.

End Calls.

(* ===================================================================== *)
(** ** Further properties: the two triggers *)
(* ===================================================================== *)

Module Triggers.
Import Py Pandas Json Main Mem Spec Facts Orchestrator Samples Shapes.

Section Entry.
Context {W : Type} {services : Services W}.

(** X13. On an event that names a bucket and a key ending in ".xlsx" or
    ".xls", the event trigger returns what [parse] returns, for the parser
    built with the keys it derives, and turns an exception that leaves
    [parse] into "Function execution failed.". *)
Theorem event_trigger_runs_parse (kv : list (string * json))
  (bucket_name : json) (source : string) (self : GCPXLSXParser) (w : W) :
  assoc "bucket" kv = Some bucket_name ->
  assoc "name" kv = Some (JStr source) ->
  endswith source ".xlsx" || endswith source ".xls" = true ->
  GCPXLSXParser_init bucket_name source (event_destination_key source)
    (event_error_key source) = Ok self ->
  convert_xlsx_to_json (JObj kv) w
  = match parse self w with
    | (Ok v, w', t) => (Ok v, w', t)
    | (Raise e, w', t) => (Ok (JStr "Function execution failed."), w', t)
    end.
Proof.
  intros Hb Hn Hsuffix Hinit.
  unfold convert_xlsx_to_json, try_except, try_except_when.
  unfold bind at 1. unfold lift at 1. cbn [getitem]. rewrite Hb.
  unfold bind at 1. unfold lift at 1. rewrite Hn.
  unfold bind at 1. unfold lift at 1. cbn [as_str].
  rewrite Hsuffix. cbn [negb].
  unfold bind at 1. unfold lift at 1. rewrite Hinit.
  destruct (parse self w) as [[[v|e] w'] t]; simpl;
    unfold ret; now rewrite ?app_nil_r.
Qed.

(** X14. On an event whose key ends neither in ".xlsx" nor in ".xls", the
    event trigger returns "Ignoring non-Excel file." and calls nothing: no
    blob is read or written and no parser is built. *)
Theorem event_trigger_ignores_other_keys (kv : list (string * json))
  (bucket_name : json) (source : string) (w : W) :
  assoc "bucket" kv = Some bucket_name ->
  assoc "name" kv = Some (JStr source) ->
  endswith source ".xlsx" = false ->
  endswith source ".xls" = false ->
  convert_xlsx_to_json (JObj kv) w = (Ok (JStr "Ignoring non-Excel file."), w, []).
Proof.
  intros Hb Hn Hx Hs.
  unfold convert_xlsx_to_json, try_except, try_except_when, bind, lift, ret.
  cbn [getitem]. rewrite Hb, Hn. cbn [as_str]. now rewrite Hx, Hs.
Qed.

(** X15. The event trigger never raises; on event data that lack "bucket"
    or "name" it returns "Function execution failed." and calls nothing. *)
Theorem event_trigger_never_raises (data : json) (w : W) :
  (let '(r, _, _) := convert_xlsx_to_json data w in exists v, r = Ok v) /\
  (forall kv, data = JObj kv ->
     assoc "bucket" kv = None \/ assoc "name" kv = None ->
     convert_xlsx_to_json data w
     = (Ok (JStr "Function execution failed."), w, [])).
Proof.
  split.
  - unfold convert_xlsx_to_json, try_except, try_except_when.
    match goal with |- context [bind ?m ?f w] =>
      destruct (bind m f w) as [[[v|e] w'] t] end; simpl; eauto.
  - intros kv -> Hmissing.
    unfold convert_xlsx_to_json, try_except, try_except_when, bind, lift, ret.
    cbn [getitem].
    destruct (assoc "bucket" kv) as [b|] eqn:Eb.
    + destruct Hmissing as [?|Hn]; [discriminate|]. now rewrite Hn.
    + reflexivity.
Qed.

Lemma http_body_status (request : Request) (w w' : W) (reply : json)
  (status : Z) (t : list event) :
  http_body request w = (Ok (reply, status), w', t) ->
  status = 200%Z \/ status = 400%Z.
Proof.
  unfold http_body.
  destruct (negb (truthy _)); [intros [= _ <- _ _]; now right|].
  unfold bind at 1. unfold lift at 1.
  destruct (get _ "bucket") as [bucket_name|e]; [|discriminate].
  unfold bind at 1. unfold lift at 1.
  destruct (get _ "name") as [name|e]; [|discriminate].
  destruct (negb (truthy bucket_name) || negb (truthy name));
    [intros [= _ <- _ _]; now right|].
  unfold bind at 1. unfold lift at 1.
  destruct (as_str name "replace") as [source|e]; [|discriminate].
  unfold bind at 1. unfold lift at 1.
  destruct (GCPXLSXParser_init _ _ _ _) as [parser|e]; [|discriminate].
  unfold bind, ret.
  destruct (parse parser w) as [[[v|e] w1] t1]; [|discriminate].
  intros [= _ <- _ _]. now left.
Qed.

(** X16. The HTTP trigger never raises: it answers every request with a
    body and a status that is 200, 400 or 500, and 500 exactly when its
    [try] block raised. *)
Theorem http_trigger_always_answers (request : Request) (w : W) :
  let '(r, _, _) := convert_xlsx_to_json_http request w in
  exists reply status,
    r = Ok (reply, status) /\
    (status = 200%Z \/ status = 400%Z \/ status = 500%Z) /\
    (status = 500%Z <-> exists e w' t, http_body request w = (Raise e, w', t)).
Proof.
  unfold convert_xlsx_to_json_http, try_except, try_except_when.
  destruct (http_body request w) as [[[[reply status]|e] w'] t] eqn:Ebody.
  - exists reply, status. split; [reflexivity|].
    destruct (http_body_status _ _ _ _ _ _ Ebody) as [-> | ->].
    + split; [now left|]. split; [discriminate|]. intros (e & w1 & t1 & E). discriminate.
    + split; [right; now left|]. split; [discriminate|].
      intros (e & w1 & t1 & E). discriminate.
  - unfold ret. exists (jsonify "error" (JStr (exn_msg e))), 500%Z.
    split; [reflexivity|]. split; [right; now right|].
    split; [|reflexivity]. intros _. now exists e, w', t.
Qed.

(** X17. A body that decodes to a truthy value other than an object (a
    non-empty list or string, a number, true) is answered 500 with the
    message of the [AttributeError] on [get], and so is an object whose
    "name" is truthy without being a string, on [replace]; nothing is
    called. *)
Theorem http_trigger_on_wrong_types (request : Request) (w : W) :
  (forall body, get_json_silent request = Some body ->
     truthy body = true -> (forall kv, body <> JObj kv) ->
     convert_xlsx_to_json_http request w
     = (Ok (jsonify "error"
              (JStr ("'" +:+ type_name body
                     +:+ "' object has no attribute 'get'")), 500%Z), w, [])) /\
  (forall kv name, get_json_silent request = Some (JObj kv) ->
     truthy (field kv "bucket") = true ->
     assoc "name" kv = Some name -> truthy name = true ->
     (forall s, name <> JStr s) ->
     convert_xlsx_to_json_http request w
     = (Ok (jsonify "error"
              (JStr ("'" +:+ type_name name
                     +:+ "' object has no attribute 'replace'")), 500%Z), w, [])).
Proof.
  split.
  - intros body Hbody Htruthy Hnot.
    unfold convert_xlsx_to_json_http, try_except, try_except_when, http_body.
    rewrite Hbody, Htruthy. cbn [negb]. unfold bind, lift, ret.
    destruct body; try reflexivity. now destruct (Hnot kv).
  - intros kv name Hbody Hbucket Hname Htruthy Hnot.
    unfold convert_xlsx_to_json_http, try_except, try_except_when, http_body.
    rewrite Hbody.
    assert (Hkv : truthy (JObj kv) = true) by (destruct kv; [discriminate|reflexivity]).
    rewrite Hkv. cbn [negb get]. unfold bind, lift, ret.
    fold (field kv "bucket"). rewrite Hbucket, Hname, Htruthy. cbn [negb orb].
    destruct name; try reflexivity. now destruct (Hnot s).
Qed.

End Entry.

End Triggers.

(* ===================================================================== *)
(** ** Further properties: the two loops over sheets, frames, the log *)
(* ===================================================================== *)

Module Sheets.
Import Py Pandas Json Main Mem Spec Facts Orchestrator Samples Shapes.

(** X18. [detect_complexity] stops at the first sheet that decides: when
    the sheets before it read as raw grids and do not trigger, a sheet that
    triggers gives true and a sheet that cannot be read makes the detector
    raise, whatever the sheets after it are, readable or not. *)
Theorem detect_complexity_stops_at_first (xls : ExcelFile)
  (pre post : list string) (n : string) :
  sheet_names xls = pre ++ n :: post ->
  (forall m, In m pre ->
     sheet_triggers xls m = false /\
     exists df, parse_sheet xls m HeaderNone = Ok df) ->
  match parse_sheet xls n HeaderNone with
  | Raise e => detect_complexity xls = Raise e
  | Ok _ => sheet_triggers xls n = true -> detect_complexity xls = Ok true
  end.
Proof.
  intros Hnames Hpre. unfold detect_complexity. rewrite Hnames.
  rewrite (Complexity.detect_complexity_from_skip xls pre (n :: post) Hpre).
  cbn [detect_complexity_from]. unfold sheet_triggers.
  destruct (parse_sheet xls n HeaderNone) as [df|e]; [|reflexivity].
  change (0 <? isna_sum_sum df)%nat with (1 <=? isna_sum_sum df)%nat.
  intros Htrigger. destruct (1 <=? isna_sum_sum df)%nat; [reflexivity|].
  cbn [orb] in Htrigger. now rewrite Htrigger.
Qed.

Lemma convert_sheets_from_app (xls : ExcelFile) (pre rest : list string) :
  forall d d', convert_sheets_from xls pre d = SheetsDone d' ->
  convert_sheets_from xls (pre ++ rest) d = convert_sheets_from xls rest d'.
Proof.
  induction pre as [|m pre IH]; intros d d'; cbn [app convert_sheets_from].
  - now intros [= <-].
  - destruct (parse_sheet xls m Header0) as [df|e]; [|discriminate].
    destruct (empty (dropna_rows (dropna_columns df))); apply IH.
Qed.

(** X19. The sheet loop stops at the first sheet that raises: when the
    sheets before it read as tables, the outcome names that sheet and its
    exception, whatever was converted before and whatever comes after. *)
Theorem convert_sheets_stops_at_first_failure (xls : ExcelFile)
  (pre post : list string) (n : string) (e : exn) :
  sheet_names xls = pre ++ n :: post ->
  (forall m, In m pre -> exists df, parse_sheet xls m Header0 = Ok df) ->
  parse_sheet xls n Header0 = Raise e ->
  convert_sheets xls = SheetFailed n e.
Proof.
  intros Hnames Hpre Hn. unfold convert_sheets. rewrite Hnames.
  destruct (Converter.convert_sheets_from_done xls pre Hpre []) as (d' & Hrun & _).
  rewrite (convert_sheets_from_app xls pre (n :: post) [] d' Hrun).
  cbn [convert_sheets_from]. now rewrite Hn.
Qed.

Lemma convert_sheets_from_blank (xls : ExcelFile) (names : list string) :
  (forall n, In n names ->
     exists df, parse_sheet xls n Header0 = Ok df /\
                Forall (fun r => existsb notna r = false) (rows df)) ->
  forall d, convert_sheets_from xls names d = SheetsDone d.
Proof.
  induction names as [|n names IH]; intros Hblank d; [reflexivity|].
  destruct (Hblank n (or_introl eq_refl)) as (df & Hdf & Hnull).
  cbn [convert_sheets_from]. rewrite Hdf.
  change (dropna_rows (dropna_columns df)) with (clean df).
  rewrite (Properties.all_null_rows_empty df Hnull).
  apply IH. intros m Hm. apply Hblank. now right.
Qed.

(** X20. A workbook whose sheets all read as tables without a value in
    any row (a header only, null rows only, or no sheet at all) leaves the
    dict empty, and the sheet stage raises "No valid data found in the Excel
    file." without calling anything. *)
Theorem blank_workbook_has_no_data {W : Type} {services : Services W}
  (xls : ExcelFile) :
  (forall n, In n (sheet_names xls) ->
     exists df, parse_sheet xls n Header0 = Ok df /\
                Forall (fun r => existsb notna r = false) (rows df)) ->
  convert_sheets xls = SheetsDone [] /\
  forall (self : GCPXLSXParser) (w : W),
    local_stage self xls w
    = (Raise (Exn ValueError "No valid data found in the Excel file."), w, []).
Proof.
  intros Hblank.
  assert (Hrun : convert_sheets xls = SheetsDone [])
    by (apply convert_sheets_from_blank; exact Hblank).
  split; [exact Hrun|]. intros self w. unfold local_stage. now rewrite Hrun.
Qed.

Lemma select_length {A B : Type} (mask : list bool) (l1 : list A) (l2 : list B) :
  List.length mask = List.length l1 -> List.length mask = List.length l2 ->
  List.length (select mask l1) = List.length (select mask l2).
Proof.
  revert l1 l2. induction mask as [|b mask IH]; intros [|x l1] [|y l2];
    simpl; try discriminate; try reflexivity.
  intros [= H1] [= H2]. destruct b; simpl; [f_equal|]; now apply IH.
Qed.

(** An index of the selection is an index of the list, under the mask. *)
Lemma select_nth {A : Type} (mask : list bool) (l : list A) (j' : nat) :
  List.length mask = List.length l ->
  (j' < List.length (select mask l))%nat ->
  exists j, nth j mask false = true /\
    forall (B : Type) (r : list B) (d : B),
      List.length r = List.length mask ->
      nth j' (select mask r) d = nth j r d.
Proof.
  revert l j'. induction mask as [|b mask IH]; intros [|x l] j';
    simpl; try discriminate; try lia.
  intros [= Hlen] Hj'. destruct b.
  - destruct j' as [|k].
    + exists 0%nat. split; [reflexivity|]. intros B [|y r] d; [discriminate|reflexivity].
    + simpl in Hj'. destruct (IH l k Hlen) as (j & Hj & Hnth); [lia|].
      exists (S j). split; [exact Hj|].
      intros B [|y r] d; [discriminate|]. intros [= Hr]. simpl. now apply Hnth.
  - destruct (IH l j' Hlen Hj') as (j & Hj & Hnth).
    exists (S j). split; [exact Hj|].
    intros B [|y r] d; [discriminate|]. intros [= Hr]. simpl. now apply Hnth.
Qed.

(** X21. After the two [dropna] calls on a well-formed frame, every row
    left holds a value, every column left holds a value in some row left,
    and the rows still have one cell per column: dropping the null rows
    after the null columns makes no column null again. *)
Theorem clean_leaves_no_null_row_or_column (df : DataFrame) :
  well_formed df ->
  well_formed (clean df) /\
  Forall (fun r => row_has_value r = true) (rows (clean df)) /\
  forall j, (j < List.length (columns (clean df)))%nat ->
    exists r, In r (rows (clean df)) /\ notna (nth j r None) = true.
Proof.
  intros Hwf. pose proof Hwf as Hlen. unfold well_formed in Hlen.
  rewrite List.Forall_forall in Hlen.
  assert (Hkept : forall r, In r (List.filter row_has_value (rows df)) ->
            existsb notna (select (column_mask df) r) = true).
  { intros r Hr. apply filter_In in Hr. destruct Hr as (Hr & Hv).
    rewrite existsb_select; [exact Hv| |].
    - rewrite length_column_mask. symmetry. now apply Hlen.
    - intros j Hj. now apply (column_mask_covers df r j). }
  split; [|split].
  - unfold well_formed. rewrite (rows_clean df Hwf). apply List.Forall_forall.
    intros r' Hr'. apply in_map_iff in Hr'. destruct Hr' as (r & <- & Hr).
    apply filter_In in Hr. destruct Hr as (Hr & _).
    change (columns (clean df)) with (select (column_mask df) (columns df)).
    apply select_length.
    + rewrite length_column_mask. symmetry. now apply Hlen.
    + apply length_column_mask.
  - rewrite (rows_clean df Hwf). apply List.Forall_forall.
    intros r' Hr'. apply in_map_iff in Hr'. destruct Hr' as (r & <- & Hr).
    now apply Hkept.
  - intros j' Hj'.
    change (columns (clean df)) with (select (column_mask df) (columns df)) in Hj'.
    destruct (select_nth (column_mask df) (columns df) j'
                (length_column_mask df) Hj') as (j & Hmask & Hnth).
    destruct (column_mask_nth df j Hmask) as (r0 & Hr0 & Hv).
    exists (select (column_mask df) r0). split.
    + rewrite (rows_clean df Hwf). apply in_map. apply filter_In.
      split; [exact Hr0|]. unfold row_has_value. apply existsb_exists.
      exists (nth j r0 None). split; [|exact Hv].
      apply nth_In. destruct (Nat.lt_ge_cases j (List.length r0)) as [?|Hge];
        [assumption|]. rewrite nth_overflow in Hv by assumption. discriminate.
    + rewrite (Hnth _ r0 None); [exact Hv|].
      rewrite length_column_mask. now apply Hlen.
Qed.

Lemma select_incl {A : Type} (mask : list bool) (l : list A) (x : A) :
  In x (select mask l) -> In x l.
Proof.
  intros Hin. destruct (select_In mask l x Hin) as (j & Hj & _).
  now apply nth_error_In in Hj.
Qed.

Lemma select_NoDup {A : Type} (mask : list bool) (l : list A) :
  List.NoDup l -> List.NoDup (select mask l).
Proof.
  revert mask. induction l as [|x l IH]; intros [|b mask] Hnd; simpl;
    try apply List.NoDup_nil.
  inversion Hnd as [|? ? Hnotin Hnd']; subst. destruct b; [|now apply IH].
  apply List.NoDup_cons; [|now apply IH].
  intros Hin. apply Hnotin. now apply (select_incl mask).
Qed.

Lemma keys_fold_fresh {V : Type} (pairs d : list (string * V)) :
  List.NoDup (map fst pairs) ->
  (forall k, In k (map fst pairs) -> ~ In k (keys d)) ->
  keys (fold_left (fun d kv => dict_set (fst kv) (snd kv) d) pairs d)
  = keys d ++ map fst pairs.
Proof.
  revert d. induction pairs as [|[k v] pairs IH]; intros d Hnd Hfresh;
    simpl; [now rewrite app_nil_r|].
  inversion Hnd as [|? ? Hnotin Hnd']; subst.
  rewrite IH; [|assumption|].
  - rewrite keys_dict_set.
    destruct (has_key k d) eqn:Ek.
    + apply has_key_In in Ek. exfalso. apply (Hfresh k); [now left | assumption].
    + now rewrite <- app_assoc.
  - intros k' Hk' Hin. rewrite keys_dict_set in Hin.
    destruct (has_key k d).
    + apply (Hfresh k'); [now right | assumption].
    + apply in_app_or in Hin. destruct Hin as [Hin|[<-|[]]].
      * apply (Hfresh k'); [now right | assumption].
      * contradiction.
Qed.

Lemma map_fst_combine {A B : Type} (l1 : list A) (l2 : list B) :
  List.length l1 = List.length l2 -> map fst (combine l1 l2) = l1.
Proof.
  revert l2. induction l1 as [|x l1 IH]; intros [|y l2]; simpl;
    try discriminate; [reflexivity|].
  intros [= Hlen]. f_equal. now apply IH.
Qed.

(** X22. When the column labels of a well-formed frame are distinct, the
    records of the cleaned frame all have the same keys: the labels of the
    columns kept, in column order. *)
Theorem records_share_their_keys (df : DataFrame) :
  well_formed df ->
  List.NoDup (columns df) ->
  forall record, In record (to_dict_records (clean df)) ->
    keys record = columns (clean df).
Proof.
  intros Hwf Hnd record Hin.
  rewrite (to_dict_records_clean df Hwf) in Hin. apply in_map_iff in Hin.
  destruct Hin as (r & <- & Hr). apply filter_In in Hr. destruct Hr as (Hr & _).
  unfold well_formed in Hwf. rewrite List.Forall_forall in Hwf.
  specialize (Hwf r Hr).
  change (columns (clean df)) with (select (column_mask df) (columns df)).
  unfold record_of, dict_of.
  assert (Hfst : map fst (combine (select (column_mask df) (columns df))
                            (map box (select (column_mask df) r)))
                 = select (column_mask df) (columns df)).
  { apply map_fst_combine. rewrite length_map. apply select_length.
    - apply length_column_mask.
    - rewrite length_column_mask. now symmetry. }
  rewrite keys_fold_fresh; rewrite Hfst.
  - reflexivity.
  - now apply select_NoDup.
  - intros k _ [].
Qed.

(** X4. In a writable in-memory bucket [log_error] appends: two calls in a
    row leave under the error-log key what was there (nothing for an absent
    blob), then the first message and a newline, then the second message and
    a newline; no other key changes. *)
Theorem mem_log_error_accumulates (c : config) (self : GCPXLSXParser)
  (first second : string) (w : gmap string string) :
  writable c = true ->
  exists w1 w2 t1 t2,
    log_error (services := services c) self first w = (Ok tt, w1, t1) /\
    log_error (services := services c) self second w1 = (Ok tt, w2, t2) /\
    w2 !! error_blob self
    = Some ((default "" (w !! error_blob self) +:+ first +:+ nl)
            +:+ second +:+ nl) /\
    forall key, key <> error_blob self -> w2 !! key = w !! key.
Proof.
  intros Hw.
  assert (Hstep : forall message (v : gmap string string),
            log_error (services := services c) self message v
            = (Ok tt,
               <[error_blob self := default "" (v !! error_blob self)
                                    +:+ message +:+ nl]> v,
               [log_event self (default "" (v !! error_blob self)) message])).
  { intros message v. unfold log_error, bind, call, ret. simpl. unfold download.
    destruct (v !! error_blob self) as [existing|] eqn:E.
    - rewrite bool_decide_true by (now exists existing). rewrite E. simpl.
      now rewrite Hw.
    - rewrite bool_decide_false by (intros [x Hx]; discriminate). simpl.
      now rewrite Hw. }
  do 4 eexists. split; [apply Hstep|]. split; [apply Hstep|]. split.
  - rewrite !lookup_insert_eq. reflexivity.
  - intros key Hne. rewrite !lookup_insert_ne by (now apply not_eq_sym).
    reflexivity.
Qed.

End Sheets.

(* ===================================================================== *)
(** ** The further properties at work on the samples *)
(* ===================================================================== *)

Module Uses.
Import Py Pandas Json Main Mem Spec Facts Orchestrator Samples Shapes.

Lemma date_of_the_test_table :
  calendar_date 2025 2 10 /\
  exists text,
    json_serializer (STimestamp 2025 2 10 "00:00:00") = SStr text /\
    read_date text = Some (2025, 2, 10)%Z /\
    ((1000 <= 2025)%Z -> String.length text = 10%nat).
Proof.
  assert (H : calendar_date 2025 2 10) by (unfold calendar_date; lia).
  split; [exact H|].
  exact (Pieces.json_serializer_date_reads_back 2025 2 10 "00:00:00" H).
Defined.

Lemma keys_of_report :
  dot_free "report" = true /\
  event_error_key ("report" +:+ ".xlsx") = "report_error.log" /\
  event_error_key ("report" +:+ ".xls") = "report.xls".
Proof.
  assert (H : dot_free "report" = true) by reflexivity.
  split; [exact H|].
  destruct (Keys.keys_of_dot_free_stem "report" H)
    as (_ & _ & _ & _ & _ & _ & E1 & E2).
  split; [exact E1 | exact E2].
Defined.

Lemma keys_of_a_csv :
  occurs ".xls" "data.csv" = false /\
  http_destination_key "data.csv" = "data.csv" /\
  http_error_key "data.csv" = "data.csv".
Proof.
  assert (H : occurs ".xls" "data.csv" = false) by reflexivity.
  split; [exact H|].
  destruct (Pieces.keys_without_suffix_are_the_source "data.csv" H)
    as (E1 & E2 & _).
  split; [exact E1 | exact E2].
Defined.

Lemma cloud_run_500_is_a_descriptor :
  let S := services (failing_cloud_run with_report) in
  requests_post (Services := S) CLOUD_RUN_URL
    (JObj [("bucket_name", bucket test_parser);
           ("file_name", JStr (source_blob test_parser))]) 300 uploaded
  = (Ok {| status_code := 500;
           json_ := Ok (JObj [("error", JStr "out of memory")]) |}, uploaded) /\
  (500 <> 200)%Z /\
  exists error_msg w' t,
    forward_to_cloud_run (services := S) test_parser uploaded
    = (Ok (error_descriptor error_msg), w', t).
Proof.
  intros S.
  assert (H1 : requests_post (Services := S) CLOUD_RUN_URL
                 (JObj [("bucket_name", bucket test_parser);
                        ("file_name", JStr (source_blob test_parser))]) 300 uploaded
               = (Ok {| status_code := 500;
                        json_ := Ok (JObj [("error", JStr "out of memory")]) |},
                  uploaded)) by reflexivity.
  assert (H2 : (500 <> 200)%Z) by lia.
  split; [exact H1|]. split; [exact H2|].
  pose proof (Pieces.forward_to_cloud_run_on_bad_status (services := S)
                test_parser uploaded uploaded _ H1 H2) as H.
  destruct (forward_to_cloud_run (services := S) test_parser uploaded)
    as [[[reply|e] w'] t] eqn:E.
  - destruct H as (_ & error_msg & ->). now exists error_msg, w', t.
  - exfalso. vm_compute in E. discriminate.
Defined.

Lemma titles_are_not_forwarded :
  let S := services (local_only titles) in
  open_workbook (services := S) test_parser uploaded = (Ok titles, uploaded, []) /\
  detect_complexity titles = Ok false /\
  let '(_, _, t) := parse (services := S) test_parser uploaded in
  existsb is_post t = false.
Proof.
  intros S.
  assert (H1 : open_workbook (services := S) test_parser uploaded
               = (Ok titles, uploaded, [])) by reflexivity.
  assert (H2 : detect_complexity titles = Ok false) by reflexivity.
  split; [exact H1|]. split; [exact H2|].
  exact (Calls.plain_workbook_is_not_forwarded (services := S) test_parser
           uploaded uploaded titles [] H1 H2).
Defined.

Lemma numeric_reply_fails :
  let S := services (with_cloud_run with_report (JInt 5)) in
  let message :=
    file_error_message test_parser
      (Exn TypeError "argument of type 'int' is not iterable") in
  let w3 := <[ "test_error.log" := message +:+ nl ]> uploaded in
  let t3 := [log_event test_parser "" message] in
  open_workbook (services := S) test_parser uploaded
  = (Ok with_report, uploaded, []) /\
  detect_complexity with_report = Ok true /\
  forward_to_cloud_run (services := S) test_parser uploaded
  = (Ok (JInt 5), uploaded, [cloud_run_call test_parser]) /\
  iterable (JInt 5) = false /\
  log_error (services := S) test_parser message uploaded = (Ok tt, w3, t3) /\
  parse (services := S) test_parser uploaded
  = (Ok (JStr FAILED), w3, [] ++ [cloud_run_call test_parser] ++ t3).
Proof.
  intros S message w3 t3.
  assert (H1 : open_workbook (services := S) test_parser uploaded
               = (Ok with_report, uploaded, [])) by reflexivity.
  assert (H2 : detect_complexity with_report = Ok true) by reflexivity.
  assert (H3 : forward_to_cloud_run (services := S) test_parser uploaded
               = (Ok (JInt 5), uploaded, [cloud_run_call test_parser]))
    by reflexivity.
  assert (H4 : iterable (JInt 5) = false) by reflexivity.
  assert (H5 : log_error (services := S) test_parser message uploaded
               = (Ok tt, w3, t3)) by (vm_compute; reflexivity).
  repeat (split; [assumption|]).
  exact (proj1 (Calls.scalar_reply_fails_the_run (services := S) test_parser
                  uploaded uploaded uploaded w3 with_report []
                  [cloud_run_call test_parser] t3 (JInt 5) H1 H2 H3 H4 H5)).
Defined.

Lemma missing_source_is_logged :
  let S := services (local_only titles) in
  let reason := "File test.xlsx does not exist in bucket." in
  let message := "Error processing file test.xlsx: " +:+ reason in
  let w2 := <[ "test_error.log" := message +:+ nl ]> nothing in
  blob_exists (Services := S) (bucket test_parser) (source_blob test_parser)
    nothing = (Ok false, nothing) /\
  log_error (services := S) test_parser message nothing
  = (Ok tt, w2, [log_event test_parser "" message]) /\
  parse (services := S) test_parser nothing
  = (Ok (JStr FAILED), w2, [log_event test_parser "" message]).
Proof.
  intros S reason message w2.
  assert (H1 : blob_exists (Services := S) (bucket test_parser)
                 (source_blob test_parser) nothing = (Ok false, nothing))
    by reflexivity.
  assert (H2 : log_error (services := S) test_parser message nothing
               = (Ok tt, w2, [log_event test_parser "" message]))
    by (vm_compute; reflexivity).
  split; [exact H1|]. split; [exact H2|].
  exact (proj1 (Calls.unreadable_source_is_logged (services := S) test_parser
                  nothing nothing w2 reason [log_event test_parser "" message]
                  (or_introl (conj H1 eq_refl)) H2)).
Defined.

Lemma titles_are_read_with_openpyxl :
  let S := services (local_only titles) in
  open_workbook (services := S) test_parser uploaded = (Ok titles, uploaded, []) /\
  exists excel_data,
    excel_data <> "" /\
    pd_ExcelFile (Services := S) excel_data Openpyxl = Ok titles.
Proof.
  intros S.
  assert (H1 : open_workbook (services := S) test_parser uploaded
               = (Ok titles, uploaded, [])) by reflexivity.
  split; [exact H1|].
  destruct (Calls.open_workbook_decodes_the_source (services := S) test_parser
              uploaded uploaded titles [] H1)
    as (wa & excel_data & _ & _ & Hne & Hdec & _).
  exists excel_data. split; [exact Hne | exact Hdec].
Defined.

Lemma event_for_the_test_key :
  let S := services (local_only titles) in
  GCPXLSXParser_init (services := S) (JStr "xlsx-test-bucket") "test.xlsx"
    (event_destination_key "test.xlsx") (event_error_key "test.xlsx")
  = Ok test_parser /\
  exists w' t,
    convert_xlsx_to_json (services := S) test_event uploaded
    = (Ok (JStr SUCCESS), w', t).
Proof.
  intros S.
  assert (H : GCPXLSXParser_init (services := S) (JStr "xlsx-test-bucket")
                "test.xlsx" (event_destination_key "test.xlsx")
                (event_error_key "test.xlsx") = Ok test_parser) by reflexivity.
  split; [exact H|].
  pose proof (Triggers.event_trigger_runs_parse (services := S)
                [("bucket", JStr "xlsx-test-bucket"); ("name", JStr "test.xlsx")]
                (JStr "xlsx-test-bucket") "test.xlsx" test_parser uploaded
                eq_refl eq_refl eq_refl H) as E.
  destruct (parse (services := S) test_parser uploaded) as [[r w'] t] eqn:Ep.
  assert (Hr : r = Ok (JStr SUCCESS)).
  { apply (f_equal (fun x => fst (fst x))) in Ep. vm_compute in Ep. now symmetry. }
  subst r. now exists w', t.
Defined.

Lemma notes_are_ignored :
  endswith "notes.txt" ".xlsx" = false /\
  endswith "notes.txt" ".xls" = false /\
  convert_xlsx_to_json (services := services (local_only titles)) notes_event
    uploaded
  = (Ok (JStr "Ignoring non-Excel file."), uploaded, []).
Proof.
  split; [reflexivity|]. split; [reflexivity|].
  exact (Triggers.event_trigger_ignores_other_keys
           (services := services (local_only titles))
           [("bucket", JStr "xlsx-test-bucket"); ("name", JStr "notes.txt")]
           (JStr "xlsx-test-bucket") "notes.txt" uploaded
           eq_refl eq_refl eq_refl eq_refl).
Defined.

Lemma event_without_a_name_fails :
  assoc "name" [("bucket", JStr "xlsx-test-bucket")] = None /\
  convert_xlsx_to_json (services := services (local_only titles))
    (JObj [("bucket", JStr "xlsx-test-bucket")]) uploaded
  = (Ok (JStr "Function execution failed."), uploaded, []).
Proof.
  split; [reflexivity|].
  exact (proj2 (Triggers.event_trigger_never_raises
                  (services := services (local_only titles))
                  (JObj [("bucket", JStr "xlsx-test-bucket")]) uploaded)
           _ eq_refl (or_intror eq_refl)).
Defined.

Lemma list_body_is_answered_500 :
  truthy (JArr [JStr "test.xlsx"]) = true /\
  convert_xlsx_to_json_http (services := services (local_only titles))
    list_request uploaded
  = (Ok (jsonify "error" (JStr "'list' object has no attribute 'get'"), 500%Z),
     uploaded, []) /\
  convert_xlsx_to_json_http (services := services (local_only titles))
    numeric_name_request uploaded
  = (Ok (jsonify "error" (JStr "'int' object has no attribute 'replace'"), 500%Z),
     uploaded, []).
Proof.
  split; [reflexivity|]. split.
  - exact (proj1 (Triggers.http_trigger_on_wrong_types
                    (services := services (local_only titles))
                    list_request uploaded)
             (JArr [JStr "test.xlsx"]) eq_refl eq_refl
             (fun kv H => ltac:(discriminate H))).
  - exact (proj2 (Triggers.http_trigger_on_wrong_types
                    (services := services (local_only titles))
                    numeric_name_request uploaded)
             [("bucket", JStr "xlsx-test-bucket"); ("name", JInt 7)] (JInt 7)
             eq_refl eq_refl eq_refl eq_refl
             (fun s H => ltac:(discriminate H))).
Defined.

Lemma report_decides_before_the_chart :
  sheet_names report_then_unreadable = [] ++ "REPORT" :: ["Chart"] /\
  sheet_triggers report_then_unreadable "REPORT" = true /\
  detect_complexity report_then_unreadable = Ok true.
Proof.
  assert (H1 : sheet_names report_then_unreadable = [] ++ "REPORT" :: ["Chart"])
    by reflexivity.
  assert (H2 : sheet_triggers report_then_unreadable "REPORT" = true)
    by reflexivity.
  split; [exact H1|]. split; [exact H2|].
  exact (Sheets.detect_complexity_stops_at_first report_then_unreadable []
           ["Chart"] "REPORT" H1 (fun m (H : In m []) => match H with end) H2).
Defined.

Lemma broken_sheet_is_named :
  sheet_names good_then_broken = ["Data"] ++ "Broken" :: ["Later"] /\
  parse_sheet good_then_broken "Broken" Header0
  = Raise (Exn ValueError "bad header") /\
  convert_sheets good_then_broken
  = SheetFailed "Broken" (Exn ValueError "bad header").
Proof.
  assert (H1 : sheet_names good_then_broken = ["Data"] ++ "Broken" :: ["Later"])
    by reflexivity.
  assert (H2 : parse_sheet good_then_broken "Broken" Header0
               = Raise (Exn ValueError "bad header")) by reflexivity.
  split; [exact H1|]. split; [exact H2|].
  apply (Sheets.convert_sheets_stops_at_first_failure good_then_broken
           ["Data"] ["Later"] "Broken" _ H1); [|exact H2].
  intros m [<-|[]]. eexists. reflexivity.
Defined.

Lemma headers_only_blank :
  forall n, In n (sheet_names headers_only) ->
    exists df, parse_sheet headers_only n Header0 = Ok df /\
               Forall (fun r => existsb notna r = false) (rows df).
Proof.
  intros n Hn. simpl in Hn.
  destruct Hn as [<-|[<-|[]]]; eexists; (split; [reflexivity|]);
    simpl; repeat apply List.Forall_cons; try apply List.Forall_nil; reflexivity.
Qed.

Lemma headers_only_has_no_data :
  (forall n, In n (sheet_names headers_only) ->
     exists df, parse_sheet headers_only n Header0 = Ok df /\
                Forall (fun r => existsb notna r = false) (rows df)) /\
  convert_sheets headers_only = SheetsDone [].
Proof.
  split; [exact headers_only_blank|].
  exact (proj1 (Sheets.blank_workbook_has_no_data
                  (services := services (local_only headers_only))
                  headers_only headers_only_blank)).
Defined.

Lemma people_well_formed : well_formed people.
Proof. unfold well_formed. simpl. repeat apply List.Forall_cons; try apply List.Forall_nil; reflexivity. Qed.

Lemma people_cleaned :
  well_formed people /\
  Forall (fun r => row_has_value r = true) (rows (clean people)) /\
  rows (clean people) = [[Some "Ann"; Some "41"]; [Some "Bob"; None]].
Proof.
  split; [exact people_well_formed|].
  split; [|reflexivity].
  exact (proj1 (proj2 (Sheets.clean_leaves_no_null_row_or_column people
                         people_well_formed))).
Defined.

Lemma people_labels_distinct : List.NoDup (columns people).
Proof. simpl. repeat constructor; simpl; intuition discriminate. Qed.

Lemma people_records_keys :
  well_formed people /\ List.NoDup (columns people) /\
  forall record, In record (to_dict_records (clean people)) ->
    keys record = ["Name"; "Age"].
Proof.
  split; [exact people_well_formed|]. split; [exact people_labels_distinct|].
  exact (Sheets.records_share_their_keys people people_well_formed
           people_labels_distinct).
Defined.

Lemma two_errors_in_the_log :
  writable (local_only titles) = true /\
  exists w1 w2 t1 t2,
    log_error (services := services (local_only titles)) test_parser
      "first" nothing = (Ok tt, w1, t1) /\
    log_error (services := services (local_only titles)) test_parser
      "second" w1 = (Ok tt, w2, t2) /\
    w2 !! "test_error.log" = Some (("" +:+ "first" +:+ nl) +:+ "second" +:+ nl).
Proof.
  split; [reflexivity|].
  destruct (Sheets.mem_log_error_accumulates (local_only titles) test_parser
              "first" "second" nothing eq_refl)
    as (w1 & w2 & t1 & t2 & E1 & E2 & Hlog & _).
  exists w1, w2, t1, t2. split; [exact E1|]. split; [exact E2|]. exact Hlog.
Defined.

End Uses.
